(* ===== verification/_CoqProject ===== *)
-Q . S2P
Prelude.v
PyStr.v
Utf8.v
Slugify.v
ExtractDoi.v
PyVal.v
PyDict.v
FrontMatter.v
ScanLoop.v
Merge.v
StableSort.v
FieldMapper.v
Url.v
PosixPath.v
Main.v
Script.v
ExitStatus.v
