(* ===== verification/Prelude.v ===== *)
(** * Verification of [src/scripts/openalex_to_hugo.py]

    The script creates a Hugo page for a scholarly article:
    [python openalex_to_hugo.py "Title" <doi-or-url>].  [main] checks the
    command line, normalises the DOI ([extract_doi]), makes the content
    directory, derives the page path from the title ([slugify]), refuses
    to overwrite an existing page (exit 3), creates the skeleton with
    [hugo new], fetches the work from the OpenAlex API
    ([fetch_openalex_by_doi]; exit 2 on 404), maps the response to the
    page fields ([pick_venue], [pick_authors], [pick_topics] and lines
    153-159), reads the skeleton's front matter ([read_front_matter]),
    patches it (lines 164-179) and writes it back ([write_front_matter]).
    Before [main], the module body checks that [requests] and [yaml]
    import (lines 4-9) and computes [SITE_ROOT] from the script's own
    path (line 11); lines 185-186 then call [main()].

    ** Files (in dependency order)
    - [Prelude]: Python text as code points ([pystr]), the exceptions
      ([pyexc]), the result monad, list traversal with exceptions
      ([mapR]), [startswith], the hint databases [pydb]/[pyrw], tactics,
      and for step relations an "all paths eventually" predicate
      ([eventually]) with termination from a measure ([sn_measure]).
    - [Utf8]: CPython's UTF-8 codec as [open(..., encoding="utf-8")]
      uses it: the strict decoder ([utf8_decode_strict]: shortest forms
      only, no surrogates, at most U+10FFFF, [UnicodeDecodeError]
      otherwise) and the encoder ([utf8_encode]: [UnicodeEncodeError] on
      a lone surrogate).
    - [PyStr]: the [str] methods the script calls ([strip], [lower] with
      the final-sigma rule, [strip(chars)], [find], [split(sep, 1)],
      [splitlines(keepends=True)], [join]), over a class [UnicodeDB] of
      Unicode tables with the laws the proofs use; [ascii_db] is an
      instance exact on ASCII, used by the examples and witnesses.
    - [Slugify]: [slugify] (lines 14-19); [re.sub] of maximal runs.
    - [ExtractDoi]: [extract_doi] (lines 21-27).
    - [PyVal], [PyDict]: JSON/YAML values, Python key equality
      ([True == 1 == 1.0]), truthiness, [int()], and the insertion-ordered
      dict with its invariant (no two equal keys).
    - [FrontMatter]: [read_front_matter] and [write_front_matter]
      (lines 72-125); the file system is a [gmap] from paths to bytes;
      reading decodes strictly and applies universal newlines; writing
      truncates the file, then encodes and appends each [f.write] chunk
      in turn ([write_chunks]), so an encoding error leaves the chunks
      written before it; the YAML library is a pair of section
      variables.
    - [ScanLoop]: the loop of lines 96-100 that finds the closing
      delimiter, as a step relation on (i, close_idx, program point),
      with an executable step and a fuelled runner.
    - [Merge]: the patch of the front matter in [main] (lines 164-179).
    - [StableSort]: [sorted(..., key, reverse=True)] as a stable
      insertion sort, with its uniqueness theorem.
    - [FieldMapper]: [pick_venue], [pick_authors], [pick_topics] and the
      mapped fields (lines 40-62, 153-159).
    - [Url]: [urllib.parse.quote] with UTF-8 (lines 31-32).
    - [PosixPath]: [os.path.join], [normpath], [dirname], [abspath]
      after CPython's [posixpath], and normal paths ([render]).
    - [Main]: [ensure_dirs], [hugo_new], [fetch_openalex_by_doi] and
      [main] (lines 11-12, 29-38, 64-70, 127-186) in a state monad [io]
      over a [world] (files, directories, stderr, stdout) with Python
      exceptions; the environment (SITE_ROOT, YAML, the [hugo] command,
      the HTTP client, the clock) is a set of section variables.
    - [Script]: the import guard (lines 4-9), [SITE_ROOT] (line 11) and
      the run of the module as a program ([script], [run_script]): the
      guard, then [main] on the computed [SITE_ROOT]; which imports
      succeed, the working directory and [__file__] are parameters.
    - [ExitStatus]: which [sys.exit] codes a run can raise, carried
      through every function [main] calls ([no_exit], [io_exits]).

    ** Theorems
    - Whole runs (Main): the spec's end-to-end scenario; a run never
      changes a file that existed before it; a 404 leaves the skeleton
      and the same command then exits 3; a header that is not a mapping
      (TOML) crashes with [TypeError]; a skeleton that is not UTF-8
      crashes with [UnicodeDecodeError] and stays; once the header is
      read and patched the page is written in full (with a dumper whose
      text is valid, as PyYAML's is), so no half-written page is left;
      an HTTP error status or a failing [hugo new] exits 1, not with
      their own codes; an existing page stops the run with 3 before
      [hugo new]; a file at [CONTENT_DIR] makes [os.makedirs] fail; the
      page is always [content/articles/<slug>.md]; the usage error.
    - UTF-8 (Utf8): decoding inverts encoding on valid text, decodes
      only to valid code points, and the two codecs fail only with their
      own exception, so no read or write can raise [SystemExit].
    - Front matter: write then read (through the bytes on disk) gives
      the dump back and the body less its first newline; the reader on
      each shape of text: no header, a header closed by the first later
      delimiter line (the lines between are the YAML, the lines after
      the body), and the malformed-header fallback; the guard of line
      93 is dead (helper [read_guard_dead]).
    - Merge: keys of the patched mapping (old keys in place, new keys
      appended in code order), values, untouched keys, error paths.
    - Field mapper: [map_fields] implements spec 4.5 on well-shaped
      responses (every field, every fallback); [pick_topics] refines
      "stable sort by decreasing score, first [limit], non-empty names"
      (through the uniqueness of the stable sort); author order; the
      venue is always truthy, so the [venue or ''] of line 177 is dead;
      at most [limit] topics.
    - Slug: the shape of every slug (the type invariant), idempotence,
      the [untitled] fallback.  DOI: the URL, [doi:] and bare branches,
      totality, and the empty-DOI case (helper [extract_doi_empty]).
    - URL: unquoting the request path gives back [doi:<doi>] (UTF-8 and
      percent-decoding written out), so distinct DOIs give distinct
      requests (helper [openalex_url_injective]); the DOI stays in one
      path segment; the only error is
      [UnicodeEncodeError] on a lone surrogate.
    - Closing-delimiter loop (ScanLoop): liveness (every execution
      eventually leaves the loop, with [close_idx] the first later line
      that starts with the delimiter, i.e. [find_close]) and the loop
      invariant on every reachable state (rule induction); helpers:
      every path is finite from any state, and the fuel bound of the
      runner.
    - Paths (PosixPath, Script): [SITE_ROOT] is
      two directories above the normalised script path and the page is
      [SITE_ROOT/content/articles/<slug>.md], a normal path.
    - Program (Script, ExitStatus): without [requests] or [yaml] the run
      exits 1 with the pip hint and changes nothing else; every run exits
      with 0, 1, 2 or 3 (a failing [hugo] or HTTP status gives 1, not
      its own code).

    ** Bounds and choices
    The functions of the script are structural fixpoints over finite
    lists.  The one fuelled definition is [ScanLoop.run_loop], the
    closing-delimiter loop run step by step: [max 1 (len lines)] steps
    suffice, since each iteration consumes an index of
    [range(1, len(lines))] and one more step leaves the loop.  The
    environment of [ExitStatus] is assumed not to call [sys.exit].  Code points are [N] ([<= 0x10FFFF] where a
    statement needs it); integers are [Z] (Python ints are unbounded);
    floats are exact rationals.  Witnesses run with [ascii_db] and a
    concrete environment (Main.v, FrontMatter.v).

    ** Not modelled
    The YAML library, the HTTP transport,
    JSON decoding and the [hugo] binary (parameters); the Unicode tables
    beyond the laws of [UnicodeDB]; NaN and infinities; I/O errors of
    the operating system (a full disk, permissions) other than a missing
    file; a file at a parent of [CONTENT_DIR] ([NotADirectoryError])
    and the directories [os.makedirs] creates above [CONTENT_DIR] (the
    world has no directory tree); the order in which CPython's timsort compares
    list sort keys (when two of them cannot be compared the model raises
    [TypeError], CPython only if it compares that pair); the traceback text of an uncaught
    exception (only the exit status 1); importing the module without
    running it (the [__name__] test is taken as true); a failing
    [os.getcwd()]. *)

From stdpp Require Import base list decidable.
From Stdlib Require Import NArith ZArith String Ascii.
Export String.StringSyntax.

(** ** Python text *)

(** A Python [str] is a sequence of Unicode code points. *)
Abbreviation pystr := (list N).

(** ASCII literals of the script, as code-point sequences. *)
Definition lit (s : string) : pystr := map N_of_ascii (list_ascii_of_string s).
Arguments lit s%_string.

Declare Scope py_scope.
Delimit Scope py_scope with py.
Open Scope py_scope.

(** ** Python exceptions and the result monad *)

(** The exceptions the script can raise or let escape.  [SystemExit n]
    is [sys.exit(n)]; [RequestException] is whatever [requests.get]
    raises before a response arrives (connection error, timeout). *)
Inductive pyexc :=
  | TypeError
  | AttributeError
  | IndexError
  | KeyError
  | ValueError
  | FileNotFoundError
  | FileExistsError
  | UnicodeEncodeError
  | UnicodeDecodeError
  | RequestException
  | HTTPError (status : Z)
  | CalledProcessError (returncode : Z)
  | SystemExit (code : Z).

#[export] Instance pyexc_eq_dec : EqDecision pyexc.
Proof. solve_decision. Defined.

Inductive result (A : Type) :=
  | Ok (a : A)
  | Err (e : pyexc).
Arguments Ok {A} a.
Arguments Err {A} e.

#[export] Instance result_ret : MRet result := fun A a => Ok a.
#[export] Instance result_bind : MBind result :=
  fun A B f r => match r with Ok a => f a | Err e => Err e end.
#[export] Instance result_fmap : FMap result :=
  fun A B f r => match r with Ok a => Ok (f a) | Err e => Err e end.

Definition raise {A} (e : pyexc) : result A := Err e.

Lemma bind_Ok {A B} (a : A) (f : A -> result B) : (Ok a ≫= f) = f a.
Proof. reflexivity. Qed.

Lemma bind_Err {A B} (e : pyexc) (f : A -> result B) : (Err e ≫= f) = Err e.
Proof. reflexivity. Qed.

Lemma bind_eq_Ok {A B} (r : result A) (f : A -> result B) (b : B) :
  (r ≫= f) = Ok b <-> exists a, r = Ok a /\ f a = Ok b.
Proof.
  destruct r as [a|e]; simpl; split.
  - intros H. eauto.
  - intros (a' & Ha & Hf). injection Ha as ->. exact Hf.
  - discriminate.
  - intros (a' & Ha & _). discriminate.
Qed.

(** [[f(x) for x in l]] where [f] may raise: the first exception wins. *)
Fixpoint mapR {A B} (f : A -> result B) (l : list A) : result (list B) :=
  match l with
  | [] => Ok []
  | x :: r => y ← f x; ys ← mapR f r; Ok (y :: ys)
  end.

Lemma mapR_Ok {A B} (f : A -> result B) (g : A -> B) (l : list A) :
  (forall x, In x l -> f x = Ok (g x)) -> mapR f l = Ok (map g l).
Proof.
  induction l as [|x l IH]; intros H; simpl; [done|].
  rewrite H by (by left). simpl. rewrite IH; [done|]. intros y Hy. apply H. by right.
Qed.

Lemma mapR_Err {A B} (f : A -> result B) (l1 l2 : list A) (x : A) (e : pyexc) :
  (forall y, In y l1 -> exists b, f y = Ok b) -> f x = Err e -> mapR f (l1 ++ x :: l2) = Err e.
Proof.
  induction l1 as [|y l1 IH]; intros H Hx; simpl; [by rewrite Hx|].
  destruct (H y (or_introl eq_refl)) as [b ->]. simpl.
  rewrite IH; [done| |done]. intros z Hz. apply H. by right.
Qed.

Lemma mapR_length {A B} (f : A -> result B) (l : list A) (l' : list B) :
  mapR f l = Ok l' -> List.length l' = List.length l.
Proof.
  revert l'; induction l as [|x l IH]; intros l' H; simpl in *; [by injection H as <-|].
  destruct (f x); simpl in H; [|discriminate].
  destruct (mapR f l) eqn:E; simpl in H; [|discriminate]. injection H as <-. simpl. by rewrite (IH _ eq_refl).
Qed.

Lemma mapR_Forall2 {A B} (f : A -> result B) (l : list A) (l' : list B) :
  mapR f l = Ok l' -> Forall2 (fun x y => f x = Ok y) l l'.
Proof.
  revert l'; induction l as [|x l IH]; intros l' H; simpl in H; [injection H as <-; constructor|].
  destruct (f x) as [b|] eqn:Ef; simpl in H; [|discriminate].
  destruct (mapR f l) eqn:E; simpl in H; [|discriminate]. injection H as <-. constructor; auto.
Qed.

Lemma Forall2_In_r {A B} (R : A -> B -> Prop) (l : list A) (k : list B) (y : B) :
  Forall2 R l k -> In y k -> exists x, In x l /\ R x y.
Proof.
  induction 1 as [|x y' l k Hxy _ IH]; [done|]. intros [<-|Hy]; [exists x; by split; [left|]|].
  destruct (IH Hy) as (x' & ? & ?). exists x'. split; [by right|done].
Qed.

Lemma mapR_Err_In {A B} (f : A -> result B) (l : list A) (e : pyexc) :
  mapR f l = Err e -> exists x, In x l /\ f x = Err e.
Proof.
  induction l as [|x l IH]; simpl; [discriminate|].
  destruct (f x) eqn:Ef; simpl; [|intros [= ->]; exists x; by split; [left|]].
  destruct (mapR f l); simpl; [discriminate|]. intros [= ->].
  destruct IH as (y & ? & ?); [done|]. exists y. split; [by right|done].
Qed.

Lemma mapR_app {A B} (f : A -> result B) (l1 l2 : list A) :
  mapR f (l1 ++ l2) = (x ← mapR f l1; y ← mapR f l2; Ok (x ++ y)).
Proof.
  induction l1 as [|a l1 IH]; simpl; [by destruct (mapR f l2)|].
  destruct (f a); simpl; [|done]. rewrite IH.
  destruct (mapR f l1); simpl; [|done]. by destruct (mapR f l2).
Qed.

Lemma mapR_Ok_iff {A B} (f : A -> result B) (l : list A) :
  (exists l', mapR f l = Ok l') <-> Forall (fun x => exists b, f x = Ok b) l.
Proof.
  split.
  - intros (l' & H%mapR_Forall2). induction H; constructor; eauto.
  - induction 1 as [|x l (b & Hb) _ (l' & IH)]; simpl; [eauto|]. rewrite Hb, IH. simpl. eauto.
Qed.

Create HintDb pydb discriminated.
Create Rewrite HintDb pyrw.
#[export] Hint Rewrite @bind_Ok @bind_Err : pyrw.

(** ** Generic list facts *)

Section Lists.
Context {A : Type} `{EqDecision A}.

(** [startswith] on sequences. *)
Fixpoint startswith (s p : list A) {struct p} : bool :=
  match p with
  | [] => true
  | c :: p' =>
      match s with
      | [] => false
      | d :: s' => bool_decide (c = d) && startswith s' p'
      end
  end.

Lemma startswith_spec (s p : list A) :
  startswith s p = true <-> exists r, s = p ++ r.
Proof.
  revert s; induction p as [|c p IH]; intros [|d s]; simpl.
  - split; eauto.
  - split; eauto.
  - split; [discriminate|]. intros (r & Hr). discriminate.
  - rewrite andb_true_iff, bool_decide_eq_true, IH. split.
    + intros [-> (r & ->)]. eauto.
    + intros (r & Hr). injection Hr as -> ->. eauto.
Qed.

Lemma startswith_nil (s : list A) : startswith s [] = true.
Proof. by destruct s. Qed.

Lemma startswith_app (p r : list A) : startswith (p ++ r) p = true.
Proof. apply startswith_spec. eauto. Qed.

Lemma startswith_app_l (s t p : list A) :
  startswith s p = true -> startswith (s ++ t) p = true.
Proof. rewrite !startswith_spec. intros (r & ->). exists (r ++ t). by rewrite app_assoc. Qed.
(** Matching a prefix across a concatenation. *)
Lemma startswith_app_split (a x p : list A) :
  startswith (a ++ x) p = startswith a (take (List.length a) p) && startswith x (drop (List.length a) p).
Proof.
  revert p; induction a as [|c a IH]; intros [|d p]; simpl; auto.
  by rewrite IH, andb_assoc.
Qed.
End Lists.

#[export] Hint Resolve startswith_app startswith_app_l : pydb.

(** ** Tactics *)

(** Case analysis on every boolean test and match in the goal. *)
Ltac case_tests :=
  repeat match goal with
  | |- context [if ?b then _ else _] => destruct b eqn:?
  | |- context [match ?x with _ => _ end] =>
      lazymatch x with context [match _ with _ => _ end] => fail | _ => destruct x eqn:? end
  end.

Ltac invc H := inversion H; subst; clear H.

(** [~ In x l] for closed [x] and [l]. *)
Ltac not_in_closed :=
  let H := fresh in
  vm_compute; intros H; repeat (destruct H as [H|H]; [discriminate H|]); exact H.

(** Split [x ← c; k = Ok b] into [c = Ok x] and [k x = Ok b], as long as
    the hypothesis is a bind. *)
Ltac ok_inv H :=
  repeat (cbn beta zeta in H;
          lazymatch type of H with
          | mbind _ _ = Ok _ => let E := fresh "E" in apply bind_eq_Ok in H as (? & E & H)
          end).

(** Turn boolean comparisons on [N] into propositions, everywhere. *)
Ltac nbool :=
  repeat first
    [ progress rewrite ?andb_true_iff, ?orb_true_iff, ?andb_false_iff, ?orb_false_iff,
        ?N.leb_le, ?N.ltb_lt, ?N.eqb_eq, ?N.leb_gt, ?N.ltb_ge, ?N.eqb_neq in *
    | match goal with H : _ /\ _ |- _ => destruct H end ].

Lemma filter_all_true {A} (f : A -> bool) (l : list A) :
  Forall (fun x => f x = true) l -> List.filter f l = l.
Proof. induction 1 as [|x l Hx _ IH]; simpl; [done|]. by rewrite Hx, IH. Qed.

Lemma forallb_Forall {A} (f : A -> bool) (l : list A) :
  forallb f l = true <-> Forall (fun x => f x = true) l.
Proof. rewrite forallb_forall, Forall_forall. done. Qed.

Lemma In_take {A} (n : nat) (l : list A) (x : A) : In x (take n l) -> In x l.
Proof. rewrite <- !list_elem_of_In. intros H. by apply (subseteq_take n l). Qed.

Lemma head_In {A} (l : list A) (x : A) : head l = Some x -> In x l.
Proof. destruct l; simpl; [done|]. intros [= ->]. by left. Qed.

Lemma head_rev_In {A} (l : list A) (x : A) : head (rev l) = Some x -> In x l.
Proof. intros H%head_In. by apply in_rev. Qed.

(** ** Transition systems

    Loops of the script are also modelled as step relations on an explicit
    state; [rtc], [nf] and [sn] are stdpp's reflexive-transitive closure,
    normal form and strong normalisation (every path is finite).
    [eventually R P x] is the branching-time "all paths eventually": [P]
    holds now, or [x] can step and every successor eventually satisfies [P]. *)
From stdpp Require Import relations.
From Stdlib Require Import Wf_nat.

Inductive eventually {A} (R : relation A) (P : A -> Prop) : A -> Prop :=
  | ev_now x : P x -> eventually R P x
  | ev_later x : red R x -> (forall y, R x y -> eventually R P y) -> eventually R P x.

Section Transition.
Context {A : Type} (R : relation A).

(** A measure that every step decreases makes every path finite. *)
Lemma sn_measure (m : A -> nat) :
  (forall x y, R x y -> m y < m x) -> forall x, sn R x.
Proof.
  intros Hm x. induction x as [x IH] using (well_founded_induction (well_founded_ltof _ m)).
  constructor. intros y Hy. apply IH, Hm, Hy.
Qed.

(** On a strongly normalising state with decidable progress, a property of
    every reachable normal form holds eventually on every path. *)
Lemma sn_eventually (P : A -> Prop) `{!forall y, Decision (red R y)} (x : A) :
  sn R x -> (forall y, rtc R x y -> nf R y -> P y) -> eventually R P x.
Proof.
  induction 1 as [x _ IH]; intros HP.
  destruct (decide (red R x)) as [Hr|Hnf].
  - apply ev_later; [done|]. intros y Hy. apply IH; [done|].
    intros z Hz. apply HP. by eapply rtc_l.
  - apply ev_now, HP; [constructor | done].
Qed.
End Transition.
