(* ===== verification/PyStr.v ===== *)
(** * Python string primitives used by the script

    The [str] methods and [re] character classes the script relies on,
    over code-point sequences ([pystr]):
    - [py_isspace] is CPython's [Py_UNICODE_ISSPACE] (the table is
      fixed and small, so it is written out); it drives [str.strip()]
      and the regular-expression class [\s];
    - the Unicode case and word tables ([str.lower], [\w]) are large, so
      they are an interface, the class [UnicodeDB], with the laws the
      proofs need; [ascii_db] is an instance (exact on ASCII) used to
      evaluate examples;
    - [py_lower] is CPython's [do_lower], including the context-sensitive
      final-sigma rule of [handle_capital_sigma];
    - [py_splitlines] is [str.splitlines(keepends=True)] and [py_find],
      [py_split1] are [str.find] and [str.split(sep, 1)]. *)

From stdpp Require Import base list decidable.
From Stdlib Require Import NArith ZArith Lia.
From S2P Require Import Prelude.

Open Scope N_scope.

(** ** Character classes with fixed tables *)

(** [Py_UNICODE_ISSPACE]. *)
Definition py_isspace (c : N) : bool :=
  ((9 <=? c) && (c <=? 13)) || ((28 <=? c) && (c <=? 32)) || (c =? 133) || (c =? 160)
  || (c =? 5760) || ((8192 <=? c) && (c <=? 8202)) || (c =? 8232) || (c =? 8233)
  || (c =? 8239) || (c =? 8287) || (c =? 12288).

(** [Py_UNICODE_ISLINEBREAK], the boundaries of [str.splitlines]. *)
Definition py_linebreak (c : N) : bool :=
  ((10 <=? c) && (c <=? 13)) || ((28 <=? c) && (c <=? 30)) || (c =? 133)
  || (c =? 8232) || (c =? 8233).

Definition LF : N := 10.
Definition CR : N := 13.
Definition HYPHEN : N := 45.
Definition UNDERSCORE : N := 95.
Definition COLON : N := 58.
Definition CAPITAL_SIGMA : N := 931.
Definition SMALL_SIGMA : N := 963.
Definition FINAL_SIGMA : N := 962.

Definition ascii_lower (c : N) : N :=
  if (65 <=? c) && (c <=? 90) then c + 32 else c.

Definition ascii_isword (c : N) : bool :=
  ((48 <=? c) && (c <=? 57)) || ((65 <=? c) && (c <=? 90))
  || ((97 <=? c) && (c <=? 122)) || (c =? UNDERSCORE).

(** ** The Unicode database interface *)

(** [ud_lower] is [_PyUnicode_ToLowerFull] (one code point to its full
    lowercase mapping), [ud_isword] is [SRE_UNI_IS_WORD] (alphanumeric or
    underscore), [ud_cased] and [ud_case_ignorable] are the Unicode
    properties read by the final-sigma rule, [ud_decimal] is
    [Py_UNICODE_TODECIMAL] (the value of a decimal digit, read by
    [int(str)]). *)
Class UnicodeDB := {
  ud_lower : N -> list N;
  ud_isword : N -> bool;
  ud_cased : N -> bool;
  ud_case_ignorable : N -> bool;
  ud_decimal : N -> option N;
  ud_lower_ascii : forall c, c < 128 -> ud_lower c = [ascii_lower c];
  ud_isword_ascii : forall c, c < 128 -> ud_isword c = ascii_isword c;
  ud_lower_idem : forall c d, In d (ud_lower c) -> ud_lower d = [d];
  ud_lower_sigma : ud_lower CAPITAL_SIGMA = [SMALL_SIGMA];
  ud_lower_final_sigma : ud_lower FINAL_SIGMA = [FINAL_SIGMA];
  ud_space_not_word : forall c, py_isspace c = true -> ud_isword c = false;
  ud_lower_colon : forall c, 128 <= c -> ~ In COLON (ud_lower c);
  ud_decimal_ascii : forall c, c < 128 ->
    ud_decimal c = if (48 <=? c) && (c <=? 57) then Some (c - 48) else None
}.

(** ** Stripping *)

Fixpoint dropwhile (p : N -> bool) (s : pystr) : pystr :=
  match s with
  | [] => []
  | c :: r => if p c then dropwhile p r else s
  end.

Definition lstrip_by (p : N -> bool) (s : pystr) : pystr := dropwhile p s.
Definition rstrip_by (p : N -> bool) (s : pystr) : pystr := rev (dropwhile p (rev s)).
Definition strip_by (p : N -> bool) (s : pystr) : pystr := rstrip_by p (lstrip_by p s).

(** [str.strip()], [str.rstrip()] and [str.strip(chars)]. *)
Definition py_strip (s : pystr) : pystr := strip_by py_isspace s.
Definition py_rstrip (s : pystr) : pystr := rstrip_by py_isspace s.
Definition py_strip_chars (chars : pystr) (s : pystr) : pystr :=
  strip_by (fun c => bool_decide (c ∈ chars)) s.

(** ** Searching and splitting *)

(** [s.find(sub)]: index of the first occurrence, or [-1]. *)
Fixpoint py_find (s sub : pystr) : Z :=
  if startswith s sub then 0%Z
  else match s with
       | [] => (-1)%Z
       | _ :: r => let k := py_find r sub in if (k <? 0)%Z then (-1)%Z else (k + 1)%Z
       end.

(** [s.split(sep, 1)]. *)
Definition py_split1 (s sep : pystr) : result (list pystr) :=
  match sep with
  | [] => raise ValueError
  | _ =>
      let i := py_find s sep in
      if (i <? 0)%Z then Ok [s]
      else Ok [take (Z.to_nat i) s; drop (Z.to_nat i + length sep) s]
  end.

(** [l[i]] on a list. *)
Definition py_index {A} (l : list A) (i : nat) : result A :=
  match l !! i with Some x => Ok x | None => raise IndexError end.

(** ** Lower case *)

Section Lower.
Context `{UnicodeDB}.

Definition prev_cased (before : pystr) : bool :=
  match dropwhile ud_case_ignorable before with d :: _ => ud_cased d | [] => false end.

(** [handle_capital_sigma]: [before] is the text before the sigma, in
    reverse order, [after] the text after it. *)
Definition sigma_form (before after : pystr) : N :=
  if prev_cased before then
    match dropwhile ud_case_ignorable after with
    | d :: _ => if ud_cased d then SMALL_SIGMA else FINAL_SIGMA
    | [] => FINAL_SIGMA
    end
  else SMALL_SIGMA.

(** [lower_ucs4] at each position of the original text. *)
Fixpoint lower_go (before s : pystr) : pystr :=
  match s with
  | [] => []
  | c :: r =>
      (if c =? CAPITAL_SIGMA then [sigma_form before r] else ud_lower c)
      ++ lower_go (c :: before) r
  end.

(** [str.lower()]. *)
Definition py_lower (s : pystr) : pystr := lower_go [] s.
End Lower.

(** ** [str.splitlines(keepends=True)] *)

(** [cur] is the line being read, in order. *)
Fixpoint splitlines_go (cur s : pystr) : list pystr :=
  match s with
  | [] => match cur with [] => [] | _ => [cur] end
  | c :: r =>
      if c =? CR then
        match r with
        | d :: r' => if d =? LF then (cur ++ [c; d]) :: splitlines_go [] r'
                     else (cur ++ [c]) :: splitlines_go [] r
        | [] => [cur ++ [c]]
        end
      else if py_linebreak c then (cur ++ [c]) :: splitlines_go [] r
      else splitlines_go (cur ++ [c]) r
  end.

Definition py_splitlines (s : pystr) : list pystr := splitlines_go [] s.

(** [''.join(l)]. *)
Definition py_join (l : list pystr) : pystr := concat l.

(** ** An instance of the database, exact on ASCII *)

(** ASCII letters, digits and underscore as in CPython; the Greek sigma
    pair for the final-sigma rule; every other code point is treated as
    an uncased non-word character that lowercases to itself.  It serves
    to evaluate the model on concrete text; the theorems hold for every
    instance. *)
Definition ascii_db_lower (c : N) : list N :=
  if c <? 128 then [ascii_lower c]
  else if c =? CAPITAL_SIGMA then [SMALL_SIGMA] else [c].

Definition ascii_db_cased (c : N) : bool :=
  ((65 <=? c) && (c <=? 90)) || ((97 <=? c) && (c <=? 122))
  || (c =? CAPITAL_SIGMA) || (c =? SMALL_SIGMA) || (c =? FINAL_SIGMA).

(** The ASCII [Case_Ignorable] code points: ' . : ^ ` *)
Definition ascii_db_case_ignorable (c : N) : bool :=
  (c =? 39) || (c =? 46) || (c =? COLON) || (c =? 94) || (c =? 96).

Lemma ascii_lower_lt (c : N) : c < 128 -> ascii_lower c < 128.
Proof. unfold ascii_lower. destruct ((65 <=? c) && (c <=? 90)) eqn:E; [|done]. nbool. lia. Qed.

Lemma ascii_lower_idem (c : N) : ascii_lower (ascii_lower c) = ascii_lower c.
Proof.
  unfold ascii_lower.
  destruct ((65 <=? c) && (c <=? 90)) eqn:E; rewrite ?E; [|done].
  apply andb_true_iff in E as [E1 E2]. apply N.leb_le in E1, E2.
  replace ((65 <=? c + 32) && (c + 32 <=? 90)) with false; [done|].
  symmetry. apply andb_false_iff. right. apply N.leb_gt. lia.
Qed.

#[export] Program Instance ascii_db : UnicodeDB := {
  ud_lower := ascii_db_lower;
  ud_isword c := if c <? 128 then ascii_isword c else false;
  ud_cased := ascii_db_cased;
  ud_case_ignorable := ascii_db_case_ignorable;
  ud_decimal c := if (48 <=? c) && (c <=? 57) then Some (c - 48) else None
}.
Next Obligation. intros c Hc. unfold ascii_db_lower. by rewrite (proj2 (N.ltb_lt _ _) Hc). Qed.
Next Obligation. intros c Hc. simpl. by rewrite (proj2 (N.ltb_lt _ _) Hc). Qed.
Next Obligation.
  intros c d Hd. unfold ascii_db_lower in *.
  destruct (c <? 128) eqn:Hc.
  - apply N.ltb_lt in Hc. destruct Hd as [<-|[]].
    rewrite (proj2 (N.ltb_lt _ _) (ascii_lower_lt c Hc)). by rewrite ascii_lower_idem.
  - apply N.ltb_ge in Hc. destruct (c =? CAPITAL_SIGMA) eqn:Hs; destruct Hd as [<-|[]].
    + reflexivity.
    + rewrite (proj2 (N.ltb_ge _ _) Hc), Hs. reflexivity.
Qed.
Next Obligation. reflexivity. Qed.
Next Obligation. reflexivity. Qed.
Next Obligation.
  intros c Hc. simpl. destruct (c <? 128) eqn:Hl; [|done].
  unfold py_isspace, ascii_isword, UNDERSCORE in *.
  nbool. lia.
Qed.
Next Obligation.
  intros c Hc. unfold ascii_db_lower, COLON.
  rewrite (proj2 (N.ltb_ge _ _) Hc).
  destruct (c =? CAPITAL_SIGMA) eqn:E; simpl; [|apply N.eqb_neq in E]; unfold CAPITAL_SIGMA, SMALL_SIGMA in *; lia.
Qed.
Next Obligation. reflexivity. Qed.

(** ** Lemmas: splitlines *)

Lemma splitlines_go_concat_le n : forall s cur, (length s <= n)%nat ->
  concat (splitlines_go cur s) = cur ++ s.
Proof.
  induction n as [|n IH]; intros [|c r] cur Hl; simpl in *; try lia;
    try (destruct cur; simpl; by rewrite ?app_nil_r).
  destruct (c =? CR); [destruct r as [|d r']; [simpl; by rewrite !app_nil_r|]|];
    [destruct (d =? LF)|destruct (py_linebreak c)]; cbn [concat];
    rewrite IH by (simpl in *; lia); by rewrite <- ?app_assoc.
Qed.

(** Joining the lines gives the text back. *)
Lemma py_splitlines_concat (s : pystr) : concat (py_splitlines s) = s.
Proof. apply (splitlines_go_concat_le (length s)). lia. Qed.

Lemma splitlines_go_cons (cur r : pystr) (c : N) :
  splitlines_go cur (c :: r) =
  if c =? CR then
    match r with
    | d :: r' => if d =? LF then (cur ++ [c; d]) :: splitlines_go [] r'
                 else (cur ++ [c]) :: splitlines_go [] r
    | [] => [cur ++ [c]]
    end
  else if py_linebreak c then (cur ++ [c]) :: splitlines_go [] r
  else splitlines_go (cur ++ [c]) r.
Proof. reflexivity. Qed.

#[local] Arguments splitlines_go : simpl never.

(** Splitting distributes over a concatenation at a line boundary (a
    [CR] boundary must not be followed by [LF], which would merge). *)
Lemma splitlines_go_app_le n : forall x e y cur, (length x <= n)%nat ->
  py_linebreak e = true -> (e = CR -> head y <> Some LF) ->
  splitlines_go cur (x ++ e :: y) = splitlines_go cur (x ++ [e]) ++ splitlines_go [] y.
Proof.
  induction n as [|n IH]; intros x e y cur Hl He Hcr.
  - destruct x; [|simpl in Hl; lia]. simpl. rewrite !splitlines_go_cons, He.
    destruct (e =? CR) eqn:Ec; [apply N.eqb_eq in Ec|].
    + destruct y as [|d y]; [done|]. destruct (d =? LF) eqn:Ed; [|done].
      apply N.eqb_eq in Ed. subst. by destruct (Hcr eq_refl).
    + done.
  - destruct x as [|c x]; [apply (IH []); simpl; (simpl in *; first [reflexivity|lia|assumption])|]. simpl in Hl |- *.
    rewrite !splitlines_go_cons.
    destruct (c =? CR).
    + destruct x as [|d x]; simpl.
      * destruct (e =? LF); [done|].
        specialize (IH [] e y []). simpl in IH. rewrite IH; (simpl in *; first [reflexivity|lia|assumption]).
      * destruct (d =? LF); simpl; [rewrite IH; (simpl in *; first [reflexivity|lia|assumption])|].
        rewrite (app_comm_cons x (e :: y) d), (app_comm_cons x [e] d), IH; simpl; (simpl in *; first [reflexivity|lia|assumption]).
    + destruct (py_linebreak c); simpl; rewrite IH; (simpl in *; first [reflexivity|lia|assumption]).
Qed.

Lemma splitlines_app (x y : pystr) (e : N) :
  py_linebreak e = true -> (e = CR -> head y <> Some LF) ->
  py_splitlines (x ++ e :: y) = py_splitlines (x ++ [e]) ++ py_splitlines y.
Proof. intros. by apply (splitlines_go_app_le (length x)). Qed.

(** Text with no line break is one line. *)
Lemma splitlines_go_noline (s cur : pystr) :
  Forall (fun c => py_linebreak c = false) s -> cur ++ s <> [] ->
  splitlines_go cur s = [cur ++ s].
Proof.
  revert cur; induction s as [|c s IH]; intros cur Hs Hne.
  - rewrite app_nil_r in *. by destruct cur.
  - rewrite splitlines_go_cons. inversion Hs as [|? ? Hc Hs']; subst.
    assert (Hcr : (c =? CR) = false).
    { apply N.eqb_neq. intros ->. discriminate. }
    rewrite Hcr, Hc, IH by (auto; intros Hn; by destruct cur). by rewrite <- app_assoc.
Qed.

(** ** Lemmas: dropwhile and strip *)

Lemma dropwhile_app (p : N -> bool) (l m : pystr) :
  dropwhile p (l ++ m) =
  if forallb p l then dropwhile p m else dropwhile p l ++ m.
Proof. induction l as [|c l IH]; simpl; [done|]. destruct (p c); simpl; auto. Qed.

Lemma dropwhile_head (p : N -> bool) (s : pystr) (c : N) :
  head (dropwhile p s) = Some c -> p c = false.
Proof.
  induction s as [|d s IH]; simpl; [discriminate|].
  destruct (p d) eqn:E; [auto|]. intros [= <-]. done.
Qed.

Lemma dropwhile_id (p : N -> bool) (s : pystr) :
  (forall c, head s = Some c -> p c = false) -> dropwhile p s = s.
Proof. destruct s as [|c s]; simpl; [done|]. intros H. by rewrite H. Qed.

Lemma dropwhile_suffix (p : N -> bool) (s : pystr) : exists a, s = a ++ dropwhile p s.
Proof.
  induction s as [|c s [a Ha]]; simpl; [by exists []|].
  destruct (p c); [exists (c :: a); simpl; congruence | by exists []].
Qed.

(** [strip_by] cuts a prefix and a suffix. *)
Lemma strip_by_infix (p : N -> bool) (s : pystr) :
  exists a b, s = a ++ strip_by p s ++ b.
Proof.
  unfold strip_by, rstrip_by, lstrip_by.
  destruct (dropwhile_suffix p s) as [a Ha].
  destruct (dropwhile_suffix p (rev (dropwhile p s))) as [b Hb].
  exists a, (rev b). rewrite <- rev_app_distr, <- Hb, rev_involutive. done.
Qed.

Lemma strip_by_head (p : N -> bool) (s : pystr) (c : N) :
  head (strip_by p s) = Some c -> p c = false.
Proof.
  unfold strip_by, rstrip_by, lstrip_by.
  destruct (dropwhile p s) as [|d t] eqn:E; [discriminate|].
  pose proof (dropwhile_head p s d) as Hd. rewrite E in Hd. specialize (Hd eq_refl).
  simpl. rewrite dropwhile_app. simpl. rewrite Hd.
  destruct (forallb p (rev t)); simpl; [congruence|].
  rewrite rev_app_distr. simpl. congruence.
Qed.

Lemma strip_by_last (p : N -> bool) (s : pystr) (c : N) :
  head (rev (strip_by p s)) = Some c -> p c = false.
Proof.
  unfold strip_by, rstrip_by. rewrite rev_involutive. apply dropwhile_head.
Qed.

Lemma strip_by_id (p : N -> bool) (s : pystr) :
  (forall c, head s = Some c -> p c = false) ->
  (forall c, head (rev s) = Some c -> p c = false) -> strip_by p s = s.
Proof.
  intros H1 H2. unfold strip_by, rstrip_by, lstrip_by.
  rewrite (dropwhile_id p s H1), (dropwhile_id p (rev s) H2). apply rev_involutive.
Qed.

Lemma strip_by_in (p : N -> bool) (s : pystr) (c : N) : In c (strip_by p s) -> In c s.
Proof.
  destruct (strip_by_infix p s) as (a & b & Hs). intros Hc.
  rewrite Hs. apply in_or_app. right. apply in_or_app. by left.
Qed.

(** ** Lemmas: lower case *)

Section LowerLemmas.
Context `{UnicodeDB}.

Lemma lower_fixed_no_capital (d : N) : ud_lower d = [d] -> d <> CAPITAL_SIGMA.
Proof. intros Hd ->. rewrite ud_lower_sigma in Hd. discriminate. Qed.

Lemma sigma_form_fixed (before after : pystr) :
  ud_lower (sigma_form before after) = [sigma_form before after].
Proof.
  assert (Hs : ud_lower SMALL_SIGMA = [SMALL_SIGMA]).
  { apply (ud_lower_idem CAPITAL_SIGMA). rewrite ud_lower_sigma. by left. }
  unfold sigma_form. case_tests; auto using ud_lower_final_sigma.
Qed.

(** Every code point [str.lower()] produces is its own lowercase, and
    none is a capital sigma. *)
Lemma lower_go_out (before s : pystr) (d : N) :
  In d (lower_go before s) -> ud_lower d = [d] /\ d <> CAPITAL_SIGMA.
Proof.
  revert before; induction s as [|c s IH]; intros before; simpl; [done|].
  rewrite in_app_iff. intros [Hd|Hd]; [|eauto].
  assert (ud_lower d = [d]); [|eauto using lower_fixed_no_capital].
  destruct (c =? CAPITAL_SIGMA).
  - destruct Hd as [<-|[]]. apply sigma_form_fixed.
  - by apply (ud_lower_idem c).
Qed.

Lemma lower_go_id (before s : pystr) :
  Forall (fun c => ud_lower c = [c]) s -> lower_go before s = s.
Proof.
  revert before; induction s as [|c s IH]; intros before Hs; simpl; [done|].
  inversion Hs as [|? ? Hc Hs']; subst.
  rewrite (proj2 (N.eqb_neq c CAPITAL_SIGMA)) by (by apply lower_fixed_no_capital).
  rewrite Hc, IH; done.
Qed.
End LowerLemmas.

Lemma dropwhile_all (p : N -> bool) (s : pystr) :
  Forall (fun c => p c = true) s -> dropwhile p s = [].
Proof. induction 1 as [|c s Hc _ IH]; simpl; [done|]. by rewrite Hc. Qed.

Lemma strip_by_all (p : N -> bool) (s : pystr) :
  Forall (fun c => p c = true) s -> strip_by p s = [].
Proof. intros Hs. unfold strip_by, lstrip_by, rstrip_by. by rewrite (dropwhile_all p s Hs). Qed.

(** Stripping text that starts and ends with kept characters. *)
Lemma rstrip_by_app (p : N -> bool) (a x : pystr) :
  (forall c, head (rev a) = Some c -> p c = false) ->
  rstrip_by p (a ++ x) = a ++ rstrip_by p x.
Proof.
  intros Ha. unfold rstrip_by. rewrite rev_app_distr, dropwhile_app.
  destruct (forallb p (rev x)) eqn:Hx.
  - rewrite dropwhile_id, rev_involutive by done.
    rewrite dropwhile_all by (by apply forallb_Forall). by rewrite app_nil_r.
  - by rewrite rev_app_distr, rev_involutive.
Qed.

Lemma strip_by_app (p : N -> bool) (a x : pystr) :
  a <> [] ->
  (forall c, head a = Some c -> p c = false) ->
  (forall c, head (rev a) = Some c -> p c = false) ->
  strip_by p (a ++ x) = a ++ rstrip_by p x.
Proof.
  intros Hne H1 H2. unfold strip_by, lstrip_by.
  destruct a as [|c a]; [done|].
  rewrite dropwhile_id by (simpl; auto). by apply rstrip_by_app.
Qed.

Lemma rstrip_by_idem (p : N -> bool) (s : pystr) : rstrip_by p (rstrip_by p s) = rstrip_by p s.
Proof.
  unfold rstrip_by. rewrite rev_involutive. f_equal.
  apply dropwhile_id. apply dropwhile_head.
Qed.

Lemma forallb_rev (p : N -> bool) (l : pystr) : forallb p (rev l) = forallb p l.
Proof.
  induction l as [|x l IH]; simpl; [done|].
  rewrite forallb_app, IH. simpl. by rewrite andb_true_r, andb_comm.
Qed.

Lemma rstrip_by_app_r (p : N -> bool) (a y : pystr) :
  forallb p y = false -> rstrip_by p (a ++ y) = a ++ rstrip_by p y.
Proof.
  intros Hy. unfold rstrip_by. rewrite rev_app_distr, dropwhile_app, forallb_rev, Hy.
  by rewrite rev_app_distr, rev_involutive.
Qed.

(** The first character [lstrip] keeps. *)
Lemma dropwhile_split (p : N -> bool) (s : pystr) :
  forallb p s = false ->
  exists a c m, s = a ++ c :: m /\ forallb p a = true /\ p c = false.
Proof.
  induction s as [|d s IH]; simpl; [discriminate|].
  destruct (p d) eqn:Hd; simpl.
  - intros (a & c & m & -> & Ha & Hc)%IH. exists (d :: a), c, m. simpl. by rewrite Hd.
  - intros _. by exists [], d, s.
Qed.

(** [strip] may cut either end first. *)
Lemma lstrip_rstrip (p : N -> bool) (s : pystr) :
  lstrip_by p (rstrip_by p s) = rstrip_by p (lstrip_by p s).
Proof.
  unfold lstrip_by. destruct (forallb p s) eqn:Hs.
  - apply forallb_Forall in Hs.
    rewrite (dropwhile_all p s Hs). unfold rstrip_by at 1.
    rewrite (dropwhile_all p (rev s)); [done|]. apply forallb_Forall. rewrite forallb_rev. by apply forallb_Forall.
  - destruct (dropwhile_split p s Hs) as (a & c & m & -> & Ha & Hc).
    assert (Hcm : rstrip_by p (c :: m) = c :: rstrip_by p m).
    { apply (rstrip_by_app p [c] m). simpl. by intros ? [= <-]. }
    rewrite rstrip_by_app_r by (simpl; by rewrite Hc).
    rewrite !dropwhile_app, Ha, Hcm. simpl. by rewrite Hc.
Qed.

Lemma strip_rstrip (p : N -> bool) (s : pystr) : strip_by p (rstrip_by p s) = strip_by p s.
Proof. unfold strip_by. by rewrite lstrip_rstrip, rstrip_by_idem. Qed.

(** ** Lemmas: find and split *)

Lemma py_find_cons (c : N) (s sub : pystr) :
  py_find (c :: s) sub =
  if startswith (c :: s) sub then 0%Z
  else let k := py_find s sub in if (k <? 0)%Z then (-1)%Z else (k + 1)%Z.
Proof. reflexivity. Qed.

(** [find] succeeds on text that contains the needle. *)
Lemma py_find_start (s sub : pystr) : startswith s sub = true -> py_find s sub = 0%Z.
Proof. destruct s; simpl; intros ->; done. Qed.

Lemma py_find_infix (a sub b : pystr) : (0 <= py_find (a ++ sub ++ b) sub)%Z.
Proof.
  induction a as [|c a IH].
  - simpl. rewrite py_find_start by apply startswith_app. lia.
  - rewrite <- app_comm_cons, py_find_cons. cbv zeta. destruct (startswith _ _); [lia|].
    destruct (Z.ltb_spec (py_find (a ++ sub ++ b) sub) 0); lia.
Qed.

Lemma py_split1_found (s sep : pystr) :
  sep <> [] -> (0 <= py_find s sep)%Z ->
  py_split1 s sep = Ok [take (Z.to_nat (py_find s sep)) s;
                        drop (Z.to_nat (py_find s sep) + length sep) s].
Proof.
  intros Hne Hf. unfold py_split1. destruct sep as [|c sep]; [done|].
  destruct (py_find s (c :: sep) <? 0)%Z eqn:E; [lia|done].
Qed.

Section LowerColon.
Context `{UnicodeDB}.

(** A colon in [s.lower()] comes from a colon in [s]. *)
Lemma lower_go_colon (before s : pystr) : In COLON (lower_go before s) -> In COLON s.
Proof.
  revert before; induction s as [|c s IH]; intros before; simpl; [done|].
  rewrite in_app_iff. intros [Hc|Hc]; [|right; eauto].
  left. destruct (c =? CAPITAL_SIGMA).
  - destruct Hc as [Hc|[]]. unfold sigma_form in Hc. exfalso.
    destruct (prev_cased before); [|discriminate].
    destruct (dropwhile ud_case_ignorable s); [discriminate|].
    destruct (ud_cased _); discriminate.
  - destruct (N.lt_ge_cases c 128) as [Hl|Hl].
    + rewrite ud_lower_ascii in Hc by done. destruct Hc as [Hc|[]].
      unfold ascii_lower, COLON in *. destruct ((65 <=? c) && (c <=? 90)) eqn:E; nbool; lia.
    + by apply ud_lower_colon in Hc.
Qed.
End LowerColon.

Lemma startswith_app_long (a x p : pystr) :
  (length p <= length a)%nat -> startswith (a ++ x) p = startswith a p.
Proof.
  revert a; induction p as [|d p IH]; intros a Hl; [done|].
  destruct a as [|c a]; simpl in Hl; [lia|]. simpl. rewrite IH by lia. done.
Qed.

Lemma py_find_length (s sub : pystr) :
  (0 <= py_find s sub)%Z -> (length sub <= length s)%nat.
Proof.
  induction s as [|c s IH].
  - simpl. destruct sub; simpl; [lia|]. lia.
  - rewrite py_find_cons. cbv zeta.
    destruct (startswith (c :: s) sub) eqn:E.
    + intros _. apply startswith_spec in E as (r & ->). rewrite length_app. lia.
    + destruct (Z.ltb_spec (py_find s sub) 0); [lia|]. intros _. simpl. specialize (IH ltac:(lia)). lia.
Qed.

(** An occurrence inside [a] is found in [a ++ x] at the same place. *)
Lemma py_find_app_l (a x sub : pystr) :
  (0 <= py_find a sub)%Z -> py_find (a ++ x) sub = py_find a sub.
Proof.
  induction a as [|c a IH]; intros Hf.
  - pose proof (py_find_length _ _ Hf) as Hl. destruct sub; [|simpl in Hl; lia].
    by rewrite !py_find_start by apply startswith_nil.
  - pose proof (py_find_length _ _ Hf) as Hl.
    rewrite <- app_comm_cons, !py_find_cons, app_comm_cons, startswith_app_long by done.
    rewrite py_find_cons in Hf. cbv zeta in *.
    destruct (startswith (c :: a) sub); [done|].
    revert Hf. destruct (Z.ltb_spec (py_find a sub) 0); [lia|]. intros Hf.
    rewrite IH by lia. destruct (Z.ltb_spec (py_find a sub) 0); [lia|done].
Qed.

Section LowerApp.
Context `{UnicodeDB}.

(** Lowercasing splits at a boundary when the left part has no
    capital sigma (whose form looks ahead). *)
Lemma lower_go_app (before a x : pystr) :
  Forall (fun c => c <> CAPITAL_SIGMA) a ->
  lower_go before (a ++ x) = lower_go before a ++ lower_go (rev a ++ before) x.
Proof.
  revert before; induction a as [|c a IH]; intros before Ha; simpl; [done|].
  inversion Ha as [|? ? Hc Ha']; subst.
  rewrite (proj2 (N.eqb_neq c CAPITAL_SIGMA) Hc), IH by done.
  by rewrite <- !app_assoc.
Qed.

Lemma lower_go_ascii (before s : pystr) :
  Forall (fun c => c < 128) s -> lower_go before s = map ascii_lower s.
Proof.
  revert before; induction s as [|c s IH]; intros before Hs; simpl; [done|].
  inversion Hs as [|? ? Hc Hs']; subst.
  rewrite (proj2 (N.eqb_neq c CAPITAL_SIGMA)) by (unfold CAPITAL_SIGMA; lia).
  rewrite ud_lower_ascii, IH by done. done.
Qed.
End LowerApp.

Lemma ascii_lower_inv (c d : N) :
  ascii_lower c = d -> c = d \/ (c + 32 = d /\ 65 <= c <= 90).
Proof. unfold ascii_lower. destruct ((65 <=? c) && (c <=? 90)) eqn:E; nbool; lia. Qed.

(** The two code points whose ASCII lowercase is a given lowercase letter. *)
Lemma ascii_lower_letter (c d : N) :
  ascii_lower c = d -> 97 <= d <= 122 -> c = d \/ c = d - 32.
Proof. intros Hc Hd. apply ascii_lower_inv in Hc. lia. Qed.

Lemma ascii_lower_nonletter (c d : N) :
  ascii_lower c = d -> d < 65 -> c = d.
Proof. intros Hc Hd. apply ascii_lower_inv in Hc. lia. Qed.
