(* ===== verification/Utf8.v ===== *)
(** * UTF-8: the codec of the script's text files and URLs
    (openalex_to_hugo.py, lines 32, 73-74 and 115-125)

    The page file is opened with [encoding="utf-8"] for reading (line 73)
    and writing (line 115), and [urllib.parse.quote] encodes to UTF-8
    (line 32).  [utf8_encode_cp] is CPython's encoder for one code point
    (shifts and masks as in [Objects/stringlib/codecs.h]; a lone surrogate
    raises [UnicodeEncodeError] under [errors='strict']); [utf8_encode]
    encodes a str.  [utf8_decode_strict] is CPython's strict decoder: a
    lead byte [C2-DF], [E0-EF] or [F0-F4] announces two, three or four
    bytes, continuation bytes are [80-BF], and the second byte after
    [E0], [ED], [F0], [F4] is narrowed so that overlong forms, surrogates
    and code points above [0x10FFFF] are refused; any other byte, or a
    sequence cut short, raises [UnicodeDecodeError].

    Theorems: decoding the encoding of a str gives it back; what the
    decoder accepts is valid text (no surrogates, at most [0x10FFFF]),
    so valid text round-trips through bytes; the encoder fails exactly on
    lone surrogates and the decoder only with [UnicodeDecodeError]; the
    bytes of a str are bytes. *)

From stdpp Require Import base list decidable.
From Stdlib Require Import NArith ZArith Lia.
From S2P Require Import Prelude PyStr.

#[local] Open Scope N_scope.

(** UTF-8, one code point ([0 <= c <= 0x10FFFF] for a Python str). *)
Definition utf8_encode_cp (c : N) : result (list N) :=
  if c <? 0x80 then Ok [c]
  else if c <? 0x800 then
    Ok [N.lor 0xC0 (N.shiftr c 6); N.lor 0x80 (N.land c 0x3F)]
  else if (0xD800 <=? c) && (c <=? 0xDFFF) then raise UnicodeEncodeError
  else if c <? 0x10000 then
    Ok [N.lor 0xE0 (N.shiftr c 12); N.lor 0x80 (N.land (N.shiftr c 6) 0x3F);
        N.lor 0x80 (N.land c 0x3F)]
  else
    Ok [N.lor 0xF0 (N.shiftr c 18); N.lor 0x80 (N.land (N.shiftr c 12) 0x3F);
        N.lor 0x80 (N.land (N.shiftr c 6) 0x3F); N.lor 0x80 (N.land c 0x3F)].

(** [s.encode("utf-8")]. *)
Definition utf8_encode (s : pystr) : result (list N) :=
  bss ← mapR utf8_encode_cp s;
  Ok (concat bss).

(** A code point of a Python str that UTF-8 can encode. *)
Definition valid_cp (c : N) : Prop := c <= 0x10FFFF /\ ~ (0xD800 <= c <= 0xDFFF).

#[export] Instance valid_cp_dec (c : N) : Decision (valid_cp c).
Proof. unfold valid_cp. apply _. Defined.

(** ** The strict decoder *)

(** A continuation byte. *)
Definition is_cont (b : N) : bool := (0x80 <=? b) && (b <=? 0xBF).

(** The second byte of a three-byte sequence: no overlong form after
    [E0], no surrogate after [ED]. *)
Definition second3_ok (b0 b1 : N) : bool :=
  if b0 =? 0xE0 then (0xA0 <=? b1) && (b1 <=? 0xBF)
  else if b0 =? 0xED then (0x80 <=? b1) && (b1 <=? 0x9F)
  else is_cont b1.

(** The second byte of a four-byte sequence: no overlong form after
    [F0], nothing above [0x10FFFF] after [F4]. *)
Definition second4_ok (b0 b1 : N) : bool :=
  if b0 =? 0xF0 then (0x90 <=? b1) && (b1 <=? 0xBF)
  else if b0 =? 0xF4 then (0x80 <=? b1) && (b1 <=? 0x8F)
  else is_cont b1.

(** [bs.decode("utf-8")] with [errors='strict']. *)
Fixpoint utf8_decode_strict (bs : list N) : result pystr :=
  match bs with
  | [] => Ok []
  | b0 :: r =>
      if b0 <? 0x80 then cons b0 <$> utf8_decode_strict r
      else if (0xC2 <=? b0) && (b0 <=? 0xDF) then
        match r with
        | b1 :: r1 =>
            if is_cont b1 then cons ((b0 - 0xC0) * 64 + (b1 - 0x80)) <$> utf8_decode_strict r1
            else raise UnicodeDecodeError
        | [] => raise UnicodeDecodeError
        end
      else if (0xE0 <=? b0) && (b0 <=? 0xEF) then
        match r with
        | b1 :: b2 :: r2 =>
            if second3_ok b0 b1 && is_cont b2 then
              cons ((b0 - 0xE0) * 4096 + (b1 - 0x80) * 64 + (b2 - 0x80)) <$> utf8_decode_strict r2
            else raise UnicodeDecodeError
        | _ => raise UnicodeDecodeError
        end
      else if (0xF0 <=? b0) && (b0 <=? 0xF4) then
        match r with
        | b1 :: b2 :: b3 :: r3 =>
            if second4_ok b0 b1 && is_cont b2 && is_cont b3 then
              cons ((b0 - 0xF0) * 262144 + (b1 - 0x80) * 4096 + (b2 - 0x80) * 64 + (b3 - 0x80))
                <$> utf8_decode_strict r3
            else raise UnicodeDecodeError
        | _ => raise UnicodeDecodeError
        end
      else raise UnicodeDecodeError
  end.

(** ** Lemmas: the encoder *)

(** An OR with a value below the low bits of [a] is an addition. *)
Lemma lor_disjoint (a x k : N) : a mod 2 ^ k = 0 -> x < 2 ^ k -> N.lor a x = a + x.
Proof.
  intros Ha Hx. assert (Hland : N.land a x = 0).
  { apply N.bits_inj_0. intros n. rewrite N.land_spec.
    destruct (N.lt_ge_cases n k) as [Hn|Hn].
    - rewrite <- (N.mod_pow2_bits_low a k n Hn), Ha. done.
    - rewrite <- (N.mod_small x (2 ^ k) Hx), (N.mod_pow2_bits_high x k n Hn). apply andb_false_r. }
  by rewrite <- N.lxor_lor, <- N.add_nocarry_lxor.
Qed.

Lemma land_3F (c : N) : N.land c 0x3F = c mod 64.
Proof. change 0x3F with (N.ones 6). by rewrite N.land_ones. Qed.

Lemma byte_lor (a x k : N) : a mod 2 ^ k = 0 -> x < 2 ^ k -> a + 2 ^ k <= 256 -> N.lor a x < 256.
Proof. intros Ha Hx Hk. rewrite (lor_disjoint a x k) by done. lia. Qed.

Lemma cont_byte (m : N) : N.lor 0x80 (N.land m 0x3F) < 256.
Proof. rewrite land_3F. apply (byte_lor _ _ 6); [done| |done]. apply N.mod_lt. lia. Qed.

Ltac lead_byte k :=
  apply (byte_lor _ _ k); [done| rewrite N.shiftr_div_pow2; apply N.Div0.div_lt_upper_bound; simpl; lia|done].

(** The bytes of a code point of a Python str are bytes. *)
Lemma utf8_encode_cp_bytes (c : N) (bs : list N) :
  c <= 0x10FFFF -> utf8_encode_cp c = Ok bs -> Forall (fun b => b < 256) bs.
Proof.
  intros Hc. unfold utf8_encode_cp. case_tests; nbool; try discriminate; intros [= <-];
    repeat constructor; first [apply cont_byte | lead_byte 5%N | lead_byte 4%N | lead_byte 3%N | lia].
Qed.

Lemma ltb_false (a b : N) : b <= a -> (a <? b) = false.
Proof. intros H. by apply N.ltb_ge. Qed.

Lemma ltb_true (a b : N) : a < b -> (a <? b) = true.
Proof. intros H. by apply N.ltb_lt. Qed.

(** [lia] with divisions and remainders by constants as fresh atoms. *)
Ltac divmod_atoms :=
  repeat match goal with
  | |- context [?x mod ?k] => let v := fresh "m" in set (v := x mod k) in *; clearbody v
  | H : context [?x mod ?k] |- _ =>
      lazymatch type of H with forall _, _ => fail | _ => let v := fresh "m" in set (v := x mod k) in *; clearbody v end
  end;
  repeat match goal with
  | |- context [?x / ?k] => let v := fresh "q" in set (v := x / k) in *; clearbody v
  | H : context [?x / ?k] |- _ => let v := fresh "q" in set (v := x / k) in *; clearbody v
  end.


(** Decide every comparison of the goal by [lia], dropping the branches
    the hypotheses rule out. *)
Ltac decide_tests :=
  repeat match goal with
  | |- context [?a <? ?b] => destruct (N.ltb_spec a b); try (exfalso; lia)
  | |- context [?a <=? ?b] => destruct (N.leb_spec a b); try (exfalso; lia)
  | |- context [?a =? ?b] => destruct (N.eqb_spec a b); try (exfalso; lia)
  end.

Lemma utf8_encode_cp_ok (c : N) :
  (exists bs, utf8_encode_cp c = Ok bs) <-> ~ (0xD800 <= c <= 0xDFFF).
Proof.
  unfold utf8_encode_cp. case_tests; nbool; split; try (intros (? & ?); discriminate); eauto; lia.
Qed.


(** ** Lemmas: decoding *)

(** The strict decoder reads back the bytes of one code point of a str. *)
Lemma utf8_decode_strict_cp (c : N) (bs r : list N) :
  c <= 0x10FFFF -> utf8_encode_cp c = Ok bs ->
  utf8_decode_strict (bs ++ r) = cons c <$> utf8_decode_strict r.
Proof.
  intros Hc. unfold utf8_encode_cp. rewrite ?N.shiftr_div_pow2, ?land_3F.
  change (2 ^ 6) with 64. change (2 ^ 12) with 4096. change (2 ^ 18) with 262144.
  assert (Hm : forall m, m mod 64 < 64) by (intros; apply N.mod_lt; lia).
  pose proof (N.Div0.div_mod c 64) as D1.
  pose proof (N.Div0.div_mod (c / 64) 64) as D2. rewrite N.Div0.div_div in D2. change (64 * 64) with 4096 in D2.
  pose proof (N.Div0.div_mod (c / 4096) 64) as D3. rewrite N.Div0.div_div in D3. change (4096 * 64) with 262144 in D3.
  pose proof (Hm c). pose proof (Hm (c / 64)). pose proof (Hm (c / 4096)).
  case_tests; nbool; try discriminate; intros [= <-]; cbn [app utf8_decode_strict];
    repeat (rewrite (lor_disjoint 0x80 _ 6) by (done || apply Hm));
    [| rewrite (lor_disjoint 0xC0 _ 5) by (done || (simpl; apply N.Div0.div_lt_upper_bound; lia))
     | rewrite (lor_disjoint 0xE0 _ 4) by (done || (simpl; apply N.Div0.div_lt_upper_bound; lia))
     | rewrite (lor_disjoint 0xF0 _ 3) by (done || (simpl; apply N.Div0.div_lt_upper_bound; lia))];
    unfold second3_ok, second4_ok, is_cont; clear Hm; divmod_atoms; decide_tests; cbn [andb];
    match goal with |- (cons ?x <$> _) = _ => replace x with c by lia end; reflexivity.
Qed.

Lemma fmap_cons_Ok (x : N) (d : result pystr) (s : pystr) :
  (cons x <$> d) = Ok s -> exists s', d = Ok s' /\ s = x :: s'.
Proof. destruct d as [s'|]; simpl; [intros [= <-]; eauto|discriminate]. Qed.

(** Decoding undoes encoding. *)
Lemma utf8_decode_encode (s : pystr) (bs : list N) :
  Forall (fun c => c <= 0x10FFFF) s -> utf8_encode s = Ok bs -> utf8_decode_strict bs = Ok s.
Proof.
  intros Hs H. unfold utf8_encode in H. ok_inv H. injection H as <-.
  apply mapR_Forall2 in E. revert Hs. induction E as [|c bs0 s bss Hc _ IH]; intros Hs; [done|].
  inversion Hs; subst. simpl. rewrite (utf8_decode_strict_cp c bs0) by done. by rewrite IH.
Qed.

(** What the strict decoder returns is a valid str. *)
Lemma utf8_decode_valid (bs : list N) (s : pystr) :
  utf8_decode_strict bs = Ok s -> Forall valid_cp s.
Proof.
  revert s. induction bs as [bs IH] using (well_founded_induction (well_founded_ltof _ (@length N))).
  intros s Hd. destruct bs as [|b0 r]; simpl in Hd; [injection Hd as <-; constructor|].
  unfold second3_ok, second4_ok, is_cont in Hd.
  repeat (case_match; try discriminate); nbool;
    apply fmap_cons_Ok in Hd as (s' & Hd & ->); (constructor; [unfold valid_cp; lia|]);
    (eapply IH; [|exact Hd]; unfold ltof; simpl; lia).
Qed.

(** The only error of the decoder. *)
Lemma utf8_decode_Err (bs : list N) (e : pyexc) :
  utf8_decode_strict bs = Err e -> e = UnicodeDecodeError.
Proof.
  revert e. induction bs as [bs IH] using (well_founded_induction (well_founded_ltof _ (@length N))).
  intros e Hd. destruct bs as [|b0 r]; simpl in Hd; [discriminate|].
  repeat (case_match; try (by injection Hd));
    (destruct (utf8_decode_strict _) eqn:E; [discriminate|]; injection Hd as <-;
     eapply IH; [|exact E]; unfold ltof; simpl; lia).
Qed.

Lemma utf8_encode_ok (s : pystr) :
  Forall (fun c => ~ (0xD800 <= c <= 0xDFFF)) s -> exists bs, utf8_encode s = Ok bs.
Proof.
  intros Hs. unfold utf8_encode. destruct (proj2 (mapR_Ok_iff utf8_encode_cp s)) as [bss ->]; [|eauto].
  eapply Forall_impl; [|exact Hs]. intros c Hc. by apply utf8_encode_cp_ok.
Qed.

(** The only error of the encoder, raised on a lone surrogate. *)
Lemma utf8_encode_Err (s : pystr) (e : pyexc) :
  utf8_encode s = Err e -> e = UnicodeEncodeError /\ exists c, In c s /\ 0xD800 <= c <= 0xDFFF.
Proof.
  unfold utf8_encode. destruct (mapR utf8_encode_cp s) as [bss|e'] eqn:E; simpl; [discriminate|].
  intros [= <-]. apply mapR_Err_In in E as (c & Hin & Hc). revert Hc.
  unfold utf8_encode_cp. case_tests; nbool; intros [= <-]; split; eauto; exfalso; lia.
Qed.

Lemma utf8_encode_app (a b : pystr) :
  utf8_encode (a ++ b) = (x ← utf8_encode a; y ← utf8_encode b; Ok (x ++ y)).
Proof.
  unfold utf8_encode. rewrite mapR_app.
  destruct (mapR utf8_encode_cp a); simpl; [|done]. destruct (mapR utf8_encode_cp b); simpl; [|done].
  by rewrite concat_app.
Qed.

Lemma valid_cp_no_surrogate (s : pystr) :
  Forall valid_cp s -> Forall (fun c => ~ (0xD800 <= c <= 0xDFFF)) s.
Proof. intros Hs. eapply Forall_impl; [|exact Hs]. by intros c [_ ?]. Qed.

Lemma valid_cp_bound (s : pystr) : Forall valid_cp s -> Forall (fun c => c <= 0x10FFFF) s.
Proof. intros Hs. eapply Forall_impl; [|exact Hs]. by intros c [? _]. Qed.

(** A valid str encodes, and decodes back. *)
Lemma utf8_valid_roundtrip (s : pystr) :
  Forall valid_cp s -> exists bs, utf8_encode s = Ok bs /\ utf8_decode_strict bs = Ok s.
Proof.
  intros Hs. destruct (utf8_encode_ok s (valid_cp_no_surrogate s Hs)) as [bs Hbs].
  exists bs. split; [done|]. apply utf8_decode_encode; [by apply valid_cp_bound|done].
Qed.
