(* ===== verification/Slugify.v ===== *)
(** * [slugify] (openalex_to_hugo.py, lines 14-19)

    The four steps of the source, one definition each:
    [s.strip().lower()], [re.sub(r'[^\w\s-]', '', s)],
    [re.sub(r"[\s_]+", "-", s)], [re.sub(r"-{2,}", "-", s).strip("-")],
    then [s or "untitled"].  A [re.sub] whose pattern is a character
    class with a repetition ([p+] or [p{2,}]) replaces, left to right,
    every maximal run of matching characters at least as long as the
    repetition's minimum: that is [sub_runs].

    The theorems: the output is a well-formed slug ([slug_wf]: non-empty,
    made of lowercase word characters other than [_] and of single
    hyphens, with no hyphen at either end), a well-formed slug is a fixed
    point, hence [slugify] is idempotent (spec section 8). *)

From stdpp Require Import base list decidable.
From Stdlib Require Import NArith ZArith Lia.
From S2P Require Import Prelude PyStr.

Open Scope N_scope.

(** ** Regular-expression substitution of maximal runs *)

Section SubRuns.
Variable p : N -> bool.
Variable min : nat.
Variable repl : pystr.

(** What a finished run becomes: [repl] when the pattern matched it. *)
Definition flush (run : pystr) : pystr :=
  match run with
  | [] => []
  | _ => if (min <=? length run)%nat then repl else run
  end.

(** [run] is the run of matching characters read so far. *)
Fixpoint sub_runs_go (run s : pystr) : pystr :=
  match s with
  | [] => flush run
  | c :: r => if p c then sub_runs_go (run ++ [c]) r else flush run ++ c :: sub_runs_go [] r
  end.

(** [re.sub(pattern, repl, s)] for [pattern] = [p{min,}]. *)
Definition sub_runs (s : pystr) : pystr := sub_runs_go [] s.

Lemma sub_runs_go_in (run s : pystr) (c : N) :
  In c (sub_runs_go run s) -> In c repl \/ In c run \/ In c s.
Proof.
  revert run; induction s as [|d s IH]; intros run; simpl.
  - unfold flush. destruct run; [done|]. destruct (min <=? _)%nat; auto.
  - destruct (p d).
    + intros [|[Hc|]]%IH; auto. apply in_app_or in Hc as [|[->|[]]]; auto.
    + rewrite in_app_iff. unfold flush.
      intros [Hc|[<-|[|[[]|]]%IH]]; auto. destruct run; [done|].
      destruct (min <=? _)%nat; auto.
Qed.

(** With nothing to replace, the text is unchanged. *)
Lemma sub_runs_id (s : pystr) : Forall (fun c => p c = false) s -> sub_runs s = s.
Proof.
  unfold sub_runs. induction s as [|c s IH]; intros Hs; simpl; [done|].
  inversion Hs as [|? ? Hc Hs']; subst. rewrite Hc, IH; done.
Qed.
End SubRuns.

(** A pattern [p+] replaces every matching character. *)
Lemma sub_runs_plus_in (p : N -> bool) (repl run s : pystr) (c : N) :
  In c (sub_runs_go p 1 repl run s) -> In c repl \/ (In c s /\ p c = false).
Proof.
  revert run; induction s as [|d s IH]; intros run; simpl.
  - unfold flush. destruct run; simpl; [done|]. auto.
  - destruct (p d) eqn:Hd; [intros [?|[? ?]]%IH; auto|].
    rewrite in_app_iff. unfold flush.
    intros [Hc|[<-|[|[]]%IH]]; auto. destruct run; simpl in Hc; [done|]. auto.
Qed.

(** ** The slug alphabet *)

Fixpoint no_double_hyphen (s : pystr) : bool :=
  match s with
  | a :: ((b :: _) as r) => negb ((a =? HYPHEN) && (b =? HYPHEN)) && no_double_hyphen r
  | _ => true
  end.

Lemma no_double_hyphen_cons (c : N) (r : pystr) :
  c <> HYPHEN -> no_double_hyphen (c :: r) = no_double_hyphen r.
Proof. intros Hc. destruct r; [done|]. simpl. by rewrite (proj2 (N.eqb_neq _ _) Hc). Qed.

Lemma no_double_hyphen_app (x y : pystr) :
  no_double_hyphen (x ++ y) = true -> no_double_hyphen x = true /\ no_double_hyphen y = true.
Proof.
  induction x as [|a x IH]; simpl; [done|].
  destruct x as [|b x]; simpl in *.
  - destruct y; [done|]. rewrite andb_true_iff. intuition.
  - rewrite !andb_true_iff. intuition.
Qed.

Lemma no_double_hyphen_infix (a m b : pystr) :
  no_double_hyphen (a ++ m ++ b) = true -> no_double_hyphen m = true.
Proof. by intros [_ [? _]%no_double_hyphen_app]%no_double_hyphen_app. Qed.

Definition is_hyphen (c : N) : bool := c =? HYPHEN.

(** The collapse step leaves no two adjacent hyphens. *)
Lemma collapse_no_double (run s : pystr) :
  Forall (fun c => c = HYPHEN) run ->
  no_double_hyphen (sub_runs_go is_hyphen 2 [HYPHEN] run s) = true.
Proof.
  assert (Hf : forall r, Forall (fun c => c = HYPHEN) r ->
             flush 2 [HYPHEN] r = [] \/ flush 2 [HYPHEN] r = [HYPHEN]).
  { intros [|a [|b r]] Hr; simpl; auto. inversion Hr; subst; auto. }
  revert run; induction s as [|c s IH]; intros run Hr; simpl.
  - by destruct (Hf run Hr) as [-> | ->].
  - unfold is_hyphen at 1. destruct (c =? HYPHEN) eqn:Hc.
    + apply IH. apply Forall_app. split; [done|]. constructor; [|done]. by apply N.eqb_eq.
    + apply N.eqb_neq in Hc.
      assert (Hrest : no_double_hyphen (c :: sub_runs_go is_hyphen 2 [HYPHEN] [] s) = true).
      { rewrite no_double_hyphen_cons by done. apply IH. constructor. }
      destruct (Hf run Hr) as [-> | ->]; [exact Hrest|].
      change (negb ((HYPHEN =? HYPHEN) && (c =? HYPHEN))
              && no_double_hyphen (c :: sub_runs_go is_hyphen 2 [HYPHEN] [] s) = true).
      by rewrite Hrest, (proj2 (N.eqb_neq _ _) Hc), andb_false_r.
Qed.

(** Where no two hyphens touch, the collapse step changes nothing. *)
Lemma collapse_id (run s : pystr) :
  (run = [] \/ (run = [HYPHEN] /\ head s <> Some HYPHEN)) ->
  no_double_hyphen s = true -> sub_runs_go is_hyphen 2 [HYPHEN] run s = run ++ s.
Proof.
  revert run; induction s as [|c s IH]; intros run Hrun Hs; simpl.
  - rewrite app_nil_r. by destruct Hrun as [-> | [-> _]].
  - unfold is_hyphen at 1. destruct (c =? HYPHEN) eqn:Hc.
    + apply N.eqb_eq in Hc. subst c.
      destruct Hrun as [-> | [_ Hh]]; [|done].
      assert (Hs' : no_double_hyphen s = true /\ head s <> Some HYPHEN).
      { destruct s as [|d s]; [done|]. simpl in Hs. apply andb_true_iff in Hs as [Hd Hs].
        split; [done|]. simpl. intros [= ->]. by rewrite N.eqb_refl in Hd. }
      destruct Hs'. cbn [app]. rewrite IH; auto.
    + apply N.eqb_neq in Hc. rewrite no_double_hyphen_cons in Hs by done.
      rewrite IH by auto. by destruct Hrun as [-> | [-> _]].
Qed.

(** ** [slugify] *)

Section Slug.
Context `{UnicodeDB}.

(** The characters [re.sub(r'[^\w\s-]', '', s)] keeps. *)
Definition keep_char (c : N) : bool := ud_isword c || py_isspace c || (c =? HYPHEN).

(** The class [[\s_]]. *)
Definition space_or_underscore (c : N) : bool := py_isspace c || (c =? UNDERSCORE).

Definition slugify (s : pystr) : pystr :=
  let s := py_lower (py_strip s) in
  let s := List.filter keep_char s in
  let s := sub_runs space_or_underscore 1 [HYPHEN] s in
  let s := py_strip_chars [HYPHEN] (sub_runs is_hyphen 2 [HYPHEN] s) in
  match s with [] => lit "untitled" | _ => s end.

(** A slug character: a lowercase word character other than [_], or a
    hyphen. *)
Definition slug_char (c : N) : bool :=
  (ud_isword c && negb (c =? UNDERSCORE) && bool_decide (ud_lower c = [c])) || (c =? HYPHEN).

Definition slug_wf (y : pystr) : bool :=
  bool_decide (y <> []) && forallb slug_char y && no_double_hyphen y
  && negb (bool_decide (head y = Some HYPHEN))
  && negb (bool_decide (head (rev y) = Some HYPHEN)).

Lemma slug_wf_spec (y : pystr) :
  slug_wf y = true <->
  y <> [] /\ Forall (fun c => slug_char c = true) y /\ no_double_hyphen y = true
  /\ head y <> Some HYPHEN /\ head (rev y) <> Some HYPHEN.
Proof.
  unfold slug_wf. rewrite !andb_true_iff, !negb_true_iff, forallb_Forall,
    !bool_decide_eq_true, !bool_decide_eq_false. tauto.
Qed.

Lemma hyphen_not_space : py_isspace HYPHEN = false.
Proof. reflexivity. Qed.

Lemma slug_char_not_space (c : N) : slug_char c = true -> py_isspace c = false.
Proof.
  unfold slug_char. rewrite orb_true_iff, !andb_true_iff, N.eqb_eq.
  intros [[[Hw _] _] | ->]; [|done].
  destruct (py_isspace c) eqn:Hs; [|done]. by rewrite ud_space_not_word in Hw.
Qed.

Lemma slug_char_lower (c : N) : slug_char c = true -> ud_lower c = [c].
Proof.
  unfold slug_char. rewrite orb_true_iff, !andb_true_iff, N.eqb_eq, bool_decide_eq_true.
  intros [[_ Hl] | ->]; [done|]. rewrite ud_lower_ascii; [done|]. unfold HYPHEN. lia.
Qed.

Lemma strip_hyphen_head (s : pystr) :
  head (py_strip_chars [HYPHEN] s) <> Some HYPHEN.
Proof.
  intros Hh. apply strip_by_head in Hh. rewrite bool_decide_eq_false in Hh.
  apply Hh. by left.
Qed.

Lemma strip_hyphen_last (s : pystr) :
  head (rev (py_strip_chars [HYPHEN] s)) <> Some HYPHEN.
Proof.
  intros Hh. apply strip_by_last in Hh. rewrite bool_decide_eq_false in Hh.
  apply Hh. by left.
Qed.

(** Every character after the [[\s_]+] step is a slug character. *)
Lemma slug_chars_step3 (s : pystr) (c : N) :
  In c (sub_runs space_or_underscore 1 [HYPHEN] (List.filter keep_char (py_lower s))) ->
  slug_char c = true.
Proof.
  unfold sub_runs, slug_char, space_or_underscore, keep_char.
  intros [[<-|[]]|[Hc Hp]]%sub_runs_plus_in; [by rewrite N.eqb_refl, orb_true_r|].
  apply filter_In in Hc as [Hc Hk]. apply lower_go_out in Hc as [Hl _].
  apply orb_false_iff in Hp as [Hs Hu]. rewrite Hs, orb_false_r in Hk.
  rewrite Hu, (proj2 (bool_decide_eq_true _)) by done.
  apply orb_true_iff in Hk as [-> | ->]; by rewrite ?orb_true_r.
Qed.

Lemma untitled_wf : slug_wf (lit "untitled") = true.
Proof.
  unfold slug_wf, slug_char. simpl.
  repeat rewrite ud_isword_ascii by (unfold UNDERSCORE; lia).
  repeat rewrite ud_lower_ascii by lia.
  reflexivity.
Qed.

(** [slugify] always returns a well-formed slug. *)
Lemma slugify_wf (s : pystr) : slug_wf (slugify s) = true.
Proof.
  unfold slugify.
  set (s3 := sub_runs space_or_underscore 1 [HYPHEN] _).
  set (s5 := py_strip_chars [HYPHEN] (sub_runs is_hyphen 2 [HYPHEN] s3)).
  destruct s5 as [|c5 r5] eqn:E5; [apply untitled_wf|]. rewrite <- E5.
  apply slug_wf_spec. split; [by rewrite E5|]. split; [|split; [|split]].
  - apply Forall_forall. intros c Hc. apply strip_by_in, sub_runs_go_in in Hc.
    destruct Hc as [[<-|[]]|[[]|Hc]]; [unfold slug_char; by rewrite N.eqb_refl, orb_true_r|].
    exact (slug_chars_step3 _ _ Hc).
  - destruct (strip_by_infix (fun c => bool_decide (c ∈ [HYPHEN]))
                (sub_runs is_hyphen 2 [HYPHEN] s3)) as (a & b & Hab).
    apply (no_double_hyphen_infix a _ b). unfold s5, py_strip_chars.
    rewrite <- Hab. by apply collapse_no_double.
  - apply strip_hyphen_head.
  - apply strip_hyphen_last.
Qed.
End Slug.

Section SlugProps.
Context `{UnicodeDB}.

Lemma slug_char_keep (c : N) : slug_char c = true -> keep_char c = true.
Proof.
  unfold slug_char, keep_char. rewrite !orb_true_iff, !andb_true_iff.
  intros [[[Hw _] _] | Hh]; auto.
Qed.

Lemma slug_char_not_sep (c : N) : slug_char c = true -> space_or_underscore c = false.
Proof.
  intros Hc. unfold space_or_underscore. rewrite (slug_char_not_space c Hc).
  unfold slug_char in Hc. apply orb_true_iff in Hc as [Hc|Hc].
  - apply andb_true_iff in Hc as [Hc _]. apply andb_true_iff in Hc as [_ Hc].
    by apply negb_true_iff in Hc.
  - apply N.eqb_eq in Hc. by subst.
Qed.

(** A well-formed slug is a fixed point of [slugify]. *)
Lemma slugify_fixed (y : pystr) : slug_wf y = true -> slugify y = y.
Proof.
  intros (Hne & Hc & Hdd & Hh & Hl)%slug_wf_spec.
  assert (Hends : forall p, (forall c, slug_char c = true -> p c = false) ->
            forall c, (head y = Some c \/ head (rev y) = Some c) -> p c = false).
  { intros p Hp c Hy. apply Hp. apply (proj1 (Forall_forall _ _) Hc).
    destruct Hy as [Hy%head_In|Hy%head_rev_In]; exact Hy. }
  unfold slugify, py_strip, py_lower.
  rewrite strip_by_id by (intros c Hy; apply (Hends py_isspace slug_char_not_space); auto).
  rewrite lower_go_id by (eapply Forall_impl; [apply slug_char_lower|exact Hc]).
  rewrite filter_all_true by (eapply Forall_impl; [apply slug_char_keep|exact Hc]).
  rewrite (sub_runs_id space_or_underscore 1 [HYPHEN] y) by (eapply Forall_impl; [apply slug_char_not_sep|exact Hc]).
  unfold sub_runs. rewrite collapse_id by auto. simpl.
  unfold py_strip_chars. rewrite strip_by_id.
  - by destruct y.
  - intros c Hy. apply bool_decide_eq_false. intros [Hx|[]]%list_elem_of_In.
    apply Hh. by rewrite Hx.
  - intros c Hy. apply bool_decide_eq_false. intros [Hx|[]]%list_elem_of_In.
    apply Hl. by rewrite Hx.
Qed.
End SlugProps.

Section SlugTheorems.
Context `{UnicodeDB}.

(** C9: [slugify] is idempotent (spec section 8). *)
Theorem slugify_idempotent (s : pystr) : slugify (slugify s) = slugify s.
Proof. apply slugify_fixed, slugify_wf. Qed.

Definition ascii_non_word (c : N) : Prop :=
  c < 128 /\ (ascii_isword c = false \/ c = UNDERSCORE).

Lemma ascii_non_word_lower (c : N) : ascii_non_word c -> ud_lower c = [c].
Proof.
  intros [Hc Hw]. rewrite ud_lower_ascii by done. f_equal.
  unfold ascii_lower. destruct ((65 <=? c) && (c <=? 90)) eqn:E; [|done].
  exfalso. unfold ascii_isword, UNDERSCORE in Hw. nbool. destruct Hw; nbool; lia.
Qed.

Lemma ascii_non_word_kept (c : N) :
  ascii_non_word c -> keep_char c = true -> space_or_underscore c = false -> c = HYPHEN.
Proof.
  intros [Hc [Hw|Hu]] Hk Hs; unfold keep_char, space_or_underscore in *.
  - rewrite ud_isword_ascii, Hw in Hk by done. apply orb_false_iff in Hs as [Hs _].
    rewrite Hs in Hk. simpl in Hk. by apply N.eqb_eq.
  - subst. by rewrite orb_true_r in Hs.
Qed.

(** C24: a title with no ASCII letter or digit (and nothing outside
    ASCII) gets the fallback slug [untitled] (spec: ["***"]). *)
Theorem slugify_untitled (s : pystr) :
  Forall ascii_non_word s -> slugify s = lit "untitled".
Proof.
  intros Hs. unfold slugify.
  assert (Hst : Forall ascii_non_word (py_strip s)).
  { apply Forall_forall. intros c Hc%strip_by_in. by apply (proj1 (Forall_forall _ _) Hs). }
  unfold py_lower. rewrite lower_go_id by (eapply Forall_impl; [apply ascii_non_word_lower|exact Hst]).
  unfold py_strip_chars. rewrite strip_by_all; [done|].
  apply Forall_forall. intros c [[<-|[]]|[[]|Hc]]%sub_runs_go_in; apply bool_decide_eq_true;
    apply list_elem_of_In; [by left|]. left. symmetry.
  apply sub_runs_plus_in in Hc as [[<-|[]]|[Hc Hsep]]; [done|].
  apply filter_In in Hc as [Hc Hk].
  apply (ascii_non_word_kept c); [|done..]. by apply (proj1 (Forall_forall _ _) Hst).
Qed.
(** C10: the shape of every slug: not empty; only lower-case word
    characters other than [_], and [-]; no [--]; no [-] at either end
    (the last character is the head of the reversed slug). *)
Theorem slugify_shape (s : pystr) :
  let y := slugify s in
  y <> [] /\
  Forall (fun c => (ud_isword c = true /\ c <> UNDERSCORE /\ ud_lower c = [c]) \/ c = HYPHEN) y /\
  ~ (exists a b, y = a ++ HYPHEN :: HYPHEN :: b) /\
  head y <> Some HYPHEN /\ head (rev y) <> Some HYPHEN.
Proof.
  cbv zeta. destruct (proj1 (slug_wf_spec _) (slugify_wf s)) as (Hne & Hc & Hd & Hh & Hl).
  split; [done|]. split; [|split; [|split; [done|]]].
  - eapply Forall_impl; [|exact Hc]. intros c. unfold slug_char.
    rewrite orb_true_iff, !andb_true_iff, negb_true_iff, N.eqb_neq, N.eqb_eq, bool_decide_eq_true.
    intros [[[? ?] ?]|?]; [left|right]; auto.
  - intros (a & b & Hab). rewrite Hab in Hd. apply (no_double_hyphen_infix a [HYPHEN; HYPHEN] b) in Hd.
    vm_compute in Hd. discriminate Hd.
  - done.
Qed.
End SlugTheorems.

(** ** Examples, evaluated with the ASCII database *)

Example slugify_ex1 :
  slugify (lit "  Hello, World!  Foo__bar -- baz ") = lit "hello-world-foo-bar-baz".
Proof. vm_compute. reflexivity. Qed.

Example slugify_ex_stars : slugify (lit "***") = lit "untitled".
Proof. vm_compute. reflexivity. Qed.

Lemma slugify_untitled_witness :
  Forall ascii_non_word (lit "*-_ *") /\ slugify (lit "*-_ *") = lit "untitled".
Proof.
  assert (H : Forall ascii_non_word (lit "*-_ *"))
    by (repeat constructor; unfold ascii_non_word; split; first [lia | by left | by right]).
  split; [exact H|]. exact (slugify_untitled _ H).
Defined.
