(* ===== verification/ExtractDoi.v ===== *)
(** * [extract_doi] (openalex_to_hugo.py, lines 21-27)

    The input normaliser: strip the input; a [https://doi.org/] or
    [http://doi.org/] URL keeps what follows the first [doi.org/]; a
    [doi:] prefix (any case) keeps what follows the first colon,
    stripped; anything else is returned stripped.  [str.split(sep, 1)[1]]
    can raise [IndexError] in Python, so the model returns a [result].

    The theorems: the function never raises; the result on each of the
    three input shapes of the spec (section 4.1); and the examples of
    spec section 8. *)

From stdpp Require Import base list decidable.
From Stdlib Require Import NArith ZArith Lia.
From S2P Require Import Prelude PyStr.

Section ExtractDoi.
Context `{UnicodeDB}.

Definition extract_doi (input_str : pystr) : result pystr :=
  let s := py_strip input_str in
  if startswith s (lit "https://doi.org/") || startswith s (lit "http://doi.org/") then
    parts ← py_split1 s (lit "doi.org/");
    py_index parts 1
  else if startswith (py_lower s) (lit "doi:") then
    parts ← py_split1 s (lit ":");
    r ← py_index parts 1;
    Ok (py_strip r)
  else Ok s.

Lemma py_index_pair {A} (x y : A) : py_index [x; y] 1 = Ok y.
Proof. reflexivity. Qed.

Lemma lit_https_split : lit "https://doi.org/" = lit "https://" ++ lit "doi.org/".
Proof. reflexivity. Qed.

Lemma lit_http_split : lit "http://doi.org/" = lit "http://" ++ lit "doi.org/".
Proof. reflexivity. Qed.

(** C25: [extract_doi] never raises: both [split(...)[1]] succeed. *)
Theorem extract_doi_total (input_str : pystr) : exists d, extract_doi input_str = Ok d.
Proof.
  unfold extract_doi. set (s := py_strip input_str).
  destruct (startswith s (lit "https://doi.org/") || startswith s (lit "http://doi.org/")) eqn:Eurl.
  - assert (Hf : (0 <= py_find s (lit "doi.org/"))%Z).
    { apply orb_true_iff in Eurl as [E|E]; apply startswith_spec in E as (r & ->);
        rewrite ?lit_https_split, ?lit_http_split, <- app_assoc; apply py_find_infix. }
    rewrite py_split1_found by done. simpl. eauto.
  - destruct (startswith (py_lower s) (lit "doi:")) eqn:Edoi; [|eauto].
    assert (Hc : In COLON s).
    { apply (lower_go_colon []). apply startswith_spec in Edoi as (r & Hr).
      unfold py_lower in Hr. rewrite Hr.
      apply in_or_app. left. simpl. auto 10. }
    apply in_split in Hc as (a & b & Hab).
    assert (Hf : (0 <= py_find s (lit ":"))%Z) by (rewrite Hab; apply (py_find_infix a [COLON] b)).
    rewrite py_split1_found by done. simpl. eauto.
Qed.

Lemma strip_concrete_prefix (pre x : pystr) :
  pre <> [] ->
  (forall c, head pre = Some c -> py_isspace c = false) ->
  (forall c, head (rev pre) = Some c -> py_isspace c = false) ->
  py_strip (pre ++ x) = pre ++ py_rstrip x.
Proof. intros. by apply strip_by_app. Qed.

(** The URL branch, for any resolver prefix that ends before the text. *)
Lemma extract_doi_url_gen (pre x : pystr) :
  pre <> [] ->
  (forall c, head pre = Some c -> py_isspace c = false) ->
  (forall c, head (rev pre) = Some c -> py_isspace c = false) ->
  (startswith pre (lit "https://doi.org/") || startswith pre (lit "http://doi.org/")) = true ->
  (8 <= length pre)%nat ->
  py_find pre (lit "doi.org/") = (Z.of_nat (length pre) - 8)%Z ->
  extract_doi (pre ++ x) = Ok (py_rstrip x).
Proof.
  intros Hne Hh Hl Hurl Hlen Hf. unfold extract_doi.
  rewrite strip_concrete_prefix by done.
  assert (Htest : (startswith (pre ++ py_rstrip x) (lit "https://doi.org/")
                   || startswith (pre ++ py_rstrip x) (lit "http://doi.org/")) = true).
  { apply orb_true_iff in Hurl as [E|E]; apply orb_true_iff; [left|right];
      by apply startswith_app_l. }
  rewrite Htest.
  rewrite py_split1_found, py_find_app_l, Hf by (rewrite ?py_find_app_l; lia || done).
  rewrite bind_Ok, py_index_pair. f_equal.
  replace (Z.to_nat (Z.of_nat (length pre) - 8) + length (lit "doi.org/"))%nat
    with (length pre) by (simpl; lia).
  apply drop_app_length.
Qed.

(** C11: an [https://doi.org/] URL yields the text after the resolver
    host (trailing blanks stripped). *)
Theorem extract_doi_https (x : pystr) :
  extract_doi (lit "https://doi.org/" ++ x) = Ok (py_rstrip x).
Proof. apply extract_doi_url_gen; first [done | by intros ? [= <-] | vm_compute; reflexivity | simpl; lia]. Qed.

(** The same for [http://doi.org/]. *)
Theorem extract_doi_http (x : pystr) :
  extract_doi (lit "http://doi.org/" ++ x) = Ok (py_rstrip x).
Proof. apply extract_doi_url_gen; first [done | by intros ? [= <-] | vm_compute; reflexivity | simpl; lia]. Qed.

(** The [doi:] branch, for any ASCII prefix that lowercases to [doi:]
    and has its only colon at its end. *)
Lemma extract_doi_colon_gen (pre x : pystr) :
  Forall (fun c => c < 128)%N pre -> pre <> [] ->
  (forall c, head pre = Some c -> py_isspace c = false) ->
  (forall c, head (rev pre) = Some c -> py_isspace c = false) ->
  (forall y, startswith (pre ++ y) (lit "https://doi.org/") = false) ->
  (forall y, startswith (pre ++ y) (lit "http://doi.org/") = false) ->
  startswith (map ascii_lower pre) (lit "doi:") = true ->
  py_find pre (lit ":") = (Z.of_nat (length pre) - 1)%Z ->
  extract_doi (pre ++ x) = Ok (py_strip x).
Proof.
  intros Hascii Hne Hh Hl Hs1 Hs2 Hdoi Hf. unfold extract_doi.
  rewrite strip_concrete_prefix, Hs1, Hs2 by done. simpl orb. cbv iota.
  unfold py_lower.
  assert (Hns : Forall (fun c => c <> CAPITAL_SIGMA) pre).
  { apply Forall_forall. intros c Hc. apply (proj1 (Forall_forall _ _) Hascii) in Hc. unfold CAPITAL_SIGMA. lia. }
  rewrite lower_go_app, lower_go_ascii, startswith_app_l by done.
  assert (Hlen : (1 <= length pre)%nat) by (destruct pre; [done|simpl; lia]).
  rewrite py_split1_found, py_find_app_l, Hf by (rewrite ?py_find_app_l; lia || done).
  rewrite bind_Ok, py_index_pair, bind_Ok.
  replace (Z.to_nat (Z.of_nat (length pre) - 1) + length (lit ":"))%nat
    with (length pre) by (simpl; lia).
  rewrite drop_app_length. unfold py_strip, py_rstrip. by rewrite strip_rstrip.
Qed.

(** C23: a [doi:] prefix in any letter case is removed and the rest is
    stripped. *)
Theorem extract_doi_doi_prefix (p x : pystr) :
  Forall2 (fun c d => c < 128 /\ ascii_lower c = d)%N p (lit "doi:") ->
  extract_doi (p ++ x) = Ok (py_strip x).
Proof.
  intros Hp. simpl in Hp.
  inversion Hp as [|c0 d0 p0 l0 [_ H0] Hp0]; subst; clear Hp.
  inversion Hp0 as [|c1 d1 p1 l1 [_ H1] Hp1]; subst; clear Hp0.
  inversion Hp1 as [|c2 d2 p2 l2 [_ H2] Hp2]; subst; clear Hp1.
  inversion Hp2 as [|c3 d3 p3 l3 [_ H3] Hp3]; subst; clear Hp2.
  inversion Hp3; subst; clear Hp3.
  apply ascii_lower_inv in H0, H1, H2, H3.
  destruct H3 as [->|[? ?]]; [|lia].
  destruct H0 as [->|[H0 _]]; [|replace c0 with 68%N by lia];
  destruct H1 as [->|[H1 _]]; try replace c1 with 79%N by lia;
  destruct H2 as [->|[H2 _]]; try replace c2 with 73%N by lia;
  apply extract_doi_colon_gen; try done; try (intros y; vm_compute; reflexivity);
    try (intros c; simpl; intros [= <-]; reflexivity);
    repeat constructor; lia.
Qed.
End ExtractDoi.

Section ExtractDoiCases.
Context `{UnicodeDB}.

(** the spec's invariant "non-empty after normalization" does not
    hold: a bare resolver URL followed only by blanks normalises to the
    empty DOI, which is passed on to the fetch step. *)
Theorem extract_doi_empty (x : pystr) :
  Forall (fun c => py_isspace c = true) x ->
  extract_doi (lit "https://doi.org/" ++ x) = Ok [].
Proof.
  intros Hx. rewrite (extract_doi_url_gen (lit "https://doi.org/") x)
    by first [done | by intros ? [= <-] | vm_compute; reflexivity | simpl; lia].
  unfold py_rstrip, rstrip_by.
  rewrite dropwhile_all; [done|]. apply forallb_Forall. rewrite forallb_rev.
  by apply forallb_Forall.
Qed.
(** C33: an input with no colon, such as a bare DOI [10.1/xyz] with
    blanks around it, is returned stripped and otherwise unchanged (not
    lower-cased): the third case of spec 4.1. *)
Theorem extract_doi_no_colon (x : pystr) : ~ In COLON x -> extract_doi x = Ok (py_strip x).
Proof.
  intros Hx. assert (Hs : ~ In COLON (py_strip x)) by (intros Hin; apply Hx; by apply strip_by_in in Hin).
  assert (Hpre : forall s p, ~ In COLON s -> In COLON p -> startswith s p = false).
  { intros s p Hns Hp. destruct (startswith s p) eqn:E; [|done]. apply startswith_spec in E as [r ->].
    exfalso. apply Hns, in_app_iff. by left. }
  unfold extract_doi. rewrite !(Hpre (py_strip x)) by (done || (apply list_elem_of_In, (bool_decide_unpack _); vm_compute; reflexivity)).
  rewrite (Hpre (py_lower (py_strip x))); [done| |apply list_elem_of_In, (bool_decide_unpack _); vm_compute; reflexivity].
  unfold py_lower. intros Hin. by apply Hs, (lower_go_colon []).
Qed.
End ExtractDoiCases.

Lemma extract_doi_no_colon_witness :
  extract_doi (lit " 10.1/ABC ") = Ok (lit "10.1/ABC").
Proof. rewrite extract_doi_no_colon; [reflexivity|]. vm_compute. intuition discriminate. Defined.

(** ** The examples of spec section 8, with the ASCII database *)

Example extract_doi_ex_url : extract_doi (lit "https://doi.org/10.1/xyz") = Ok (lit "10.1/xyz").
Proof. vm_compute. reflexivity. Qed.

Example extract_doi_ex_prefix : extract_doi (lit "DOI:10.1/xyz") = Ok (lit "10.1/xyz").
Proof. vm_compute. reflexivity. Qed.

Example extract_doi_ex_bare : extract_doi (lit "10.1/xyz") = Ok (lit "10.1/xyz").
Proof. vm_compute. reflexivity. Qed.

(** Other resolver hosts and upper-case schemes are not recognised. *)
Example extract_doi_ex_dx :
  extract_doi (lit "https://dx.doi.org/10.1/xyz") = Ok (lit "https://dx.doi.org/10.1/xyz").
Proof. vm_compute. reflexivity. Qed.

Lemma extract_doi_doi_prefix_witness :
  extract_doi (lit "DoI:" ++ lit " 10.1/xyz ") = Ok (py_strip (lit " 10.1/xyz ")).
Proof.
  apply extract_doi_doi_prefix. repeat constructor; first [lia | reflexivity].
Defined.
