(* ===== verification/PyVal.v ===== *)
(** * Python values handled by the script

    The objects that flow from [json.loads] (the API response) and
    [yaml.safe_load] (the front matter) into the front-matter mapping:
    [None], [bool], [int], [float], [str], timestamps, lists and dicts.
    Floats are kept as exact rationals (the decimal literal of the JSON
    or YAML text); NaN and infinities are not represented.

    Dict keys are the hashable scalars ([pykey]).  Python compares keys
    with [==], under which [True == 1 == 1.0]: [key_eqb] is that
    equivalence, coarser than structural equality, and the dictionary
    model (PyDict.v) is parameterised by it.

    Also here: truthiness ([bool(x)], used by every [x or y] and [if x:]
    of the script) and [int(x)] (used on the publication year). *)

From stdpp Require Import base list decidable.
From Stdlib Require Import NArith ZArith QArith Lia.
From S2P Require Import Prelude PyStr.

(** ** Values *)

#[local] Set Warnings "-register-all".

Inductive pykey :=
  | KNone
  | KBool (b : bool)
  | KInt (z : Z)
  | KFloat (q : Q)
  | KStr (s : pystr)
  | KTime (iso : pystr).

Inductive pyval :=
  | PNone
  | PBool (b : bool)
  | PInt (z : Z)
  | PFloat (q : Q)
  | PStr (s : pystr)
  | PTime (iso : pystr)
  | PList (l : list pyval)
  | PDict (d : list (pykey * pyval)).

(** ** Key equality: Python's [==] on hashable scalars *)

(** The numeric value of a numeric key; [bool] is a subclass of [int]. *)
Definition key_num (k : pykey) : option Q :=
  match k with
  | KBool b => Some (if b then 1 else 0)%Q
  | KInt z => Some (inject_Z z)
  | KFloat q => Some q
  | _ => None
  end.

Definition key_eqb (k1 k2 : pykey) : bool :=
  match key_num k1, key_num k2 with
  | Some a, Some b => Qeq_bool a b
  | None, None =>
      match k1, k2 with
      | KNone, KNone => true
      | KStr s, KStr t => bool_decide (s = t)
      | KTime s, KTime t => bool_decide (s = t)
      | _, _ => false
      end
  | _, _ => false
  end.

Lemma key_eqb_refl (k : pykey) : key_eqb k k = true.
Proof. destruct k; simpl; try apply Qeq_bool_refl; try (apply bool_decide_eq_true; done); done. Qed.

Lemma key_eqb_sym (k1 k2 : pykey) : key_eqb k1 k2 = key_eqb k2 k1.
Proof.
  unfold key_eqb.
  destruct (key_num k1) as [a|] eqn:E1, (key_num k2) as [b|] eqn:E2; try done.
  - destruct (Qeq_bool a b) eqn:Hab; symmetry.
    + by apply Qeq_bool_sym.
    + destruct (Qeq_bool b a) eqn:Hba; [|done]. apply Qeq_bool_sym in Hba. congruence.
  - destruct k1, k2; try discriminate; try done; by apply bool_decide_ext.
Qed.

Lemma key_eqb_trans (k1 k2 k3 : pykey) :
  key_eqb k1 k2 = true -> key_eqb k2 k3 = true -> key_eqb k1 k3 = true.
Proof.
  unfold key_eqb.
  destruct (key_num k1) as [a|] eqn:E1, (key_num k2) as [b|] eqn:E2,
    (key_num k3) as [c|] eqn:E3; try discriminate; [apply Qeq_bool_trans|].
  destruct k1, k2, k3; try discriminate; try done;
    rewrite !bool_decide_eq_true; congruence.
Qed.

(** A string key is equal only to itself. *)
Lemma key_eqb_str (s : pystr) (k : pykey) : key_eqb (KStr s) k = true <-> k = KStr s.
Proof.
  unfold key_eqb. destruct k; simpl; split; try discriminate; try done.
  - rewrite bool_decide_eq_true. congruence.
  - intros [= ->]. by apply bool_decide_eq_true.
Qed.

(** ** Truthiness *)

(** [bool(x)]. *)
Definition py_truthy (v : pyval) : bool :=
  match v with
  | PNone => false
  | PBool b => b
  | PInt z => negb (Z.eqb z 0)
  | PFloat q => negb (Qeq_bool q 0)
  | PStr s => negb (bool_decide (s = []))
  | PTime _ => true
  | PList l => negb (bool_decide (l = []))
  | PDict d => negb (bool_decide (d = []))
  end.

(** [x or y]. *)
Definition py_or (x y : pyval) : pyval := if py_truthy x then x else y.

(** ** [int(x)] *)

Section PyInt.
Context `{UnicodeDB}.

(** The digits of a decimal literal, with single underscores allowed
    between digits; [acc] is the value read so far, [after_digit] says
    whether the previous character was a digit. *)
Fixpoint digits_go (acc : Z) (after_digit : bool) (s : pystr) : result Z :=
  match s with
  | [] => if after_digit then Ok acc else raise ValueError
  | c :: r =>
      if (c =? UNDERSCORE)%N then
        if after_digit then
          match r with
          | d :: _ => if (d =? UNDERSCORE)%N then raise ValueError else digits_go acc false r
          | [] => raise ValueError
          end
        else raise ValueError
      else
        match ud_decimal c with
        | Some d => digits_go (10 * acc + Z.of_N d)%Z true r
        | None => raise ValueError
        end
  end.

(** [int(s)] for a string: surrounding whitespace, an optional sign,
    then the digits. *)
Definition int_of_str (s : pystr) : result Z :=
  match py_strip s with
  | c :: r =>
      if (c =? 45)%N then Z.opp <$> digits_go 0 false r
      else if (c =? 43)%N then digits_go 0 false r
      else digits_go 0 false (c :: r)
  | [] => raise ValueError
  end.

(** [int(x)]: truncation toward zero for a float, [TypeError] for what
    is not a number or a string. *)
Definition py_int (v : pyval) : result Z :=
  match v with
  | PInt z => Ok z
  | PBool b => Ok (if b then 1 else 0)%Z
  | PFloat q => Ok (Z.quot (Qnum q) (Zpos (Qden q)))
  | PStr s => int_of_str s
  | _ => raise TypeError
  end.
End PyInt.

Example py_int_str : py_int (PStr (lit " 2_021 ")) = Ok 2021%Z.
Proof. reflexivity. Qed.

Example py_int_float : py_int (PFloat (-7 # 2)) = Ok (-3)%Z.
Proof. reflexivity. Qed.

Example py_int_bad : py_int (PStr (lit "20__21")) = Err ValueError.
Proof. reflexivity. Qed.
