(* ===== verification/PyDict.v ===== *)
(** * Python's insertion-ordered [dict]

    A dict is its list of entries in insertion order.  Keys are compared
    with an equivalence [keq] (Python's [==]; for the front matter,
    [PyVal.key_eqb]).  The operations the script uses:
    - [d[k]] / [d.get(k)]: [dict_get];
    - [d[k] = v]: [dict_set] replaces the value of an existing entry in
      place, keeping the entry's position and its original key object,
      and otherwise appends a new entry;
    - [k in d]: [dict_contains];
    - [d.setdefault(k, v)]: [dict_setdefault] (the returned value is not
      used by the script).

    The invariant: no two keys of a dict are equal ([dict_wf]); every
    operation keeps it.  The lemmas give each lookup after an update and
    the key order after an update. *)

From stdpp Require Import base list decidable.
From Stdlib Require Import Morphisms RelationClasses.
From S2P Require Import Prelude.

Section PyDict.
Context {K V : Type}.
Variable keq : K -> K -> bool.
Hypothesis keq_refl : forall k, keq k k = true.
Hypothesis keq_sym : forall k1 k2, keq k1 k2 = keq k2 k1.
Hypothesis keq_trans : forall k1 k2 k3, keq k1 k2 = true -> keq k2 k3 = true -> keq k1 k3 = true.

Definition dict := list (K * V).

Fixpoint dict_get (k : K) (d : dict) : option V :=
  match d with
  | [] => None
  | (k', v) :: r => if keq k k' then Some v else dict_get k r
  end.

Definition dict_contains (k : K) (d : dict) : bool := existsb (keq k) (map fst d).

Fixpoint dict_set (k : K) (v : V) (d : dict) : dict :=
  match d with
  | [] => [(k, v)]
  | (k', v') :: r => if keq k k' then (k', v) :: r else (k', v') :: dict_set k v r
  end.

Definition dict_setdefault (k : K) (v : V) (d : dict) : dict :=
  if dict_contains k d then d else dict_set k v d.

Fixpoint dict_wf (d : dict) : bool :=
  match d with
  | [] => true
  | (k, _) :: r => negb (dict_contains k r) && dict_wf r
  end.

Definition dict_keys (d : dict) : list K := map fst d.

(** [keq] as a setoid relation. *)
Definition key_equiv (k1 k2 : K) : Prop := keq k1 k2 = true.

#[local] Instance key_equiv_Equivalence : Equivalence key_equiv.
Proof.
  split; unfold key_equiv.
  - intros k. apply keq_refl.
  - intros k1 k2 H. by rewrite keq_sym.
  - intros k1 k2 k3. apply keq_trans.
Qed.

Lemma keq_compat (k1 k2 k : K) : keq k1 k2 = true -> keq k1 k = keq k2 k.
Proof.
  intros H. destruct (keq k1 k) eqn:E1, (keq k2 k) eqn:E2; try done.
  - rewrite keq_sym in H. by rewrite (keq_trans _ _ _ H E1) in E2.
  - by rewrite (keq_trans _ _ _ H E2) in E1.
Qed.

(** Lookups respect key equality. *)
#[local] Instance dict_get_Proper : Proper (key_equiv ==> eq ==> eq) dict_get.
Proof.
  intros k1 k2 Hk d ? <-. unfold key_equiv in Hk.
  induction d as [|[k' v] d IH]; simpl; [done|]. by rewrite (keq_compat _ _ k' Hk), IH.
Qed.

#[local] Instance dict_contains_Proper : Proper (key_equiv ==> eq ==> eq) dict_contains.
Proof.
  intros k1 k2 Hk d ? <-. unfold key_equiv, dict_contains in *.
  induction d as [|[k' v] d IH]; simpl; [done|]. by rewrite (keq_compat _ _ k' Hk), IH.
Qed.

Lemma dict_contains_get (k : K) (d : dict) :
  dict_contains k d = true <-> is_Some (dict_get k d).
Proof.
  unfold dict_contains. induction d as [|[k' v] d IH]; simpl.
  - split; [discriminate|]. by intros [? ?].
  - destruct (keq k k'); simpl; [split; eauto|done].
Qed.

Lemma dict_get_set_eq (k : K) (v : V) (d : dict) : dict_get k (dict_set k v d) = Some v.
Proof.
  induction d as [|[k' v'] d IH]; simpl; [by rewrite keq_refl|].
  destruct (keq k k') eqn:E; simpl; by rewrite E.
Qed.

Lemma dict_get_set_ne (k k2 : K) (v : V) (d : dict) :
  keq k k2 = false -> dict_get k2 (dict_set k v d) = dict_get k2 d.
Proof.
  intros Hne. induction d as [|[k' v'] d IH]; simpl.
  - by rewrite keq_sym, Hne.
  - destruct (keq k k') eqn:E; simpl.
    + assert (H2 : keq k2 k' = false)
        by (rewrite keq_sym, <- (keq_compat k k' k2 E); exact Hne).
      by rewrite H2.
    + by rewrite IH.
Qed.

(** Where the entries go: an update keeps the keys and their order, a
    new key is appended. *)
Lemma dict_keys_set (k : K) (v : V) (d : dict) :
  dict_keys (dict_set k v d) =
  if dict_contains k d then dict_keys d else dict_keys d ++ [k].
Proof.
  unfold dict_keys, dict_contains. induction d as [|[k' v'] d IH]; simpl; [done|].
  destruct (keq k k'); simpl; [done|]. rewrite IH. by destruct (existsb _ _).
Qed.

Lemma dict_contains_set (k k2 : K) (v : V) (d : dict) :
  dict_contains k2 (dict_set k v d) = keq k2 k || dict_contains k2 d.
Proof.
  unfold dict_contains. induction d as [|[k' v'] d IH]; simpl.
  - by rewrite orb_false_r.
  - destruct (keq k k') eqn:E; simpl.
    + assert (H2 : keq k2 k' = keq k2 k)
        by (rewrite (keq_sym k2 k'), (keq_sym k2 k); symmetry; by apply keq_compat).
      rewrite H2. by destruct (keq k2 k).
    + rewrite IH. destruct (keq k2 k'), (keq k2 k); done.
Qed.

(** The invariant is preserved. *)
Lemma dict_set_wf (k : K) (v : V) (d : dict) : dict_wf d = true -> dict_wf (dict_set k v d) = true.
Proof.
  induction d as [|[k' v'] d IH]; simpl; [done|].
  rewrite andb_true_iff. intros [Hn Hw].
  destruct (keq k k') eqn:E; simpl; rewrite ?Hn, ?Hw; [done|].
  rewrite IH by done. rewrite dict_contains_set, keq_sym, E. simpl. by rewrite Hn.
Qed.

Lemma dict_setdefault_wf (k : K) (v : V) (d : dict) :
  dict_wf d = true -> dict_wf (dict_setdefault k v d) = true.
Proof. unfold dict_setdefault. destruct (dict_contains k d); [done|]. apply dict_set_wf. Qed.

Lemma dict_setdefault_present (k : K) (v : V) (d : dict) :
  dict_contains k d = true -> dict_setdefault k v d = d.
Proof. unfold dict_setdefault. by intros ->. Qed.

Lemma dict_get_setdefault (k : K) (v : V) (d : dict) :
  dict_get k (dict_setdefault k v d) =
  match dict_get k d with Some w => Some w | None => Some v end.
Proof.
  unfold dict_setdefault. destruct (dict_get k d) eqn:E.
  - rewrite (proj2 (dict_contains_get k d)) by eauto. done.
  - destruct (dict_contains k d) eqn:C.
    + apply dict_contains_get in C as [w Hw]. congruence.
    + apply dict_get_set_eq.
Qed.
End PyDict.

Arguments dict : clear implicits.
