(* ===== verification/FrontMatter.v ===== *)
(** * Front matter: [read_front_matter] and [write_front_matter]
    (openalex_to_hugo.py, lines 72-125)

    A content file is bytes on disk; [fsys] maps a path to its bytes.
    Reading opens the file with [encoding="utf-8"] in text mode: the
    bytes are decoded strictly ([utf8_decode_strict]; invalid UTF-8
    raises [UnicodeDecodeError]) and every [\r\n] and lone [\r] becomes
    [\n] (universal newlines, [universal_newlines]).  Writing opens the
    file with mode ["w"], which truncates it, and encodes each text the
    script writes ([write_chunks]); on a POSIX system newlines are
    written unchanged.

    [read_front_matter_text] follows the source line by line: the empty
    text; the delimiter chosen by the first line ([---] or [+++]); the
    lines of [splitlines(keepends=True)]; the search for the closing
    delimiter from line 1 on; the malformed-header fallback; the YAML
    load of the lines strictly between the delimiters ([or {}]).  The YAML
    library is a parameter: [yaml_load] is [yaml.safe_load] (it may
    raise) and [yaml_dump] is [yaml.safe_dump] with the script's options
    (one text, written by one [f.write]).

    [render_front_matter] is the text [write_front_matter] writes: [---],
    newline, the dump, [---], then the body, preceded by a newline unless
    it already starts with one ([body_chunk]).  When a text cannot be
    encoded (a lone surrogate), the file keeps the bytes of the texts
    written before it: the header is lost. *)

From stdpp Require Import base list decidable gmap.
From Stdlib Require Import NArith ZArith Lia.
From S2P Require Import Prelude PyStr Utf8 PyVal.

(** The file system: the bytes of each file. *)
Abbreviation fsys := (gmap pystr (list N)).

(** Text-mode reading: universal newlines. *)
Fixpoint universal_newlines (s : pystr) : pystr :=
  match s with
  | [] => []
  | c :: r =>
      if (c =? CR)%N then
        match r with
        | d :: r' => if (d =? LF)%N then LF :: universal_newlines r' else LF :: universal_newlines r
        | [] => [LF]
        end
      else c :: universal_newlines r
  end.

Definition YAML_DELIM : pystr := lit "---".
Definition TOML_DELIM : pystr := lit "+++".

(** [if first_line.startswith("---") ... elif ... "+++" ... else None]. *)
Definition detect_delim (first_line : pystr) : option pystr :=
  if startswith first_line YAML_DELIM then Some YAML_DELIM
  else if startswith first_line TOML_DELIM then Some TOML_DELIM
  else None.

(** [text[:first_line_end] if first_line_end != -1 else text]. *)
Definition first_line_of (text : pystr) : pystr :=
  let first_line_end := py_find text [LF] in
  if (first_line_end =? -1)%Z then text else take (Z.to_nat first_line_end) text.

(** The loop [for i in range(1, len(lines))]: the first index [i >= 1]
    whose line starts with the delimiter.  [i] is the index of the head
    of [ls]. *)
Fixpoint find_close (delim : pystr) (i : nat) (ls : list pystr) : option nat :=
  match ls with
  | [] => None
  | l :: r => if startswith l delim then Some i else find_close delim (S i) r
  end.

(** [f.write(t)] for each text [t], on a file opened with
    [encoding="utf-8"]: the bytes in the file so far, and the outcome. *)
Fixpoint write_chunks (written : list N) (ts : list pystr) : list N * result unit :=
  match ts with
  | [] => (written, Ok tt)
  | t :: ts' =>
      match utf8_encode t with
      | Ok bs => write_chunks (written ++ bs) ts'
      | Err e => (written, Err e)
      end
  end.

Section FrontMatter.
Variable yaml_load : pystr -> result pyval.
Variable yaml_dump : pyval -> pystr.

(** Lines 79-111, for a non-empty text. *)
Definition read_header (text : pystr) : result (pyval * pystr) :=
  match detect_delim (first_line_of text) with
  | None => Ok (PDict [], text)
  | Some delim =>
      let lines := py_splitlines text in
      match lines with
      | l0 :: rest =>
          if startswith l0 delim then
            match find_close delim 1 rest with
            | None => Ok (PDict [], text)
            | Some close_idx =>
                let fm_text := py_join (take (close_idx - 1) rest) in
                let body := py_join (drop close_idx rest) in
                data ← yaml_load fm_text;
                Ok (py_or data (PDict []), body)
            end
          else Ok (PDict [], text)
      | [] => Ok (PDict [], text)
      end
  end.

(** Lines 76-111: the empty file first. *)
Definition read_front_matter_text (text : pystr) : result (pyval * pystr) :=
  match text with
  | [] => Ok (PDict [], [])
  | _ => read_header text
  end.

(** Lines 72-74: [open(path, "r", encoding="utf-8").read()] decodes the
    bytes strictly, then translates newlines. *)
Definition read_front_matter (path : pystr) (fs : fsys) : result (pyval * pystr) :=
  match fs !! path with
  | Some raw =>
      text ← utf8_decode_strict raw;
      read_front_matter_text (universal_newlines text)
  | None => raise FileNotFoundError
  end.

(** Lines 122-125: the body as written after the closing delimiter. *)
Definition body_chunk (body : pystr) : pystr :=
  if negb (bool_decide (body = [])) && (startswith body [LF] || startswith body [CR; LF])
  then body else [LF] ++ body.

(** The texts lines 116-125 write, in order. *)
Definition front_matter_chunks (data : pyval) (body : pystr) : list pystr :=
  [lit "---" ++ [LF]; yaml_dump data; lit "---"; body_chunk body].

(** The text of the file [write_front_matter] writes. *)
Definition render_front_matter (data : pyval) (body : pystr) : pystr :=
  lit "---" ++ [LF] ++ yaml_dump data ++ lit "---" ++ body_chunk body.

(** Lines 114-125: [open(path, "w", encoding="utf-8")] truncates the
    file; every [f.write] then encodes its text; the first that fails
    raises, and the file keeps what was written before (the [with]
    block closes and flushes it). *)
Definition write_front_matter (path : pystr) (data : pyval) (body : pystr) (fs : fsys) : result unit * fsys :=
  let '(bytes, r) := write_chunks [] (front_matter_chunks data body) in
  (r, <[path := bytes]> fs).
End FrontMatter.

(** ** Lemmas: newlines and lines *)

Lemma universal_newlines_id (s : pystr) : ~ In CR s -> universal_newlines s = s.
Proof.
  induction s as [|c s IH]; intros Hs; simpl; [done|].
  rewrite (proj2 (N.eqb_neq c CR)) by (intros ->; apply Hs; by left).
  rewrite IH; [done|]. intros H. apply Hs. by right.
Qed.

Lemma universal_newlines_no_cr_le (n : nat) (s : pystr) :
  (length s <= n)%nat -> ~ In CR (universal_newlines s).
Proof.
  revert s; induction n as [|n IH]; intros [|c r] Hl; simpl in *; try done; try lia.
  destruct (c =? CR)%N eqn:Ec.
  - destruct r as [|d r']; [simpl; unfold LF, CR; intros [H|[]]; lia|].
    destruct (d =? LF)%N; (intros [H|H]; [unfold LF, CR in H; lia|]);
      revert H; apply IH; simpl in *; lia.
  - intros [->|H]; [by rewrite N.eqb_refl in Ec|]. revert H. apply IH. lia.
Qed.

(** Text read in text mode never holds a carriage return. *)
Lemma universal_newlines_no_cr (s : pystr) : ~ In CR (universal_newlines s).
Proof. by apply (universal_newlines_no_cr_le (length s)). Qed.

Lemma splitlines_go_nobreak (cur a s : pystr) :
  Forall (fun c => py_linebreak c = false) a ->
  splitlines_go cur (a ++ s) = splitlines_go (cur ++ a) s.
Proof.
  revert cur; induction a as [|c a IH]; intros cur Ha; [simpl; by rewrite app_nil_r|].
  inversion Ha as [|? ? Hc Ha']; subst.
  assert (Hcr : (c =? CR)%N = false) by (apply N.eqb_neq; intros ->; discriminate).
  rewrite <- app_comm_cons, splitlines_go_cons, Hcr, Hc, IH by done. by rewrite <- app_assoc.
Qed.

(** The first line starts with the text read so far. *)
Lemma splitlines_go_head (s cur : pystr) :
  cur <> [] -> exists l rest, splitlines_go cur s = l :: rest /\ startswith l cur = true.
Proof.
  revert cur; induction s as [|c s IH]; intros cur Hne.
  - exists cur, []. split; [by destruct cur|]. rewrite <- (app_nil_r cur) at 1. apply startswith_app.
  - rewrite splitlines_go_cons.
    destruct (c =? CR)%N; [destruct s as [|d s']; [|destruct (d =? LF)%N]|destruct (py_linebreak c)];
      try (eexists _, _; split; [reflexivity|apply startswith_app]).
    destruct (IH (cur ++ [c])) as (l & rest & -> & Hl); [by destruct cur|].
    exists l, rest. split; [done|].
    apply startswith_spec in Hl as (r & ->). rewrite <- app_assoc. apply startswith_app.
Qed.

Lemma startswith_take (s p : pystr) (n : nat) :
  startswith (take n s) p = true -> startswith s p = true.
Proof.
  rewrite !startswith_spec. intros (r & Hr). exists (r ++ drop n s).
  rewrite app_assoc, <- Hr. symmetry. apply take_drop.
Qed.

Lemma first_line_prefix (text p : pystr) :
  startswith (first_line_of text) p = true -> startswith text p = true.
Proof. unfold first_line_of. destruct (_ =? -1)%Z; [done|]. apply startswith_take. Qed.

Lemma detect_delim_some (l delim : pystr) :
  detect_delim l = Some delim -> startswith l delim = true /\ (delim = YAML_DELIM \/ delim = TOML_DELIM).
Proof.
  unfold detect_delim.
  destruct (startswith l YAML_DELIM) eqn:E1; [intros [= <-]; auto|].
  destruct (startswith l TOML_DELIM) eqn:E2; [intros [= <-]; auto|done].
Qed.

Lemma delim_nobreak (delim : pystr) :
  delim = YAML_DELIM \/ delim = TOML_DELIM -> Forall (fun c => py_linebreak c = false) delim.
Proof. intros [-> | ->]; repeat constructor. Qed.

Lemma find_close_none (delim : pystr) (i : nat) (ls : list pystr) :
  Forall (fun l => startswith l delim = false) ls -> find_close delim i ls = None.
Proof. intros H. revert i. induction H as [|l ls Hl _ IH]; intros i; simpl; [done|]. by rewrite Hl, IH. Qed.

Lemma find_close_app (delim l : pystr) (i : nat) (ls r : list pystr) :
  Forall (fun l => startswith l delim = false) ls -> startswith l delim = true ->
  find_close delim i (ls ++ l :: r) = Some (i + length ls)%nat.
Proof.
  intros H. revert i. induction H as [|l' ls Hl' _ IH]; intros i Hl; simpl.
  - rewrite Hl. f_equal. lia.
  - rewrite Hl', IH by done. f_equal. lia.
Qed.

Lemma concat_drop_suffix {A} (ls : list (list A)) (k : nat) :
  exists pre, concat ls = pre ++ concat (drop k ls).
Proof.
  exists (concat (take k ls)). by rewrite <- concat_app, take_drop.
Qed.

Lemma singleton_app {A} (a : A) (l : list A) : [a] ++ l = a :: l.
Proof. reflexivity. Qed.

(** A delimiter line is split off as a line of its own. *)
Lemma splitlines_delim_line (r : pystr) :
  py_splitlines (YAML_DELIM ++ LF :: r) = (YAML_DELIM ++ [LF]) :: py_splitlines r.
Proof. rewrite (splitlines_app YAML_DELIM r LF) by done. reflexivity. Qed.

(** Text mode keeps every property of the characters that [\n] has. *)
Lemma universal_newlines_Forall_le (P : N -> Prop) (n : nat) (s : pystr) :
  P LF -> (length s <= n)%nat -> Forall P s -> Forall P (universal_newlines s).
Proof.
  intros HLF. revert s; induction n as [|n IH]; intros [|c r] Hl Hs; simpl in *; try constructor; try lia.
  inversion Hs as [|? ? Hc Hr]; subst. destruct (c =? CR)%N.
  - destruct r as [|d r']; [by repeat constructor|]. inversion Hr; subst.
    destruct (d =? LF)%N; constructor; try done; apply IH; simpl in *; (lia || done).
  - constructor; [done|]. apply IH; [lia|done].
Qed.

Lemma universal_newlines_Forall (P : N -> Prop) (s : pystr) :
  P LF -> Forall P s -> Forall P (universal_newlines s).
Proof. intros HLF. by apply (universal_newlines_Forall_le P (length s)). Qed.

Section Suffix.
Variable yaml_load : pystr -> result pyval.

(** The body [read_front_matter] returns ends the text it read. *)
Lemma read_front_matter_text_suffix (text body : pystr) (v : pyval) :
  read_front_matter_text yaml_load text = Ok (v, body) -> exists pre, text = pre ++ body.
Proof.
  destruct text as [|c t]; [intros [= _ <-]; by exists []|]. unfold read_front_matter_text, read_header.
  destruct (detect_delim _) as [delim|]; [|intros [= _ <-]; by exists []].
  pose proof (py_splitlines_concat (c :: t)) as Hc.
  destruct (py_splitlines (c :: t)) as [|l0 rest]; [intros [= _ <-]; by exists []|].
  destruct (startswith l0 delim); [|intros [= _ <-]; by exists []].
  destruct (find_close delim 1 rest) as [k|]; [|intros [= _ <-]; by exists []].
  intros H. ok_inv H. injection H as _ <-.
  destruct (concat_drop_suffix rest k) as [pre Hpre]. exists (l0 ++ pre).
  rewrite <- Hc. simpl. rewrite Hpre. unfold py_join. by rewrite app_assoc.
Qed.

(** A body read from valid UTF-8 bytes is a valid str. *)
Lemma read_front_matter_body_valid (path : pystr) (fs : fsys) (v : pyval) (body : pystr) :
  read_front_matter yaml_load path fs = Ok (v, body) -> Forall valid_cp body.
Proof.
  unfold read_front_matter. destruct (fs !! path) as [raw|]; [|discriminate].
  intros H. ok_inv H. apply read_front_matter_text_suffix in H as [pre Hpre].
  apply utf8_decode_valid in E.
  assert (Hu : Forall valid_cp (universal_newlines x)).
  { apply universal_newlines_Forall; [apply (bool_decide_unpack _); reflexivity|done]. }
  rewrite Hpre in Hu. by apply Forall_app in Hu as [_ ?].
Qed.
End Suffix.

(** ** Theorems *)

Section FrontMatterTheorems.
Variable yaml_load : pystr -> result pyval.
Variable yaml_dump : pyval -> pystr.

(** the check [not lines or not lines[0].startswith(delim)] (line 93)
    never fires once a delimiter was detected on the first line: the
    first line of [splitlines] starts with the delimiter. *)
Theorem read_guard_dead (text delim : pystr) :
  detect_delim (first_line_of text) = Some delim ->
  exists l0 rest, py_splitlines text = l0 :: rest /\ startswith l0 delim = true.
Proof.
  intros (Hs & Hd)%detect_delim_some. apply first_line_prefix, startswith_spec in Hs as (r & ->).
  unfold py_splitlines. rewrite splitlines_go_nobreak by (by apply delim_nobreak).
  apply splitlines_go_head. by destruct Hd as [-> | ->].
Qed.

(** C15: a header opened on the first line and never closed is treated
    as absent: empty mapping, and the whole text as body (spec 4.6). *)
Theorem read_malformed (text delim : pystr) :
  detect_delim (first_line_of text) = Some delim ->
  Forall (fun l => startswith l delim = false) (tail (py_splitlines text)) ->
  read_front_matter_text yaml_load text = Ok (PDict [], text).
Proof.
  intros Hd Hclose. destruct (read_guard_dead text delim Hd) as (l0 & rest & Hl & Hs).
  rewrite Hl in Hclose. simpl in Hclose.
  destruct text as [|c t]; [done|]. unfold read_front_matter_text, read_header.
  rewrite Hd, Hl, Hs, find_close_none by done. done.
Qed.

(** C22: the header of a text that opens with a delimiter line is the
    lines strictly between that line and the first later line starting
    with the same delimiter, loaded as YAML ([or {}]); the body is every
    line after the closing one (spec 4.6). *)
Theorem read_header_close (text delim l0 lc : pystr) (region rest : list pystr) :
  detect_delim (first_line_of text) = Some delim ->
  py_splitlines text = l0 :: region ++ lc :: rest ->
  Forall (fun l => startswith l delim = false) region -> startswith lc delim = true ->
  read_front_matter_text yaml_load text =
  (v ← yaml_load (py_join region); Ok (py_or v (PDict []), py_join rest)).
Proof.
  intros Hd Hl Hreg Hlc. destruct (read_guard_dead text delim Hd) as (l0' & rest' & Hl' & Hs).
  rewrite Hl in Hl'. injection Hl' as <- _.
  destruct text as [|c t]; [done|]. unfold read_front_matter_text, read_header.
  rewrite Hd, Hl, Hs, (find_close_app delim lc 1 region rest) by done.
  replace (1 + length region - 1)%nat with (length region) by lia.
  rewrite take_app_length. replace (1 + length region)%nat with (length (region ++ [lc])) by (rewrite length_app; simpl; lia).
  replace (region ++ lc :: rest) with ((region ++ [lc]) ++ rest) by (by rewrite <- app_assoc).
  by rewrite drop_app_length.
Qed.

(** C32: a text whose first line starts with neither [---] nor [+++] has
    no header: the mapping is empty and the whole text is the body (spec
    4.6). *)
Theorem read_no_header (text : pystr) :
  startswith text YAML_DELIM = false -> startswith text TOML_DELIM = false ->
  read_front_matter_text yaml_load text = Ok (PDict [], text).
Proof.
  intros Hy Ht. destruct text as [|c t]; [done|]. unfold read_front_matter_text, read_header.
  replace (detect_delim (first_line_of (c :: t))) with (@None pystr); [done|].
  unfold detect_delim.
  destruct (startswith (first_line_of (c :: t)) YAML_DELIM) eqn:E1;
    [apply first_line_prefix in E1; congruence|].
  destruct (startswith (first_line_of (c :: t)) TOML_DELIM) eqn:E2;
    [apply first_line_prefix in E2; congruence|done].
Qed.

Lemma render_tail (data : pyval) (body : pystr) :
  ~ In CR body ->
  render_front_matter yaml_dump data body =
  lit "---" ++ [LF] ++ yaml_dump data ++ lit "---" ++
  LF :: (if startswith body [LF] then drop 1 body else body).
Proof.
  intros Hcr. unfold render_front_matter. f_equal. f_equal. f_equal. f_equal.
  unfold body_chunk. destruct body as [|c b]; [done|]. simpl.
  assert (Hc : bool_decide (CR = c) = false) by (apply bool_decide_eq_false; intros <-; apply Hcr; by left).
  rewrite Hc. simpl. destruct (bool_decide (LF = c)) eqn:E; simpl; [|done].
  apply bool_decide_eq_true in E. by subst.
Qed.

(** Reading back the text of [render_front_matter]. *)
Lemma read_render (data : pyval) (body : pystr) :
  (exists d, yaml_dump data = d ++ [LF]) ->
  ~ In CR (yaml_dump data) ->
  Forall (fun l => startswith l YAML_DELIM = false) (py_splitlines (yaml_dump data)) ->
  ~ In CR body ->
  read_front_matter_text yaml_load (universal_newlines (render_front_matter yaml_dump data body)) =
  (v ← yaml_load (yaml_dump data);
   Ok (py_or v (PDict []), if startswith body [LF] then drop 1 body else body)).
Proof.
  intros [d Hd] Hcr Hlines Hbody.
  set (b' := if startswith body [LF] then drop 1 body else body).
  assert (Hb' : ~ In CR b').
  { unfold b'. destruct (startswith body [LF]); [|done].
    intros H. apply Hbody. destruct body; [done|]. by right. }
  rewrite render_tail by done. fold b'.
  rewrite universal_newlines_id.
  2:{ rewrite !in_app_iff. intros [H|[H|[H|[H|H]]]]; try (by apply Hcr);
      try (by apply Hb'; destruct H as [H|H]; [unfold LF, CR in H; lia|]);
      simpl in H; unfold CR in H; lia. }
  set (T := lit "---" ++ [LF] ++ yaml_dump data ++ lit "---" ++ LF :: b').
  assert (Hfirst : first_line_of T = YAML_DELIM).
  { unfold first_line_of, T. rewrite (app_assoc (lit "---") [LF]).
    rewrite py_find_app_l by (vm_compute; discriminate). reflexivity. }
  assert (Hlines_T : py_splitlines T =
    (YAML_DELIM ++ [LF]) :: py_splitlines (yaml_dump data) ++ (YAML_DELIM ++ [LF]) :: py_splitlines b').
  { unfold T. fold YAML_DELIM. rewrite singleton_app, splitlines_delim_line. f_equal.
    rewrite Hd, <- app_assoc, singleton_app, (splitlines_app d _ LF) by done.
    by rewrite splitlines_delim_line. }
  assert (HT : read_front_matter_text yaml_load T = read_header yaml_load T)
    by (unfold T; reflexivity).
  rewrite HT. unfold read_header. rewrite Hfirst.
  rewrite (eq_refl : detect_delim YAML_DELIM = Some YAML_DELIM), Hlines_T.
  rewrite startswith_app.
  rewrite (find_close_app _ _ 1 _ _ Hlines) by done.
  rewrite Nat.add_sub', take_app_length, (Nat.add_comm 1), <- drop_drop, drop_app_length.
  unfold py_join. simpl drop. rewrite drop_0, !py_splitlines_concat. reflexivity.
Qed.

Lemma write_chunks_ok (w bs : list N) (ts : list pystr) :
  utf8_encode (concat ts) = Ok bs -> write_chunks w ts = (w ++ bs, Ok tt).
Proof.
  revert w bs. induction ts as [|t ts IH]; intros w bs; simpl.
  - intros [= <-]. by rewrite app_nil_r.
  - rewrite utf8_encode_app. destruct (utf8_encode t) as [x|e]; simpl; [|discriminate].
    destruct (utf8_encode (concat ts)) as [y|e] eqn:E; simpl; [|discriminate]. intros [= <-].
    rewrite (IH _ y) by done. by rewrite app_assoc.
Qed.

(** When the text can be encoded, the file holds its bytes. *)
Lemma write_front_matter_ok (path : pystr) (data : pyval) (body : pystr) (fs : fsys) (bs : list N) :
  utf8_encode (render_front_matter yaml_dump data body) = Ok bs ->
  write_front_matter yaml_dump path data body fs = (Ok tt, <[path := bs]> fs).
Proof.
  intros H. unfold write_front_matter. rewrite (write_chunks_ok [] bs); [done|].
  rewrite <- H. unfold front_matter_chunks, render_front_matter. cbn [concat]. by rewrite app_nil_r, <- app_assoc.
Qed.

Lemma render_valid (data : pyval) (body : pystr) :
  Forall valid_cp (yaml_dump data ++ body) -> Forall valid_cp (render_front_matter yaml_dump data body).
Proof.
  intros [Hd Hb]%Forall_app. unfold render_front_matter, body_chunk.
  assert (Hlit : Forall valid_cp (lit "---" ++ [LF])) by (apply (bool_decide_unpack _); vm_compute; reflexivity).
  apply Forall_app in Hlit as [H3 HLF].
  repeat (apply Forall_app; split); try done.
  all: destruct (_ && _); [done|by apply Forall_app].
Qed.

(** C3: writing then reading the front matter gives back the loaded
    dump and the body without its first newline, if it had one: the
    writer does not add the line break the reader removes with the
    closing delimiter.  The hypotheses say the dump is newline-ended
    text with no carriage return and no line starting with [---], as
    [yaml.safe_dump] of a mapping produces, the body has no carriage
    return (as every body [read_front_matter] returns), and both are
    valid strs, so the UTF-8 encoding of the write succeeds and the
    strict decoding of the read gives the text back. *)
Theorem front_matter_roundtrip (path : pystr) (data : pyval) (body : pystr) (fs : fsys) :
  (exists d, yaml_dump data = d ++ [LF]) ->
  ~ In CR (yaml_dump data) ->
  Forall (fun l => startswith l YAML_DELIM = false) (py_splitlines (yaml_dump data)) ->
  ~ In CR body ->
  Forall valid_cp (yaml_dump data ++ body) ->
  fst (write_front_matter yaml_dump path data body fs) = Ok tt /\
  read_front_matter yaml_load path (snd (write_front_matter yaml_dump path data body fs)) =
  (v ← yaml_load (yaml_dump data);
   Ok (py_or v (PDict []), if startswith body [LF] then drop 1 body else body)).
Proof.
  intros Hd Hcr Hl Hb Hv. pose proof (render_valid data body Hv) as Hr.
  destruct (utf8_valid_roundtrip _ Hr) as (bs & Hbs & Hdec).
  rewrite (write_front_matter_ok path data body fs bs Hbs). split; [done|].
  unfold read_front_matter. simpl snd. rewrite lookup_insert_eq, Hdec.
  by apply read_render.
Qed.
End FrontMatterTheorems.

(** ** Witnesses, with a fixed YAML library *)

Definition ex_yaml_dump (v : pyval) : pystr := lit "title: x" ++ [LF].
Definition ex_yaml_load (s : pystr) : result pyval := Ok (PDict [(KStr (lit "title"), PStr (lit "x"))]).

Definition ex_unclosed : pystr := lit "---" ++ [LF] ++ lit "title: x" ++ [LF] ++ lit "body" ++ [LF].

Lemma read_malformed_witness :
  read_front_matter_text ex_yaml_load ex_unclosed = Ok (PDict [], ex_unclosed).
Proof. apply (read_malformed _ _ YAML_DELIM); vm_compute; [reflexivity|repeat constructor]. Defined.

Definition ex_page : pystr :=
  lit "---" ++ [LF] ++ lit "title: x" ++ [LF] ++ lit "---" ++ [LF] ++ lit "body" ++ [LF].

Lemma read_header_close_witness :
  read_front_matter_text ex_yaml_load ex_page = Ok (PDict [(KStr (lit "title"), PStr (lit "x"))], lit "body" ++ [LF]).
Proof.
  rewrite (read_header_close _ _ YAML_DELIM (lit "---" ++ [LF]) (lit "---" ++ [LF]) [lit "title: x" ++ [LF]]
             [lit "body" ++ [LF]]); vm_compute; first [reflexivity | repeat constructor].
Defined.

Lemma read_no_header_witness :
  read_front_matter_text ex_yaml_load (lit "-- x" ++ [LF] ++ lit "---" ++ [LF]) =
  Ok (PDict [], lit "-- x" ++ [LF] ++ lit "---" ++ [LF]).
Proof. apply read_no_header; reflexivity. Defined.

Lemma front_matter_roundtrip_witness :
  fst (write_front_matter ex_yaml_dump (lit "a.md") PNone (LF :: lit "Body") ∅) = Ok tt /\
  read_front_matter ex_yaml_load (lit "a.md")
    (snd (write_front_matter ex_yaml_dump (lit "a.md") PNone (LF :: lit "Body") ∅)) =
  Ok (PDict [(KStr (lit "title"), PStr (lit "x"))], lit "Body").
Proof.
  destruct (front_matter_roundtrip ex_yaml_load ex_yaml_dump (lit "a.md") PNone (LF :: lit "Body") ∅)
    as [H1 H2].
  - exists (lit "title: x"). reflexivity.
  - not_in_closed.
  - vm_compute. repeat constructor.
  - not_in_closed.
  - apply (bool_decide_unpack _). vm_compute. reflexivity.
  - split; [exact H1|]. rewrite H2. reflexivity.
Defined.
