(* ===== verification/ScanLoop.v ===== *)
(** * The closing-delimiter loop as a transition system
    (openalex_to_hugo.py, lines 96-102)

    [read_front_matter] looks for the closing delimiter with

<<
    close_idx = None
    for i in range(1, len(lines)):
        if lines[i].startswith(delim):
            close_idx = i
            break
    if close_idx is None: ...
>>

    [FrontMatter.find_close] is the recursive reading of this loop that
    [read_header] uses.  Here the loop is modelled the way it executes:
    a state [lstate] holds the loop variable [i], the variable
    [close_idx] and the program point (the loop head, or line 102 after
    the loop); [loop_step] is one iteration (a miss moves to the next
    [i]; a hit assigns [close_idx] and breaks; an exhausted range leaves
    the loop).  [loop_next] is the same step as a function, [run_loop]
    runs it with fuel.

    Theorems: the step relation is deterministic and executable; every
    reachable state satisfies the loop invariant (rule induction); every
    path of the loop is finite (a measure, the iterations left, decreases);
    every execution eventually leaves the loop with [close_idx] equal to
    [find_close], which is therefore a faithful reading of the loop; and
    [max 1 (len lines)] units of fuel suffice for [run_loop]. *)

From stdpp Require Import base list decidable relations.
From Stdlib Require Import Lia.
From S2P Require Import Prelude PyStr FrontMatter.

Module ScanLoop.
Local Open Scope nat_scope.

(** Program points: the head of the [for] loop, and line 102. *)
Inductive pc := LoopHead | AfterLoop.

#[export] Instance pc_eq_dec : EqDecision pc.
Proof. solve_decision. Defined.

Record lstate := mk_lstate { ls_i : nat; ls_close_idx : option nat; ls_pc : pc }.

Section Loop.
Variable delim : pystr.
Variable lines : list pystr.

(** Line 96 ([close_idx = None]) and the first value of [range(1, len(lines))]. *)
Definition loop_init : lstate := mk_lstate 1 None LoopHead.

(** One iteration of lines 97-100.  [lines !! i = Some l] is [i < len(lines)]. *)
Inductive loop_step : relation lstate :=
  | step_miss i c l :
      lines !! i = Some l -> startswith l delim = false ->
      loop_step (mk_lstate i c LoopHead) (mk_lstate (S i) c LoopHead)
  | step_break i c l :
      lines !! i = Some l -> startswith l delim = true ->
      loop_step (mk_lstate i c LoopHead) (mk_lstate i (Some i) AfterLoop)
  | step_exhausted i c :
      lines !! i = None ->
      loop_step (mk_lstate i c LoopHead) (mk_lstate i c AfterLoop).

(** The same step, executable. *)
Definition loop_next (s : lstate) : option lstate :=
  match ls_pc s with
  | AfterLoop => None
  | LoopHead =>
      match lines !! ls_i s with
      | Some l =>
          if startswith l delim then Some (mk_lstate (ls_i s) (Some (ls_i s)) AfterLoop)
          else Some (mk_lstate (S (ls_i s)) (ls_close_idx s) LoopHead)
      | None => Some (mk_lstate (ls_i s) (ls_close_idx s) AfterLoop)
      end
  end.

Fixpoint run_loop (fuel : nat) (s : lstate) : lstate :=
  match fuel with
  | O => s
  | S n => match loop_next s with Some s' => run_loop n s' | None => s end
  end.

(** Iterations left, plus one for leaving the loop. *)
Definition loop_measure (s : lstate) : nat :=
  match ls_pc s with AfterLoop => 0 | LoopHead => S (length lines - ls_i s) end.

(** What holds at every reachable state: [i >= 1]; every line in
    [1 .. i-1] missed; [close_idx] is unset, and then an exit means the
    range is exhausted, or it is the index of a hit and the loop has left. *)
Definition loop_inv (s : lstate) : Prop :=
  1 <= ls_i s /\
  (forall k l, 1 <= k < ls_i s -> lines !! k = Some l -> startswith l delim = false) /\
  match ls_close_idx s with
  | None => ls_pc s = AfterLoop -> length lines <= ls_i s
  | Some j => j = ls_i s /\ ls_pc s = AfterLoop /\
              exists l, lines !! j = Some l /\ startswith l delim = true
  end.

(** ** Lemmas *)

Lemma loop_next_spec (s s' : lstate) : loop_step s s' <-> loop_next s = Some s'.
Proof.
  split.
  - intros [i c l Hl Hs|i c l Hl Hs|i c Hl]; unfold loop_next; simpl.
    all: rewrite Hl; try rewrite Hs; done.
  - destruct s as [i c []]; unfold loop_next; simpl; [|done].
    destruct (lines !! i) as [l|] eqn:Hl; [destruct (startswith l delim) eqn:Hs|];
      intros [= <-]; econstructor; eauto.
Qed.

Lemma loop_step_det : deterministic loop_step.
Proof. intros s s1 s2 H1 H2. apply loop_next_spec in H1, H2. congruence. Qed.

(** The loop head can always step. *)
Lemma loop_head_red (i : nat) (c : option nat) : red loop_step (mk_lstate i c LoopHead).
Proof.
  destruct (lines !! i) as [l|] eqn:?; [destruct (startswith l delim) eqn:?|]; eexists;
    [eapply step_break | eapply step_miss | eapply step_exhausted]; eauto.
Qed.

Lemma loop_nf (s : lstate) : nf loop_step s <-> ls_pc s = AfterLoop.
Proof.
  destruct s as [i c []]; simpl; split; try done.
  - intros Hn. destruct Hn. apply loop_head_red.
  - intros _ [? Hs]. inversion Hs.
Qed.

#[export] Instance loop_red_dec (s : lstate) : Decision (red loop_step s).
Proof.
  destruct s as [i c []]; [left; apply loop_head_red | right; by intros [? Hs]; inversion Hs].
Defined.

Lemma loop_step_measure (s s' : lstate) :
  loop_step s s' -> loop_measure s' < loop_measure s.
Proof.
  intros []; unfold loop_measure; simpl; [|lia..].
  match goal with H : lines !! _ = Some _ |- _ => apply lookup_lt_Some in H end. lia.
Qed.

Lemma loop_inv_init : loop_inv loop_init.
Proof. unfold loop_inv; simpl. split_and!; [lia| lia |by intros [=]]. Qed.

Lemma loop_inv_step (s s' : lstate) : loop_inv s -> loop_step s s' -> loop_inv s'.
Proof.
  unfold loop_inv. intros (H1 & Hmiss & Hc) Hs.
  destruct Hs as [i c l Hl Hst|i c l Hl Hst|i c Hl]; simpl in *.
  - destruct c as [j|]; [by destruct Hc as (_ & [=] & _)|].
    split_and!; [lia| |by intros [=]]. intros k l' Hk Hl'.
    destruct (decide (k = i)) as [->|]; [congruence|]. apply (Hmiss k); [lia|done].
  - split_and!; [lia|done..|eauto].
  - split_and!; [lia|done|]. destruct c as [j|]; [by destruct Hc as (_ & [=] & _)|].
    intros _. by apply lookup_ge_None.
Qed.

Lemma run_loop_rtc (fuel : nat) (s : lstate) : rtc loop_step s (run_loop fuel s).
Proof.
  revert s. induction fuel as [|n IH]; intros s; simpl; [constructor|].
  destruct (loop_next s) as [s'|] eqn:Hn; [|constructor].
  eapply rtc_l; [apply loop_next_spec, Hn | apply IH].
Qed.

Lemma run_loop_nf (fuel : nat) (s : lstate) :
  loop_measure s <= fuel -> loop_next (run_loop fuel s) = None.
Proof.
  revert s. induction fuel as [|n IH]; intros s Hf; simpl.
  - destruct s as [i c []]; unfold loop_measure in *; simpl in *; [lia|done].
  - destruct (loop_next s) as [s'|] eqn:Hn; [|done].
    apply IH. apply loop_next_spec, loop_step_measure in Hn. lia.
Qed.

Lemma loop_next_None (s : lstate) : loop_next s = None <-> ls_pc s = AfterLoop.
Proof.
  destruct s as [i c []]; unfold loop_next; simpl; [|done].
  destruct (lines !! i) as [l|]; [destruct (startswith l delim)|]; done.
Qed.

(** The invariant is preserved along every path. *)
Lemma loop_inv_rtc (s s' : lstate) : loop_inv s -> rtc loop_step s s' -> loop_inv s'.
Proof. intros Hs Hr. induction Hr as [|x y z Hxy _ IH]; [done|]. apply IH. by eapply loop_inv_step. Qed.

Lemma loop_measure_init : loop_measure loop_init = S (length lines - 1).
Proof. done. Qed.

End Loop.

Arguments loop_init : simpl never.

Section Closing.
Variable delim : pystr.

(** [find_close] from a lookup: the first hit of [ls], counted from [i]. *)
Lemma find_close_lookup (i j : nat) (ls : list pystr) (l : pystr) :
  (forall k l', k < j -> ls !! k = Some l' -> startswith l' delim = false) ->
  ls !! j = Some l -> startswith l delim = true ->
  find_close delim i ls = Some (i + j).
Proof.
  revert i j. induction ls as [|x ls IH]; intros i [|j] Hmiss Hj Hl; simpl in *; try done.
  - injection Hj as ->. by rewrite Hl, Nat.add_0_r.
  - rewrite (Hmiss 0 x) by (done || lia).
    rewrite (IH (S i) j); [f_equal; lia| |done..].
    intros k l' Hk. apply (Hmiss (S k)). lia.
Qed.

Lemma find_close_lookup_none (i : nat) (ls : list pystr) :
  (forall k l, ls !! k = Some l -> startswith l delim = false) -> find_close delim i ls = None.
Proof.
  intros H. apply find_close_none, Forall_lookup. intros k l. apply H.
Qed.

(** The exit state of the loop holds [find_close]'s answer. *)
Lemma loop_inv_exit (lines : list pystr) (s : lstate) :
  loop_inv delim lines s -> ls_pc s = AfterLoop ->
  ls_close_idx s = find_close delim 1 (drop 1 lines).
Proof.
  intros (H1 & Hmiss & Hc) Hpc. destruct (ls_close_idx s) as [j|].
  - destruct Hc as (-> & _ & l & Hl & Hs).
    rewrite (find_close_lookup 1 (ls_i s - 1) _ l); [f_equal; lia| |by rewrite lookup_drop, Nat.add_sub_assoc, Nat.add_comm, Nat.add_sub by lia|done].
    intros k l' Hk. rewrite lookup_drop. apply Hmiss. lia.
  - symmetry. apply find_close_lookup_none. intros k l. rewrite lookup_drop.
    intros Hl. apply (Hmiss (1 + k)); [|done]. apply lookup_lt_Some in Hl. specialize (Hc Hpc). lia.
Qed.
End Closing.

(** ** Theorems *)

Section LoopTheorems.
Variable delim : pystr.
Variable lines : list pystr.

(** C31: Liveness of the loop of lines 96-100: on every path from line 96
    the loop eventually reaches line 102, with [close_idx] equal to
    [find_close delim 1 lines[1:]], the first index [i >= 1] whose line
    starts with the delimiter (or [None]).  Every path also can make a
    step until then. *)
Theorem loop_eventually_exit :
  eventually (loop_step delim lines)
    (fun s => ls_pc s = AfterLoop /\ ls_close_idx s = find_close delim 1 (drop 1 lines))
    loop_init.
Proof.
  apply (sn_eventually _ _ loop_init); [exact (sn_measure _ _ (loop_step_measure delim lines) _)|].
  intros s Hr Hnf. apply loop_nf in Hnf. split; [done|].
  apply loop_inv_exit; [|done]. eapply loop_inv_rtc; [apply loop_inv_init | done].
Qed.

(** Termination: from any state, every path of the loop is finite
    ([sn], strong normalisation): each iteration decreases the number of
    indices left in [range(1, len(lines))]. *)
Theorem loop_terminates (s : lstate) : sn (loop_step delim lines) s.
Proof. exact (sn_measure _ _ (loop_step_measure delim lines) s). Qed.

(** Fuel bound: [max 1 (len lines)] steps of [run_loop] from line 96
    reach line 102, with [close_idx] equal to [find_close]. *)
Theorem run_loop_exit (fuel : nat) :
  Nat.max 1 (length lines) <= fuel ->
  ls_pc (run_loop delim lines fuel loop_init) = AfterLoop /\
  ls_close_idx (run_loop delim lines fuel loop_init) = find_close delim 1 (drop 1 lines).
Proof.
  intros Hf. assert (Hpc : ls_pc (run_loop delim lines fuel loop_init) = AfterLoop).
  { apply (loop_next_None delim lines), run_loop_nf. rewrite loop_measure_init. lia. }
  split; [done|]. apply loop_inv_exit; [|done].
  eapply loop_inv_rtc; [apply loop_inv_init | apply run_loop_rtc].
Qed.

(** C34: Invariant, by rule induction on the steps: at every state
    reachable from line 96, [i >= 1], no line with index in [1 .. i-1]
    starts with the delimiter, and [close_idx] is either unset (and then
    leaving the loop means the range is exhausted) or the index [i] of a
    line that starts with the delimiter, after the [break]. *)
Theorem loop_reachable_inv (s : lstate) :
  rtc (loop_step delim lines) loop_init s -> loop_inv delim lines s.
Proof. apply loop_inv_rtc, loop_inv_init. Qed.

End LoopTheorems.

(** ** Witnesses *)

Definition ex_lines : list pystr :=
  [YAML_DELIM ++ [LF]; lit "title: x" ++ [LF]; YAML_DELIM ++ [LF]; lit "body" ++ [LF]].


Lemma loop_reachable_inv_witness :
  rtc (loop_step YAML_DELIM ex_lines) loop_init (mk_lstate 2 (Some 2) AfterLoop) /\
  loop_inv YAML_DELIM ex_lines (mk_lstate 2 (Some 2) AfterLoop).
Proof.
  assert (Hr : rtc (loop_step YAML_DELIM ex_lines) loop_init (mk_lstate 2 (Some 2) AfterLoop)).
  { eapply rtc_l; [apply loop_next_spec; vm_compute; reflexivity|].
    eapply rtc_l; [apply loop_next_spec; vm_compute; reflexivity|]. constructor. }
  split; [exact Hr|]. apply loop_reachable_inv. exact Hr.
Defined.

End ScanLoop.
