(* ===== verification/Merge.v ===== *)
(** * The front-matter patch of [main] (openalex_to_hugo.py, lines 164-179)

    [main] sets the page fields and the article fields into the mapping
    [read_front_matter] returned: [fm["title"] = page_title] (this first
    assignment raises [TypeError] when the YAML header did not load as a
    mapping), [type] forced to ["articles"], [draft] only if absent
    ([setdefault]), [date] only if absent, then the seven [article_*]
    fields, the year only when truthy and through [int()].

    [patch_front_matter] is that sequence over the ordered dict of
    PyDict.v with Python's key equality.  The theorems: the values of the
    patched mapping; the keys of the patched mapping are the old keys in
    their old order followed by the absent merge keys in the code's order
    ([add_keys], the reference order of spec 3); keys outside the merge set
    keep their values; the dict invariant is preserved; the error paths. *)

From stdpp Require Import base list decidable.
From Stdlib Require Import NArith ZArith Lia.
From Stdlib Require String.
From S2P Require Import Prelude PyStr PyVal PyDict.

Abbreviation fm_dict := (dict pykey pyval).

Definition kstr (s : String.string) : pykey := KStr (lit s).
Arguments kstr s%_string_scope.

Definition fm_set (k : pykey) (v : pyval) (d : fm_dict) : fm_dict := dict_set key_eqb k v d.
Definition fm_get (k : pykey) (d : fm_dict) : option pyval := dict_get key_eqb k d.
Definition fm_contains (k : pykey) (d : fm_dict) : bool := dict_contains key_eqb k d.

(** The fields [main] computes from the API response (lines 153-159). *)
Record mapped_fields := {
  mf_article_title : pyval;
  mf_publication_year : pyval;
  mf_venue : pyval;
  mf_authors : pyval;
  mf_topics : pyval;
  mf_oa : pyval;
  mf_doi_norm : pyval
}.

Section Patch.
Context `{UnicodeDB}.

(** Lines 165-179; [now] is [datetime.datetime.now().isoformat()]. *)
Definition patch_front_matter (fm : pyval) (page_title now : pystr) (m : mapped_fields)
    : result pyval :=
  match fm with
  | PDict d =>
      let d := fm_set (kstr "title") (PStr page_title) d in
      let d := fm_set (kstr "type") (PStr (lit "articles")) d in
      let d := dict_setdefault key_eqb (kstr "draft") (PBool false) d in
      let d := if fm_contains (kstr "date") d then d else fm_set (kstr "date") (PStr now) d in
      let d := fm_set (kstr "article_doi") m.(mf_doi_norm) d in
      let d := fm_set (kstr "article_oaurl") (py_or m.(mf_oa) (PStr [])) d in
      let d := fm_set (kstr "article_topics") (py_or m.(mf_topics) (PList [])) d in
      let d := fm_set (kstr "article_article_authors") (py_or m.(mf_authors) (PList [])) d in
      let d := fm_set (kstr "article_title") m.(mf_article_title) d in
      let d := fm_set (kstr "article_venue") (py_or m.(mf_venue) (PStr [])) d in
      if py_truthy m.(mf_publication_year) then
        year ← py_int m.(mf_publication_year);
        Ok (PDict (fm_set (kstr "article_publication_year") (PInt year) d))
      else Ok (PDict d)
  | _ => raise TypeError
  end.
End Patch.

(** The keys [main] writes, in the order it writes them. *)
Definition merge_keys : list pykey :=
  [kstr "title"; kstr "type"; kstr "draft"; kstr "date"; kstr "article_doi";
   kstr "article_oaurl"; kstr "article_topics"; kstr "article_article_authors";
   kstr "article_title"; kstr "article_venue"].

Definition year_key : pykey := kstr "article_publication_year".

(** Reference order: each key not yet present is appended. *)
Definition add_key (ks : list pykey) (k : pykey) : list pykey :=
  if existsb (key_eqb k) ks then ks else ks ++ [k].

Definition add_keys (ks : list pykey) (new : list pykey) : list pykey := fold_left add_key new ks.

(** ** The dict lemmas at Python's key equality *)

#[local] Hint Resolve key_eqb_refl key_eqb_sym key_eqb_trans : pydb.

Lemma fm_get_set_eq (k : pykey) (v : pyval) (d : fm_dict) : fm_get k (fm_set k v d) = Some v.
Proof. apply dict_get_set_eq. exact key_eqb_refl. Qed.

Lemma fm_get_set_other (k k2 : pykey) (v : pyval) (d : fm_dict) :
  key_eqb k k2 = false -> fm_get k2 (fm_set k v d) = fm_get k2 d.
Proof. apply dict_get_set_ne; eauto with pydb. Qed.

Lemma fm_contains_get (k : pykey) (d : fm_dict) : fm_contains k d = true <-> is_Some (fm_get k d).
Proof. apply dict_contains_get. Qed.

Lemma fm_get_setdefault_other (k k2 : pykey) (v : pyval) (d : fm_dict) :
  key_eqb k k2 = false -> fm_get k2 (dict_setdefault key_eqb k v d) = fm_get k2 d.
Proof. intros Hk. unfold dict_setdefault. destruct (dict_contains _ _ _); [done|]. by apply fm_get_set_other. Qed.

Lemma fm_get_ifabsent_other (k k2 : pykey) (v : pyval) (d : fm_dict) :
  key_eqb k k2 = false -> fm_get k2 (if fm_contains k d then d else fm_set k v d) = fm_get k2 d.
Proof. intros Hk. destruct (fm_contains k d); [done|]. by apply fm_get_set_other. Qed.

(** [if k not in d: d[k] = v] and [d.setdefault(k, v)] have the same effect. *)
Lemma ifabsent_setdefault (k : pykey) (v : pyval) (d : fm_dict) :
  (if fm_contains k d then d else fm_set k v d) = dict_setdefault key_eqb k v d.
Proof. reflexivity. Qed.

Lemma fm_get_setdefault (k : pykey) (v : pyval) (d : fm_dict) :
  fm_get k (dict_setdefault key_eqb k v d) = Some (default v (fm_get k d)).
Proof.
  unfold fm_get. rewrite dict_get_setdefault by eauto with pydb.
  by destruct (dict_get key_eqb k d).
Qed.

Lemma keys_set (k : pykey) (v : pyval) (d : fm_dict) :
  dict_keys (fm_set k v d) = add_key (dict_keys d) k.
Proof. unfold fm_set, add_key. rewrite dict_keys_set. reflexivity. Qed.

Lemma keys_setdefault (k : pykey) (v : pyval) (d : fm_dict) :
  dict_keys (dict_setdefault key_eqb k v d) = add_key (dict_keys d) k.
Proof.
  unfold dict_setdefault. destruct (dict_contains key_eqb k d) eqn:E.
  - unfold add_key, dict_keys. unfold dict_contains in E. by rewrite E.
  - apply keys_set.
Qed.

Lemma fm_set_wf (k : pykey) (v : pyval) (d : fm_dict) :
  dict_wf key_eqb d = true -> dict_wf key_eqb (fm_set k v d) = true.
Proof. apply dict_set_wf; eauto with pydb. Qed.

Lemma fm_setdefault_wf (k : pykey) (v : pyval) (d : fm_dict) :
  dict_wf key_eqb d = true -> dict_wf key_eqb (dict_setdefault key_eqb k v d) = true.
Proof. apply dict_setdefault_wf; eauto with pydb. Qed.

(** ** Theorems *)

(** Read a key through the chain of updates. *)
Ltac get_through :=
  repeat first
    [ rewrite fm_get_set_eq
    | rewrite fm_get_setdefault
    | rewrite fm_get_set_other by (vm_compute; reflexivity)
    | rewrite fm_get_setdefault_other by (vm_compute; reflexivity) ].

Section PatchTheorems.
Context `{UnicodeDB}.

(** The patch succeeds on a mapping exactly when the year, if truthy,
    converts with [int()]; it gives the chain of updates. *)
Lemma patch_dict (d : fm_dict) (t now : pystr) (m : mapped_fields) (r : pyval) :
  patch_front_matter (PDict d) t now m = Ok r ->
  let d10 :=
    fm_set (kstr "article_venue") (py_or m.(mf_venue) (PStr []))
    (fm_set (kstr "article_title") m.(mf_article_title)
    (fm_set (kstr "article_article_authors") (py_or m.(mf_authors) (PList []))
    (fm_set (kstr "article_topics") (py_or m.(mf_topics) (PList []))
    (fm_set (kstr "article_oaurl") (py_or m.(mf_oa) (PStr []))
    (fm_set (kstr "article_doi") m.(mf_doi_norm)
    (dict_setdefault key_eqb (kstr "date") (PStr now)
    (dict_setdefault key_eqb (kstr "draft") (PBool false)
    (fm_set (kstr "type") (PStr (lit "articles"))
    (fm_set (kstr "title") (PStr t) d))))))))) in
  if py_truthy m.(mf_publication_year) then
    exists y, py_int m.(mf_publication_year) = Ok y /\ r = PDict (fm_set year_key (PInt y) d10)
  else r = PDict d10.
Proof.
  intros Hp. unfold patch_front_matter in Hp. rewrite ifabsent_setdefault in Hp. cbv zeta.
  destruct (py_truthy _).
  - destruct (py_int _) as [y|e]; [|discriminate]. injection Hp as <-. eauto.
  - by injection Hp as <-.
Qed.

(** C5: the values of the patched mapping: the page title, the forced
    [type], [draft] and [date] kept when present and defaulted
    otherwise, the article fields with their [or] defaults, and the year
    as an [int] only when truthy. *)
Theorem patch_front_matter_values (d d' : fm_dict) (t now : pystr) (m : mapped_fields) :
  patch_front_matter (PDict d) t now m = Ok (PDict d') ->
  fm_get (kstr "title") d' = Some (PStr t) /\
  fm_get (kstr "type") d' = Some (PStr (lit "articles")) /\
  fm_get (kstr "draft") d' = Some (default (PBool false) (fm_get (kstr "draft") d)) /\
  fm_get (kstr "date") d' = Some (default (PStr now) (fm_get (kstr "date") d)) /\
  fm_get (kstr "article_doi") d' = Some m.(mf_doi_norm) /\
  fm_get (kstr "article_oaurl") d' = Some (py_or m.(mf_oa) (PStr [])) /\
  fm_get (kstr "article_topics") d' = Some (py_or m.(mf_topics) (PList [])) /\
  fm_get (kstr "article_article_authors") d' = Some (py_or m.(mf_authors) (PList [])) /\
  fm_get (kstr "article_title") d' = Some m.(mf_article_title) /\
  fm_get (kstr "article_venue") d' = Some (py_or m.(mf_venue) (PStr [])) /\
  (if py_truthy m.(mf_publication_year)
   then exists y, py_int m.(mf_publication_year) = Ok y /\ fm_get year_key d' = Some (PInt y)
   else fm_get year_key d' = fm_get year_key d).
Proof.
  intros Hp%patch_dict. simpl in Hp.
  destruct (py_truthy _); [destruct Hp as (y & Hy & [= ->])|injection Hp as ->];
    unfold year_key; get_through; repeat split; eauto.
Qed.

(** C4: the keys of the patched mapping are the keys it had, in their
    order, followed by the merge keys it lacked, in the order [main]
    writes them (spec 3: "original keys retain their position; new keys
    append"). *)
Theorem patch_front_matter_keys (d d' : fm_dict) (t now : pystr) (m : mapped_fields) :
  patch_front_matter (PDict d) t now m = Ok (PDict d') ->
  dict_keys d' = add_keys (dict_keys d)
    (merge_keys ++ if py_truthy m.(mf_publication_year) then [year_key] else []).
Proof.
  intros Hp%patch_dict. simpl in Hp.
  destruct (py_truthy _); [destruct Hp as (y & _ & [= ->])|injection Hp as ->];
    repeat (rewrite keys_set || rewrite keys_setdefault); reflexivity.
Qed.

(** C21: a key outside the merge set keeps its value. *)
Theorem patch_front_matter_other (d d' : fm_dict) (t now : pystr) (m : mapped_fields) (k : pykey) :
  Forall (fun k' => key_eqb k' k = false) (year_key :: merge_keys) ->
  patch_front_matter (PDict d) t now m = Ok (PDict d') ->
  fm_get k d' = fm_get k d.
Proof.
  intros Hk Hp%patch_dict. simpl in Hp. rewrite Forall_forall in Hk.
  assert (Hn : forall k', In k' (year_key :: merge_keys) -> key_eqb k' k = false) by exact Hk.
  unfold merge_keys in Hn. simpl in Hn.
  destruct (py_truthy _); [destruct Hp as (y & _ & [= ->])|injection Hp as ->];
    repeat first [ rewrite fm_get_set_other by (apply Hn; tauto)
                 | rewrite fm_get_setdefault_other by (apply Hn; tauto) ]; done.
Qed.

(** The dict invariant (no two equal keys) is preserved. *)
Theorem patch_front_matter_wf (d d' : fm_dict) (t now : pystr) (m : mapped_fields) :
  dict_wf key_eqb d = true ->
  patch_front_matter (PDict d) t now m = Ok (PDict d') -> dict_wf key_eqb d' = true.
Proof.
  intros Hw Hp%patch_dict. simpl in Hp.
  destruct (py_truthy _); [destruct Hp as (y & _ & [= ->])|injection Hp as ->];
    repeat first [apply fm_set_wf | apply fm_setdefault_wf]; exact Hw.
Qed.

(** C26: the error paths: a header that did not load as a mapping makes
    [fm["title"] = ...] raise [TypeError]; a truthy year that [int()]
    rejects raises its error. *)
Theorem patch_front_matter_errors (fm : pyval) (t now : pystr) (m : mapped_fields) :
  ((forall d, fm <> PDict d) -> patch_front_matter fm t now m = Err TypeError) /\
  (forall d e, fm = PDict d -> py_truthy m.(mf_publication_year) = true ->
     py_int m.(mf_publication_year) = Err e -> patch_front_matter fm t now m = Err e).
Proof.
  split.
  - intros Hfm. destruct fm; try done. by destruct (Hfm d).
  - intros d e -> Ht He. unfold patch_front_matter. by rewrite Ht, He.
Qed.
End PatchTheorems.

(** ** Witnesses, with the ASCII database *)

Definition ex_fm : fm_dict :=
  [(kstr "title", PStr (lit "Old")); (kstr "draft", PBool true); (kstr "tags", PList [PStr (lit "x")])].

Definition ex_fields : mapped_fields :=
  {| mf_article_title := PStr (lit "Foo Bar"); mf_publication_year := PInt 2021;
     mf_venue := PStr (lit "ACME Journal"); mf_authors := PList [PStr (lit "Ann")];
     mf_topics := PList []; mf_oa := PNone; mf_doi_norm := PStr (lit "10.1/xyz") |}.

Definition ex_patched : fm_dict :=
  match patch_front_matter (PDict ex_fm) (lit "Foo") (lit "2024-01-01") ex_fields with
  | Ok (PDict d) => d
  | _ => []
  end.

Lemma ex_patch_ok : patch_front_matter (PDict ex_fm) (lit "Foo") (lit "2024-01-01") ex_fields = Ok (PDict ex_patched).
Proof. vm_compute. reflexivity. Qed.

Lemma patch_front_matter_values_witness :
  fm_get (kstr "draft") ex_patched = Some (PBool true) /\
  fm_get (kstr "date") ex_patched = Some (PStr (lit "2024-01-01")).
Proof.
  destruct (patch_front_matter_values _ _ _ _ _ ex_patch_ok) as (_ & _ & Hdraft & Hdate & _).
  rewrite Hdraft, Hdate. split; reflexivity.
Defined.

Lemma patch_front_matter_keys_witness :
  dict_keys ex_patched = add_keys (dict_keys ex_fm) (merge_keys ++ [year_key]).
Proof. exact (patch_front_matter_keys _ _ _ _ _ ex_patch_ok). Defined.

Lemma patch_front_matter_other_witness :
  fm_get (kstr "tags") ex_patched = Some (PList [PStr (lit "x")]).
Proof.
  rewrite (patch_front_matter_other ex_fm _ (lit "Foo") (lit "2024-01-01") ex_fields (kstr "tags"));
    [reflexivity|repeat constructor|exact ex_patch_ok].
Defined.

