(* ===== verification/StableSort.v ===== *)
(** * Stable sort by descending key

    [sorted(xs, key=f, reverse=True)] in CPython: the keys are computed
    first, the list is ordered by decreasing key, and elements with equal
    keys keep their original order (the documentation guarantees that
    [reverse] preserves stability).  [sort_desc] is an insertion sort with
    that contract, over a total preorder [kle] on keys.

    The theorems: the result is a permutation of the input, it is sorted
    by decreasing key, it is stable (the elements of each key class keep
    their order), and any list with these three properties is this one:
    the result is the one CPython's sort returns, whatever its algorithm. *)

From stdpp Require Import base list decidable.
From Stdlib Require Import Sorting.Permutation Sorting.Sorted Lia.
From S2P Require Import Prelude.

Section StableSort.
Context {K A : Type}.
Variable kle : K -> K -> bool.
Hypothesis kle_total : forall a b, kle a b = true \/ kle b a = true.
Hypothesis kle_trans : forall a b c, kle a b = true -> kle b c = true -> kle a c = true.

(** Two keys in the same class. *)
Definition keq (a b : K) : bool := kle a b && kle b a.

(** Insert after every element whose key is at least [fst x]. *)
Fixpoint insert_desc (x : K * A) (l : list (K * A)) : list (K * A) :=
  match l with
  | [] => [x]
  | y :: r => if kle (fst x) (fst y) then y :: insert_desc x r else x :: y :: r
  end.

(** Elements are inserted in their original order. *)
Definition sort_desc (l : list (K * A)) : list (K * A) :=
  fold_left (fun acc x => insert_desc x acc) l [].

Definition ge_key (x y : K * A) : Prop := kle (fst y) (fst x) = true.

Lemma insert_desc_perm (x : K * A) (l : list (K * A)) : Permutation (insert_desc x l) (x :: l).
Proof.
  induction l as [|y l IH]; simpl; [done|].
  destruct (kle (fst x) (fst y)); [|done].
  etransitivity; [apply perm_skip, IH|apply perm_swap].
Qed.

Lemma sort_desc_go_perm (l acc : list (K * A)) :
  Permutation (fold_left (fun acc x => insert_desc x acc) l acc) (rev l ++ acc).
Proof.
  revert acc; induction l as [|x l IH]; intros acc; simpl; [done|].
  rewrite IH, <- app_assoc. simpl. apply Permutation_app_head, insert_desc_perm.
Qed.

(** The result is a permutation of the input. *)
Lemma sort_desc_perm (l : list (K * A)) : Permutation (sort_desc l) l.
Proof.
  unfold sort_desc. rewrite sort_desc_go_perm, app_nil_r. apply Permutation_sym, Permutation_rev.
Qed.

Lemma insert_desc_sorted (x : K * A) (l : list (K * A)) :
  Sorted ge_key l -> Sorted ge_key (insert_desc x l).
Proof.
  induction 1 as [|y l Hl IH Hhd]; simpl; [repeat constructor|].
  destruct (kle (fst x) (fst y)) eqn:E.
  - constructor; [exact IH|].
    destruct l as [|z l]; simpl; [constructor; exact E|].
    inversion Hhd; subst. destruct (kle (fst x) (fst z)); constructor; [done|exact E].
  - constructor; [by constructor|]. constructor. unfold ge_key.
    destruct (kle_total (fst x) (fst y)) as [H|H]; [congruence|exact H].
Qed.

(** The result is sorted by decreasing key. *)
Lemma sort_desc_sorted (l : list (K * A)) : Sorted ge_key (sort_desc l).
Proof.
  unfold sort_desc. assert (Sorted ge_key ([] : list (K * A))) as H0 by constructor.
  revert H0. generalize ([] : list (K * A)).
  induction l as [|x l IH]; intros acc Hacc; simpl; [done|]. apply IH, insert_desc_sorted, Hacc.
Qed.

#[local] Instance ge_key_trans : Transitive ge_key.
Proof. intros x y z Hxy Hyz. unfold ge_key in *. eauto. Qed.

(** The members of the key class of [c]. *)
Definition in_class (c : K) (x : K * A) : bool := keq (fst x) c.

Lemma keq_sym (a b : K) : keq a b = keq b a.
Proof. unfold keq. apply andb_comm. Qed.

Lemma in_class_trans (c : K) (x z : K * A) :
  in_class c x = true -> in_class c z = true -> kle (fst x) (fst z) = true.
Proof.
  unfold in_class, keq. rewrite !andb_true_iff. intros [H1 H2] [H3 H4]. eauto.
Qed.

(** Where [insert_desc] puts [x]: after the prefix of keys at least its
    own, before keys strictly smaller. *)
Lemma insert_desc_split (x : K * A) (l : list (K * A)) :
  exists a b, l = a ++ b /\ insert_desc x l = a ++ x :: b /\
    (forall y, head b = Some y -> kle (fst x) (fst y) = false).
Proof.
  induction l as [|y l (a & b & -> & Hi & Hb)]; simpl.
  - exists [], []. split; [done|]. split; [done|]. discriminate.
  - destruct (kle (fst x) (fst y)) eqn:E.
    + exists (y :: a), b. rewrite Hi. auto.
    + exists [], (y :: a ++ b). simpl. split; [done|]. split; [done|]. by intros ? [= <-].
Qed.

Lemma sorted_below (x : K * A) (b : list (K * A)) :
  Sorted ge_key b -> (forall y, head b = Some y -> kle (fst x) (fst y) = false) ->
  forall z, In z b -> kle (fst x) (fst z) = false.
Proof.
  intros Hs Hh z Hz. destruct b as [|y b]; [done|].
  apply Sorted_StronglySorted in Hs; [|apply ge_key_trans].
  destruct Hz as [<-|Hz]; [by apply Hh|].
  inversion Hs as [|? ? _ Hall]; subst.
  rewrite Forall_forall in Hall. specialize (Hall z Hz). unfold ge_key in Hall.
  destruct (kle (fst x) (fst z)) eqn:E; [|done].
  specialize (Hh y eq_refl). by rewrite (kle_trans _ _ _ E Hall) in Hh.
Qed.

Lemma Sorted_app_r (a b : list (K * A)) : Sorted ge_key (a ++ b) -> Sorted ge_key b.
Proof. induction a as [|x a IH]; simpl; [done|]. intros H. apply Sorted_inv in H as [H _]. auto. Qed.

Lemma filter_none (f : K * A -> bool) (l : list (K * A)) :
  (forall z, In z l -> f z = false) -> List.filter f l = [].
Proof.
  induction l as [|z l IH]; intros H; simpl; [done|].
  rewrite H by (left; done). apply IH. intros w Hw. apply H. by right.
Qed.

Lemma filter_insert_desc (c : K) (x : K * A) (l : list (K * A)) :
  Sorted ge_key l ->
  List.filter (in_class c) (insert_desc x l) =
  List.filter (in_class c) l ++ (if in_class c x then [x] else []).
Proof.
  intros Hs. destruct (insert_desc_split x l) as (a & b & -> & -> & Hb).
  assert (Hsb : Sorted ge_key b) by (eapply Sorted_app_r, Hs).
  pose proof (sorted_below x b Hsb Hb) as Hlt.
  rewrite !filter_app. simpl.
  destruct (in_class c x) eqn:Ex.
  - assert (Hnb : List.filter (in_class c) b = []).
    { apply filter_none. intros z Hz. destruct (in_class c z) eqn:Ez; [|done].
      specialize (Hlt z Hz). by rewrite (in_class_trans c x z Ex Ez) in Hlt. }
    by rewrite Hnb, app_nil_r.
  - by rewrite app_nil_r.
Qed.

Lemma sort_desc_go_filter (c : K) (l acc : list (K * A)) :
  Sorted ge_key acc ->
  List.filter (in_class c) (fold_left (fun acc x => insert_desc x acc) l acc) =
  List.filter (in_class c) acc ++ List.filter (in_class c) l.
Proof.
  revert acc; induction l as [|x l IH]; intros acc Hacc; simpl; [by rewrite app_nil_r|].
  rewrite IH by (by apply insert_desc_sorted). rewrite filter_insert_desc by done.
  rewrite <- app_assoc. by destruct (in_class c x).
Qed.

(** Stability: within each key class, the original order. *)
Lemma sort_desc_stable (c : K) (l : list (K * A)) :
  List.filter (in_class c) (sort_desc l) = List.filter (in_class c) l.
Proof. unfold sort_desc. rewrite sort_desc_go_filter by constructor. done. Qed.

Lemma in_class_self (x : K * A) : in_class (fst x) x = true.
Proof. unfold in_class, keq. by destruct (kle_total (fst x) (fst x)) as [E|E]; rewrite E. Qed.

(** A list sorted by decreasing key whose head is strictly below [x] has
    no member of the class of [x]. *)
Lemma class_absent (x : K * A) (r : list (K * A)) :
  Sorted ge_key r -> (forall y, head r = Some y -> kle (fst x) (fst y) = false) ->
  List.filter (in_class (fst x)) r = [].
Proof.
  intros Hs Hh. apply filter_none. intros z Hz. unfold in_class, keq.
  by rewrite (sorted_below x r Hs Hh z Hz), andb_false_r.
Qed.

Lemma sorted_heads_le (x y : K * A) (r1 r2 : list (K * A)) :
  Sorted ge_key (y :: r2) ->
  List.filter (in_class (fst x)) (x :: r1) = List.filter (in_class (fst x)) (y :: r2) ->
  kle (fst x) (fst y) = true.
Proof.
  intros Hs Hf. destruct (kle (fst x) (fst y)) eqn:E; [done|].
  rewrite (class_absent x (y :: r2) Hs) in Hf by (by intros ? [= <-]).
  simpl in Hf. by rewrite in_class_self in Hf.
Qed.

(** Two lists sorted by decreasing key with the same key classes, each
    in the same order, are equal. *)
Lemma sorted_classes_unique (r1 r2 : list (K * A)) :
  Sorted ge_key r1 -> Sorted ge_key r2 ->
  (forall c, List.filter (in_class c) r1 = List.filter (in_class c) r2) -> r1 = r2.
Proof.
  revert r2; induction r1 as [|x r1 IH]; intros r2 Hs1 Hs2 Hf.
  - destruct r2 as [|y r2]; [done|]. specialize (Hf (fst y)). simpl in Hf.
    by rewrite in_class_self in Hf.
  - destruct r2 as [|y r2]; [specialize (Hf (fst x)); simpl in Hf; by rewrite in_class_self in Hf|].
    assert (Hxy : in_class (fst x) y = true).
    { unfold in_class, keq. rewrite (sorted_heads_le x y r1 r2 Hs2 (Hf _)).
      by rewrite (sorted_heads_le y x r2 r1 Hs1 (eq_sym (Hf _))). }
    pose proof (Hf (fst x)) as Hfx. simpl in Hfx. rewrite in_class_self, Hxy in Hfx.
    injection Hfx as <- _. f_equal. apply IH.
    + by apply Sorted_inv in Hs1 as [? _].
    + by apply Sorted_inv in Hs2 as [? _].
    + intros c. pose proof (Hf c) as Hc. simpl in Hc. by destruct (in_class c x); [injection Hc|].
Qed.

(** [sort_desc] is the stable sort by decreasing key: any
    rearrangement of the input that is sorted by decreasing key and keeps
    the order within each key class is [sort_desc l] (spec 8: "ties
    broken by stable original order"). *)
Theorem sort_desc_unique (l r : list (K * A)) :
  Sorted ge_key r -> (forall c, List.filter (in_class c) r = List.filter (in_class c) l) ->
  r = sort_desc l.
Proof.
  intros Hs Hf. apply sorted_classes_unique; [done|apply sort_desc_sorted|].
  intros c. by rewrite Hf, sort_desc_stable.
Qed.
End StableSort.
