(* ===== verification/FieldMapper.v ===== *)
(** * The field mapper (openalex_to_hugo.py, lines 40-62 and 153-159)

    The API response [meta] is the value [r.json()] returned.  The
    mapper reads it with [.get] (which raises [AttributeError] on what is
    not a dict), [[...]] and iteration, and every [x or y] takes the
    Python truthiness of [x].  [pick_venue], [pick_authors] and
    [pick_topics] are the three functions of the script; [map_fields] is
    lines 153-159 of [main], returning the [mapped_fields] record of
    Merge.v.

    [pick_topics] sorts with [sorted(..., key=..., reverse=True)]: the
    keys are computed for every element first, then the list is sorted by
    decreasing key with the stable sort of StableSort.v.  Keys are
    compared with Python's [<] ([py_lt], with [==] as [py_eq]): numbers
    (bool, int, float) with each other, strings with each other, lists
    item by item.  A list of two or more elements whose keys are of two
    kinds (a number and a string, say), or hold a dict, raises
    [TypeError]: CPython's sort compares each element with one already
    placed, and every such comparison raises.  List keys are sorted when
    every two of them compare, which is the case for lists of numbers
    ([list_comparable_num]); when two of them do not, the model raises
    [TypeError], while CPython raises only if its timsort happens to
    compare that pair.  Lists of zero or one element are not compared.

    The theorems: [map_fields] against spec 4.5 ([venue_spec],
    [oa_spec] and total lookups [dget]) on responses whose nested
    objects are dicts or absent; [pick_topics] against any stable
    descending arrangement; author order; bounds; the venue is truthy. *)

From stdpp Require Import base list decidable.
From Stdlib Require Import NArith ZArith QArith Lia Sorting.Sorted.
From S2P Require Import Prelude PyStr PyVal PyDict Merge StableSort.

(** ** Reading JSON values *)

(** [v.get(k)]. *)
Definition py_get (v : pyval) (k : pykey) : result pyval :=
  match v with
  | PDict d => Ok (default PNone (fm_get k d))
  | _ => raise AttributeError
  end.

(** [v[k]] with a string key. *)
Definition py_getitem (v : pyval) (k : pykey) : result pyval :=
  match v with
  | PDict d => match fm_get k d with Some x => Ok x | None => raise KeyError end
  | _ => raise TypeError
  end.

Definition key_val (k : pykey) : pyval :=
  match k with
  | KNone => PNone
  | KBool b => PBool b
  | KInt z => PInt z
  | KFloat q => PFloat q
  | KStr s => PStr s
  | KTime s => PTime s
  end.

(** [for x in v]: a list, the keys of a dict, the characters of a str. *)
Definition py_iter (v : pyval) : result (list pyval) :=
  match v with
  | PList l => Ok l
  | PDict d => Ok (map (fun e => key_val (fst e)) d)
  | PStr s => Ok (map (fun c => PStr [c]) s)
  | _ => raise TypeError
  end.

Definition empty_dict : pyval := PDict [].

(** ** [pick_venue] (lines 40-45) *)

Definition pick_venue (meta : pyval) : result pyval :=
  hv0 ← py_get meta (kstr "host_venue");
  let hv := py_or hv0 empty_dict in
  n ← py_get hv (kstr "display_name");
  if py_truthy n then py_getitem hv (kstr "display_name")
  else
    pl0 ← py_get meta (kstr "primary_location");
    src ← py_get (py_or pl0 empty_dict) (kstr "source");
    let pl := py_or src empty_dict in
    n2 ← py_get pl (kstr "display_name");
    Ok (py_or n2 (PStr (lit "?"))).

(** ** [pick_authors] (lines 47-56) *)

Fixpoint authors_go (auths : list pyval) : result (list pyval) :=
  match auths with
  | [] => Ok []
  | a :: r =>
      p ← py_get a (kstr "author");
      name ← py_get (py_or p empty_dict) (kstr "display_name");
      rest ← authors_go r;
      Ok (if py_truthy name then name :: rest else rest)
  end.

Definition pick_authors (meta : pyval) : result pyval :=
  a0 ← py_get meta (kstr "authorships");
  auths ← py_iter (py_or a0 (PList []));
  names ← authors_go auths;
  Ok (PList names).

(** ** [pick_topics] (lines 58-62) *)

(** Python's [<=] on strings: lexicographic on code points. *)
Fixpoint str_leb (s t : pystr) : bool :=
  match s, t with
  | [], _ => true
  | _ :: _, [] => false
  | c :: s', d :: t' => (c <? d)%N || ((c =? d)%N && str_leb s' t')
  end.

(** The numeric value of a number; [bool] is a subclass of [int]. *)
Definition val_num (v : pyval) : option Q :=
  match v with
  | PBool b => Some (if b then 1 else 0)%Q
  | PInt z => Some (inject_Z z)
  | PFloat q => Some q
  | _ => None
  end.

(** Python's [==]: numbers by value, strings and timestamps by their
    text, lists element-wise, dicts as mappings (the same size, and each
    key of one bound to an equal value in the other); values of
    different kinds are unequal.  It never raises. *)
Fixpoint py_eq (a b : pyval) {struct a} : bool :=
  match a, b with
  | PNone, PNone => true
  | PStr s, PStr t => bool_decide (s = t)
  | PTime s, PTime t => bool_decide (s = t)
  | PList l, PList m =>
      (fix go (l m : list pyval) : bool :=
         match l, m with
         | [], [] => true
         | x :: l', y :: m' => py_eq x y && go l' m'
         | _, _ => false
         end) l m
  | PDict d, PDict e =>
      Nat.eqb (length d) (length e) &&
      (fix go (d : list (pykey * pyval)) : bool :=
         match d with
         | [] => true
         | (k, v) :: d' => match fm_get k e with Some v' => py_eq v v' && go d' | None => false end
         end) d
  | _, _ =>
      match val_num a, val_num b with
      | Some p, Some q => Qeq_bool p q
      | _, _ => false
      end
  end.

(** Python's [<] on the values [json.loads] returns: numbers by value,
    strings lexicographically, lists at the first index where the items
    differ by [==] (or by length when one is a prefix of the other);
    anything else raises [TypeError]. *)
Fixpoint py_lt (a b : pyval) {struct a} : result bool :=
  match a, b with
  | PStr s, PStr t => Ok (negb (str_leb t s))
  | PList l, PList m =>
      (fix go (l m : list pyval) : result bool :=
         match l, m with
         | x :: l', y :: m' => if py_eq x y then go l' m' else py_lt x y
         | [], _ :: _ => Ok true
         | _, [] => Ok false
         end) l m
  | _, _ =>
      match val_num a, val_num b with
      | Some p, Some q => Ok (negb (Qle_bool q p))
      | _, _ => raise TypeError
      end
  end.

(** The sort key [c.get("score") or 0], by what [<] can compare it with
    (a falsy score, the empty list included, becomes [0]). *)
Inductive skey := SNum (q : Q) | SStr (s : pystr) | SList (l : list pyval) | SOther.

Definition score_key (score : pyval) : skey :=
  match py_or score (PInt 0) with
  | PBool b => SNum (if b then 1 else 0)%Q
  | PInt z => SNum (inject_Z z)
  | PFloat q => SNum q
  | PStr s => SStr s
  | PList l => SList l
  | _ => SOther
  end.

Definition as_num (k : skey) : option Q := match k with SNum q => Some q | _ => None end.
Definition as_str (k : skey) : option pystr := match k with SStr s => Some s | _ => None end.
Definition as_list (k : skey) : option (list pyval) := match k with SList l => Some l | _ => None end.

(** [l <= m] on list keys, as [not (m < l)]. *)
Definition list_leb (l m : list pyval) : bool :=
  match py_lt (PList m) (PList l) with Ok b => negb b | Err _ => false end.

(** Every two list keys compare without raising. *)
Definition list_comparable (ls : list (list pyval * pyval)) : bool :=
  forallb (fun lc => forallb (fun mc =>
    match py_lt (PList lc.1) (PList mc.1) with Ok _ => true | Err _ => false end) ls) ls.

(** All keys of one kind, or [None]. *)
Fixpoint keys_as {B} (f : skey -> option B) (ks : list (skey * pyval)) : option (list (B * pyval)) :=
  match ks with
  | [] => Some []
  | (k, c) :: r => b ← f k; r' ← keys_as f r; Some ((b, c) :: r')
  end.

(** [sorted(concepts, key=..., reverse=True)] once the keys are known. *)
Definition sort_by_score (ks : list (skey * pyval)) : result (list pyval) :=
  match ks with
  | [] | [_] => Ok (map snd ks)
  | _ =>
      match keys_as as_num ks, keys_as as_str ks, keys_as as_list ks with
      | Some qs, _, _ => Ok (map snd (sort_desc Qle_bool qs))
      | None, Some ss, _ => Ok (map snd (sort_desc str_leb ss))
      | None, None, Some ls =>
          if list_comparable ls then Ok (map snd (sort_desc list_leb ls)) else raise TypeError
      | None, None, None => raise TypeError
      end
  end.

Definition pick_topics (meta : pyval) (limit : nat) : result pyval :=
  c0 ← py_get meta (kstr "concepts");
  concepts ← py_iter (py_or c0 (PList []));
  ks ← mapR (fun c => s ← py_get c (kstr "score"); Ok (score_key s, c)) concepts;
  sorted ← sort_by_score ks;
  names ← mapR (fun c => py_get c (kstr "display_name")) (take limit sorted);
  Ok (PList (List.filter py_truthy names)).

(** ** The mapped fields (lines 153-159) *)

Definition map_fields (meta : pyval) (page_title doi : pystr) : result mapped_fields :=
  t ← py_get meta (kstr "title");
  y ← py_get meta (kstr "publication_year");
  venue ← pick_venue meta;
  authors ← pick_authors meta;
  topics ← pick_topics meta 5;
  oa0 ← py_get meta (kstr "open_access");
  oa1 ← py_get (py_or oa0 empty_dict) (kstr "oa_url");
  oa ← (if py_truthy oa1 then Ok oa1
        else
          pl ← py_get meta (kstr "primary_location");
          lp ← py_get (py_or pl empty_dict) (kstr "landing_page_url");
          Ok (py_or lp (PStr [])));
  d ← py_get meta (kstr "doi");
  Ok {| mf_article_title := py_or t (PStr page_title);
        mf_publication_year := py_or y PNone;
        mf_venue := venue;
        mf_authors := authors;
        mf_topics := topics;
        mf_oa := oa;
        mf_doi_norm := py_or d (PStr doi) |}.

(** ** Total lookups, for the statements *)

Definition is_dict (v : pyval) : bool := match v with PDict _ => true | _ => false end.

(** What [v.get(k)] returns when [v] is a dict. *)
Definition dget (k : pykey) (v : pyval) : pyval :=
  match v with PDict d => default PNone (fm_get k d) | _ => PNone end.

(** [x or {}] is a dict. *)
Definition dict_or_falsy (v : pyval) : bool := negb (py_truthy v) || is_dict v.

Lemma py_get_dict (v : pyval) (k : pykey) : is_dict v = true -> py_get v k = Ok (dget k v).
Proof. by destruct v. Qed.

Lemma py_get_not_dict (v : pyval) (k : pykey) : is_dict v = false -> py_get v k = Err AttributeError.
Proof. by destruct v. Qed.

Lemma is_dict_or_empty (v : pyval) : is_dict (py_or v empty_dict) = dict_or_falsy v.
Proof. unfold py_or, dict_or_falsy. by destruct (py_truthy v), v. Qed.

Lemma py_getitem_get (v : pyval) (k : pykey) (n : pyval) :
  py_get v k = Ok n -> py_truthy n = true -> py_getitem v k = Ok n.
Proof.
  destruct v as [| | | | | | |d]; try discriminate. simpl.
  destruct (fm_get k d); simpl; intros [= <-]; done.
Qed.

Lemma py_or_truthy (x y : pyval) : py_truthy x = true -> py_or x y = x.
Proof. unfold py_or. by intros ->. Qed.

Lemma py_or_falsy (x y : pyval) : py_truthy x = false -> py_or x y = y.
Proof. unfold py_or. by intros ->. Qed.

Lemma py_or_list (l : list pyval) : py_or (PList l) (PList []) = PList l.
Proof. unfold py_or. by destruct l. Qed.

#[export] Hint Rewrite py_get_dict is_dict_or_empty using done : pyrw.

Lemma py_or_truthy_r (x y : pyval) : py_truthy y = true -> py_truthy (py_or x y) = true.
Proof. unfold py_or. by destruct (py_truthy x) eqn:E. Qed.

Lemma Qle_bool_total (a b : Q) : Qle_bool a b = true \/ Qle_bool b a = true.
Proof. rewrite !Qle_bool_iff. destruct (Qlt_le_dec a b); [left; by apply Qlt_le_weak|by right]. Qed.

Lemma Qle_bool_trans (a b c : Q) : Qle_bool a b = true -> Qle_bool b c = true -> Qle_bool a c = true.
Proof. rewrite !Qle_bool_iff. apply Qle_trans. Qed.

Lemma keys_as_map {B} (f : skey -> option B) (kf : pyval -> skey) (g : pyval -> B) (cs : list pyval) :
  (forall c, In c cs -> f (kf c) = Some (g c)) ->
  keys_as f (map (fun c => (kf c, c)) cs) = Some (map (fun c => (g c, c)) cs).
Proof.
  induction cs as [|c cs IH]; intros H; simpl; [done|].
  rewrite H by (by left). simpl. rewrite IH; [done|]. intros c' Hc'. apply H. by right.
Qed.

(** With numeric keys, [sort_by_score] is the stable sort on them. *)
Lemma sort_by_score_num (kf : pyval -> skey) (qf : pyval -> Q) (cs : list pyval) :
  (forall c, In c cs -> as_num (kf c) = Some (qf c)) ->
  sort_by_score (map (fun c => (kf c, c)) cs) = Ok (map snd (sort_desc Qle_bool (map (fun c => (qf c, c)) cs))).
Proof.
  intros H. destruct cs as [|c1 [|c2 cs]]; [done|done|].
  unfold sort_by_score. cbn [map]. rewrite <- !(map_cons (fun c => (kf c, c))).
  by rewrite (keys_as_map as_num kf qf (c1 :: c2 :: cs) H).
Qed.

Lemma py_lt_list_cons (x y : pyval) (l m : list pyval) :
  py_lt (PList (x :: l)) (PList (y :: m)) = if py_eq x y then py_lt (PList l) (PList m) else py_lt x y.
Proof. reflexivity. Qed.

(** Lists of numbers always compare. *)
Lemma py_lt_num_lists (l m : list pyval) :
  Forall (fun v => is_Some (val_num v)) l -> Forall (fun v => is_Some (val_num v)) m ->
  exists b, py_lt (PList l) (PList m) = Ok b.
Proof.
  revert m. induction l as [|x l IH]; intros [|y m] Hl Hm; [by eexists..|].
  inversion_clear Hl as [|? ? [p Hp] Hl']. inversion_clear Hm as [|? ? [q Hq] Hm'].
  rewrite py_lt_list_cons. destruct (py_eq x y); [by apply IH|].
  destruct x, y; simpl in Hp, Hq; try discriminate; simpl; eauto.
Qed.

(** So list keys made of numbers never raise: [sorted] orders them by
    the stable sort on [list_leb]. *)
Lemma list_comparable_num (ls : list (list pyval * pyval)) :
  Forall (fun lc => Forall (fun v => is_Some (val_num v)) lc.1) ls -> list_comparable ls = true.
Proof.
  intros H. rewrite List.Forall_forall in H. unfold list_comparable.
  apply forallb_forall. intros lc Hlc. apply forallb_forall. intros mc Hmc.
  destruct (py_lt_num_lists lc.1 mc.1) as [b ->]; [by apply H..|done].
Qed.

(** ** Venue *)

(** C29: [pick_venue] returns a truthy value whenever it returns: the
    [venue or ''] of line 177 never takes its right operand. *)
Theorem pick_venue_truthy (meta v : pyval) : pick_venue meta = Ok v -> py_truthy v = true.
Proof.
  unfold pick_venue. intros H. ok_inv H.
  destruct (py_truthy _) eqn:Tn in H.
  - rewrite (py_getitem_get _ _ _ E0 Tn) in H. by injection H as <-.
  - ok_inv H. injection H as <-. by apply py_or_truthy_r.
Qed.

(** ** Authors *)

(** The name [pick_authors] reads off one authorship record. *)
Definition author_name (a : pyval) : pyval :=
  dget (kstr "display_name") (py_or (dget (kstr "author") a) empty_dict).

(** The records the loop reads without raising. *)
Definition authorship_ok (a : pyval) : bool := is_dict a && dict_or_falsy (dget (kstr "author") a).

Lemma authors_go_spec (l : list pyval) :
  Forall (fun a => authorship_ok a = true) l ->
  authors_go l = Ok (List.filter py_truthy (map author_name l)).
Proof.
  induction 1 as [|a l Ha _ IH]; simpl; [done|].
  unfold authorship_ok in Ha. apply andb_true_iff in Ha as [Ha1 Ha2].
  rewrite py_get_dict by done. simpl.
  rewrite py_get_dict by (by rewrite is_dict_or_empty). simpl.
  rewrite IH. simpl. unfold author_name. by destruct (py_truthy _).
Qed.

(** C17: on a response whose authorship records are dicts (and whose
    [author] fields are dicts or empty), [pick_authors] returns the
    truthy [author.display_name] of each record, in the order of the
    records (spec 4.5, "preserving source order"). *)
Theorem pick_authors_spec (meta : pyval) (l : list pyval) :
  is_dict meta = true -> dget (kstr "authorships") meta = PList l ->
  Forall (fun a => authorship_ok a = true) l ->
  pick_authors meta = Ok (PList (List.filter py_truthy (map author_name l))).
Proof.
  intros Hm Hl Ha. unfold pick_authors. rewrite py_get_dict, Hl by done. simpl.
  rewrite py_or_list. simpl. by rewrite authors_go_spec.
Qed.

(** ** Topics *)

(** The numeric sort key of a concept, when it has one. *)
Definition concept_score (c : pyval) : option Q := as_num (score_key (dget (kstr "score") c)).

(** The concepts the sort reads without raising: dicts with a numeric
    score (or none, read as 0). *)
Definition concept_ok (c : pyval) : bool := is_dict c && bool_decide (is_Some (concept_score c)).

Definition scored (cs : list pyval) : list (Q * pyval) :=
  map (fun c => (default 0%Q (concept_score c), c)) cs.

Lemma concept_ok_score (c : pyval) :
  concept_ok c = true -> as_num (score_key (dget (kstr "score") c)) = Some (default 0%Q (concept_score c)).
Proof.
  unfold concept_ok, concept_score. rewrite andb_true_iff, bool_decide_eq_true.
  intros [_ [q Hq]]. by rewrite Hq.
Qed.

Lemma In_sorted_scored (cs : list pyval) (limit : nat) (x : pyval) :
  In x (take limit (map snd (sort_desc Qle_bool (scored cs)))) -> In x cs.
Proof.
  intros Hx%In_take. apply in_map_iff in Hx as ([q c] & <- & Hin).
  apply (Permutation_in _ (sort_desc_perm Qle_bool _)) in Hin.
  unfold scored in Hin. apply in_map_iff in Hin as (c' & [= _ <-] & Hc'). done.
Qed.

(** [pick_topics] on numeric scores: the stable descending sort, then
    the first [limit], then the truthy names. *)
Lemma pick_topics_num (meta : pyval) (cs : list pyval) (limit : nat) :
  is_dict meta = true -> dget (kstr "concepts") meta = PList cs ->
  Forall (fun c => concept_ok c = true) cs ->
  pick_topics meta limit =
  Ok (PList (List.filter py_truthy
       (map (dget (kstr "display_name")) (take limit (map snd (sort_desc Qle_bool (scored cs))))))).
Proof.
  intros Hm Hc Hcs. rewrite Forall_forall in Hcs. unfold pick_topics.
  rewrite py_get_dict, Hc by done. simpl. rewrite py_or_list. simpl.
  rewrite (mapR_Ok _ (fun c => (score_key (dget (kstr "score") c), c))); cycle 1.
  { intros c Hin. specialize (Hcs c Hin). apply andb_true_iff in Hcs as [Hd _].
    by rewrite py_get_dict. }
  simpl. unfold scored. rewrite (sort_by_score_num _ (fun c => default 0%Q (concept_score c)))
    by (intros c Hin; by apply concept_ok_score, Hcs). simpl.
  rewrite (mapR_Ok _ (dget (kstr "display_name"))); [done|].
  intros x Hx%In_sorted_scored. specialize (Hcs x Hx).
  apply andb_true_iff in Hcs as [Hd _]. by apply py_get_dict.
Qed.

(** C6: [pick_topics] implements spec 4.5: on concepts with numeric
    scores, for any arrangement [r] of the scored concepts that is sorted
    by decreasing score and keeps the original order among equal scores,
    the result is the truthy display names of the first [limit] elements
    of [r]. *)
Theorem pick_topics_spec (meta : pyval) (cs : list pyval) (limit : nat) (r : list (Q * pyval)) :
  is_dict meta = true -> dget (kstr "concepts") meta = PList cs ->
  Forall (fun c => concept_ok c = true) cs ->
  Sorted (ge_key Qle_bool) r ->
  (forall q, List.filter (in_class Qle_bool q) r = List.filter (in_class Qle_bool q) (scored cs)) ->
  pick_topics meta limit =
  Ok (PList (List.filter py_truthy (map (dget (kstr "display_name")) (take limit (map snd r))))).
Proof.
  intros Hm Hc Hcs Hs Hf. rewrite (pick_topics_num meta cs limit Hm Hc Hcs).
  rewrite (sorted_classes_unique Qle_bool Qle_bool_total Qle_bool_trans r (sort_desc Qle_bool (scored cs)));
    [done|done|apply sort_desc_sorted, Qle_bool_total|].
  intros q. by rewrite Hf, (sort_desc_stable Qle_bool Qle_bool_total Qle_bool_trans).
Qed.

(** C30: whatever the response, [pick_topics] returns at most [limit]
    names. *)
Theorem pick_topics_length (meta : pyval) (limit : nat) (ns : list pyval) :
  pick_topics meta limit = Ok (PList ns) -> (List.length ns <= limit)%nat.
Proof.
  unfold pick_topics. intros H. ok_inv H. injection H as <-.
  apply mapR_length in E3. rewrite length_take in E3.
  pose proof (List.filter_length_le py_truthy x3). lia.
Qed.

(** ** The whole mapping *)

(** Spec 4.5, with total lookups: the venue, ... *)
Definition venue_spec (meta : pyval) : pyval :=
  let hvn := dget (kstr "display_name") (py_or (dget (kstr "host_venue") meta) empty_dict) in
  if py_truthy hvn then hvn
  else
    let pl := py_or (dget (kstr "primary_location") meta) empty_dict in
    py_or (dget (kstr "display_name") (py_or (dget (kstr "source") pl) empty_dict)) (PStr (lit "?")).

(** ... and the open-access URL. *)
Definition oa_spec (meta : pyval) : pyval :=
  let o := dget (kstr "oa_url") (py_or (dget (kstr "open_access") meta) empty_dict) in
  if py_truthy o then o
  else py_or (dget (kstr "landing_page_url") (py_or (dget (kstr "primary_location") meta) empty_dict)) (PStr []).

(** The nested objects the mapper reads are dicts or absent. *)
Definition response_ok (meta : pyval) : bool :=
  is_dict meta && dict_or_falsy (dget (kstr "host_venue") meta)
  && dict_or_falsy (dget (kstr "primary_location") meta)
  && dict_or_falsy (dget (kstr "source") (py_or (dget (kstr "primary_location") meta) empty_dict))
  && dict_or_falsy (dget (kstr "open_access") meta).

Lemma pick_venue_spec (meta : pyval) : response_ok meta = true -> pick_venue meta = Ok (venue_spec meta).
Proof.
  unfold response_ok. rewrite !andb_true_iff. intros [[[[Hm Hhv] Hpl] Hsrc] _].
  unfold pick_venue, venue_spec. rewrite !(py_get_dict meta) by done. simpl.
  set (hv := py_or (dget (kstr "host_venue") meta) empty_dict).
  set (pl := py_or (dget (kstr "primary_location") meta) empty_dict).
  assert (Hhv' : is_dict hv = true) by (unfold hv; by rewrite is_dict_or_empty).
  assert (Hpl' : is_dict pl = true) by (unfold pl; by rewrite is_dict_or_empty).
  assert (Hsrc' : is_dict (py_or (dget (kstr "source") pl) empty_dict) = true) by (by rewrite is_dict_or_empty).
  rewrite (py_get_dict hv) by done. simpl.
  destruct (py_truthy _) eqn:Ht.
  - apply py_getitem_get; [|done]. by apply py_get_dict.
  - rewrite (py_get_dict pl) by done. simpl.
    by rewrite (py_get_dict (py_or (dget (kstr "source") pl) empty_dict)) by done.
Qed.

(** C8: [map_fields] implements spec 4.5 on responses whose nested
    objects are dicts or absent, whose authorships are records and whose
    concepts have numeric scores: title or page title, year or [None],
    venue with its two fallbacks and ["?"], the authors in order, the
    five best topics, the open-access URL with its fallback and [""],
    and the API's DOI or the input DOI. *)
Theorem map_fields_spec (meta : pyval) (t doi : pystr) (auths cs : list pyval) :
  response_ok meta = true ->
  dget (kstr "authorships") meta = PList auths -> Forall (fun a => authorship_ok a = true) auths ->
  dget (kstr "concepts") meta = PList cs -> Forall (fun c => concept_ok c = true) cs ->
  map_fields meta t doi =
  Ok {| mf_article_title := py_or (dget (kstr "title") meta) (PStr t);
        mf_publication_year := py_or (dget (kstr "publication_year") meta) PNone;
        mf_venue := venue_spec meta;
        mf_authors := PList (List.filter py_truthy (map author_name auths));
        mf_topics := PList (List.filter py_truthy (map (dget (kstr "display_name"))
                             (take 5 (map snd (sort_desc Qle_bool (scored cs))))));
        mf_oa := oa_spec meta;
        mf_doi_norm := py_or (dget (kstr "doi") meta) (PStr doi) |}.
Proof.
  intros Hok Ha Hau Hc Hcs. assert (Hm : is_dict meta = true) by (unfold response_ok in Hok; by destruct (is_dict meta)).
  unfold map_fields. rewrite !(py_get_dict meta) by done. simpl.
  rewrite pick_venue_spec by done. simpl.
  unfold pick_authors. rewrite (py_get_dict meta), Ha by done. simpl. rewrite py_or_list. simpl.
  rewrite authors_go_spec by done. simpl.
  rewrite (pick_topics_num meta cs 5 Hm Hc Hcs). simpl.
  unfold response_ok in Hok. rewrite !andb_true_iff in Hok. destruct Hok as [[[[_ _] Hpl] _] Hoa].
  rewrite (py_get_dict (py_or (dget (kstr "open_access") meta) empty_dict)) by (by rewrite is_dict_or_empty).
  simpl. unfold oa_spec. cbv zeta. destruct (py_truthy _); simpl; [done|].
  rewrite (py_get_dict (py_or (dget (kstr "primary_location") meta) empty_dict)) by (by rewrite is_dict_or_empty).
  done.
Qed.

(** ** Examples *)

Definition concept (name : String.string) (score : pyval) : pyval :=
  PDict [(kstr "display_name", PStr (lit name)); (kstr "score", score)].
Arguments concept name%_string_scope score.

Definition meta_of_concepts (cs : list pyval) : pyval := PDict [(kstr "concepts", PList cs)].

(** Spec 8: scores [[0.9, 0.5, 0.99]] and limit 2 give the two best
    names, best first. *)
Example pick_topics_spec8 :
  pick_topics (meta_of_concepts [concept "A" (PFloat (9 # 10)); concept "B" (PFloat (5 # 10));
                                 concept "C" (PFloat (99 # 100))]) 2
  = Ok (PList [PStr (lit "C"); PStr (lit "A")]).
Proof. vm_compute. reflexivity. Qed.

(** Equal scores keep their order; a missing score counts as 0. *)
Example pick_topics_ties :
  pick_topics (meta_of_concepts [concept "A" (PFloat (1 # 2)); concept "B" (PInt 1);
                                 PDict [(kstr "display_name", PStr (lit "Z"))];
                                 concept "C" (PFloat (2 # 4)); concept "D" (PFloat 1)]) 4
  = Ok (PList [PStr (lit "B"); PStr (lit "D"); PStr (lit "A"); PStr (lit "C")]).
Proof. vm_compute. reflexivity. Qed.

(** A string score beside a numeric one cannot be ordered. *)
Example pick_topics_mixed :
  pick_topics (meta_of_concepts [concept "A" (PFloat (1 # 2)); concept "B" (PStr (lit "high"))]) 5
  = Err TypeError.
Proof. vm_compute. reflexivity. Qed.

(** Scores that are lists of numbers compare item by item, as Python's
    lists do: [[1, 2.5] > [1, 2] > [1]]. *)
Example pick_topics_list_scores :
  pick_topics (meta_of_concepts [concept "A" (PList [PInt 1; PInt 2]); concept "B" (PList [PInt 1; PFloat (5 # 2)]);
                                 concept "C" (PList [PInt 1])]) 5
  = Ok (PList [PStr (lit "B"); PStr (lit "A"); PStr (lit "C")]).
Proof. vm_compute. reflexivity. Qed.

(** List scores whose first differing items are a string and a number
    cannot be ordered. *)
Example pick_topics_list_mixed :
  pick_topics (meta_of_concepts [concept "A" (PList [PInt 1; PStr (lit "x")]); concept "B" (PList [PInt 1; PInt 2])]) 5
  = Err TypeError.
Proof. vm_compute. reflexivity. Qed.

(** ** Witnesses *)

Definition ex_author (name : String.string) : pyval :=
  PDict [(kstr "author", PDict [(kstr "display_name", PStr (lit name))])].
Arguments ex_author name%_string_scope.

Definition ex_authorships : list pyval :=
  [ex_author "Ann"; PDict [(kstr "author", PNone)]; ex_author "Bob"].

Lemma pick_authors_spec_witness :
  pick_authors (PDict [(kstr "authorships", PList ex_authorships)]) =
  Ok (PList [PStr (lit "Ann"); PStr (lit "Bob")]).
Proof. rewrite (pick_authors_spec _ ex_authorships); [reflexivity..|repeat constructor]. Defined.

Lemma pick_venue_truthy_witness : py_truthy (PStr (lit "ACME")) = true.
Proof.
  apply (pick_venue_truthy (PDict [(kstr "host_venue", PDict [(kstr "display_name", PStr (lit "ACME"))])])).
  reflexivity.
Defined.

Definition ex_concepts : list pyval :=
  [concept "C" (PFloat (99 # 100)); concept "A" (PFloat (9 # 10)); concept "A2" (PInt 0);
   PDict [(kstr "display_name", PStr (lit "Z"))]].

Lemma pick_topics_spec_witness :
  pick_topics (meta_of_concepts ex_concepts) 3 = Ok (PList [PStr (lit "C"); PStr (lit "A"); PStr (lit "A2")]).
Proof.
  rewrite (pick_topics_spec _ ex_concepts 3 (scored ex_concepts)); [reflexivity..| |repeat constructor|].
  - repeat constructor.
  - intros q. reflexivity.
Defined.

Lemma pick_topics_length_witness :
  (List.length [PStr (lit "C"); PStr (lit "A")] <= 2)%nat.
Proof.
  apply (pick_topics_length (meta_of_concepts [concept "A" (PFloat (9 # 10)); concept "B" (PFloat (5 # 10));
                                               concept "C" (PFloat (99 # 100))]) 2).
  vm_compute. reflexivity.
Defined.

(** A response with no [host_venue] and no [oa_url]: both fallbacks. *)
Definition ex_meta : pyval :=
  PDict [(kstr "title", PStr (lit "T")); (kstr "publication_year", PInt 2020);
         (kstr "host_venue", PNone);
         (kstr "primary_location", PDict [(kstr "source", PDict [(kstr "display_name", PStr (lit "Src"))]);
                                         (kstr "landing_page_url", PStr (lit "http://x"))]);
         (kstr "open_access", PDict [(kstr "oa_url", PNone)]);
         (kstr "authorships", PList ex_authorships); (kstr "concepts", PList ex_concepts)].

Lemma map_fields_spec_witness :
  exists m, map_fields ex_meta (lit "Page") (lit "10.1/x") = Ok m /\
    mf_venue m = PStr (lit "Src") /\ mf_oa m = PStr (lit "http://x") /\ mf_doi_norm m = PStr (lit "10.1/x").
Proof.
  eexists. split; [apply (map_fields_spec _ _ _ ex_authorships ex_concepts)|].
  - vm_compute. reflexivity.
  - reflexivity.
  - repeat constructor.
  - reflexivity.
  - repeat constructor.
  - split; [|split]; reflexivity.
Defined.
