(* ===== verification/Url.v ===== *)
(** * [urllib.parse.quote] (openalex_to_hugo.py, lines 31-32)

    [fetch_openalex_by_doi] builds the request URL with
    [urllib.parse.quote(f"doi:{doi}", safe=':')].  [quote] encodes the
    str to UTF-8 with [errors='strict'] (a lone surrogate raises
    [UnicodeEncodeError]), then replaces every byte outside the
    always-safe set [A-Z a-z 0-9 _ . - ~] and the ASCII characters of
    [safe] by [%XX] with upper-case hex digits, with the UTF-8 encoder
    of one code point [utf8_encode_cp] of Utf8.v.

    The theorems: every character of the quoted text is an always-safe
    byte, a safe character, or part of a [%XX] escape; in particular the
    [/] of a DOI is escaped, so the DOI stays one path segment.
    [url_unquote] (percent-decoding, then UTF-8 decoding by the length
    the lead byte announces) undoes [py_quote], so the request carries
    the DOI and two DOIs never share a URL; building the URL fails only
    on a lone surrogate. *)

From stdpp Require Import base list decidable.
From Stdlib Require Import NArith ZArith Lia.
From S2P Require Import Prelude PyStr Utf8.

#[local] Open Scope N_scope.

(** [_ALWAYS_SAFE] of urllib.parse. *)
Definition always_safe (b : N) : bool :=
  ((65 <=? b) && (b <=? 90)) || ((97 <=? b) && (b <=? 122)) || ((48 <=? b) && (b <=? 57))
  || (b =? 95) || (b =? 46) || (b =? 45) || (b =? 126).

(** [format(n, 'X')] for one hex digit. *)
Definition hex_digit (n : N) : N := if n <? 10 then 48 + n else 55 + n.

(** The quoter of one byte. *)
Definition quote_byte (safe : list N) (b : N) : pystr :=
  if always_safe b || existsb (N.eqb b) safe then [b]
  else [37; hex_digit (b / 16); hex_digit (b mod 16)].

(** [quote(string, safe)]: [safe.encode('ascii', 'ignore')], the empty
    string returned as is, UTF-8, then the quoter on every byte. *)
Definition py_quote (safe : pystr) (s : pystr) : result pystr :=
  match s with
  | [] => Ok []
  | _ =>
      bs ← mapR utf8_encode_cp s;
      Ok (concat (map (quote_byte (List.filter (fun c => c <? 128) safe)) (concat bs)))
  end.

Definition OPENALEX_WORKS : pystr := lit "https://api.openalex.org/works/".

(** Lines 31-32. *)
Definition openalex_url (doi : pystr) : result pystr :=
  q ← py_quote (lit ":") (lit "doi:" ++ doi);
  Ok (OPENALEX_WORKS ++ q).

(** ** Lemmas *)

(** The characters of a quoted text. *)
Definition url_char (safe : list N) (c : N) : bool :=
  always_safe c || existsb (N.eqb c) safe || (c =? 37).

Lemma hex_digit_safe (n : N) : n < 16 -> always_safe (hex_digit n) = true.
Proof.
  intros Hn. unfold hex_digit, always_safe.
  destruct (n <? 10) eqn:E; nbool; rewrite ?orb_true_iff, ?andb_true_iff, ?N.leb_le, ?N.eqb_eq; lia.
Qed.

Lemma quote_byte_chars (safe : list N) (b : N) :
  b < 256 -> Forall (fun c => url_char safe c = true) (quote_byte safe b).
Proof.
  intros Hb. unfold quote_byte, url_char. destruct (always_safe b || existsb (N.eqb b) safe) eqn:E.
  - by repeat constructor; rewrite E.
  - repeat constructor.
    + by rewrite orb_true_r.
    + rewrite hex_digit_safe; [done|]. apply N.Div0.div_lt_upper_bound. lia.
    + rewrite hex_digit_safe; [done|]. apply N.mod_lt. lia.
Qed.

Lemma py_quote_chars (safe s q : pystr) :
  Forall (fun c => c <= 0x10FFFF) s -> py_quote safe s = Ok q ->
  Forall (fun c => url_char (List.filter (fun c => c <? 128) safe) c = true) q.
Proof.
  intros Hs. unfold py_quote. destruct s as [|c0 s0]; [by intros [= <-]|].
  intros H. ok_inv H. injection H as <-.
  apply Forall_concat, Forall_forall. intros w (b & <- & Hb)%in_map_iff.
  apply quote_byte_chars. apply in_concat in Hb as (bs & Hbs & Hb).
  apply mapR_Forall2 in E. destruct (Forall2_In_r _ _ _ _ E Hbs) as (c & Hc & Henc).
  rewrite Forall_forall in Hs. apply (utf8_encode_cp_bytes c bs (Hs c Hc)) in Henc.
  by apply Forall_forall with (x := b) in Henc.
Qed.

Lemma lit_doi_cps : Forall (fun c => c <= 0x10FFFF) (lit "doi:").
Proof. assert (H : bool_decide (Forall (fun c => c <= 0x10FFFF) (lit "doi:")) = true) by reflexivity.
  by apply bool_decide_eq_true in H. Qed.

Lemma url_char_colon (c : N) : url_char (List.filter (fun c => c <? 128) (lit ":")) c = true ->
  c <> 47 /\ c <> 63 /\ c <> 35.
Proof. intros H. split; [|split]; intros ->; discriminate H. Qed.

(** C20: the request path: [fetch_openalex_by_doi] asks for
    [https://api.openalex.org/works/] followed by a text with no [/],
    [?] or [#], so the whole DOI stays in the last path segment. *)
Theorem openalex_url_segment (doi u : pystr) :
  Forall (fun c => c <= 0x10FFFF) doi -> openalex_url doi = Ok u ->
  exists q, u = OPENALEX_WORKS ++ q /\ ~ In 47 q /\ ~ In 63 q /\ ~ In 35 q.
Proof.
  intros Hd H. unfold openalex_url in H. ok_inv H. injection H as <-.
  apply py_quote_chars in E; [|apply Forall_app; split; [apply lit_doi_cps|exact Hd]].
  exists x. rewrite Forall_forall in E. split; [done|].
  split; [|split]; intros Hin; apply E, url_char_colon in Hin; tauto.
Qed.


(** C27: building the URL raises exactly when the DOI holds a lone
    surrogate (UTF-8 with [errors='strict']), and then it raises
    [UnicodeEncodeError]. *)
Theorem openalex_url_error (doi : pystr) :
  ((exists u, openalex_url doi = Ok u) <-> Forall (fun c => ~ (0xD800 <= c <= 0xDFFF)) doi) /\
  (forall e, openalex_url doi = Err e -> e = UnicodeEncodeError).
Proof.
  unfold openalex_url, py_quote. change (lit "doi:" ++ doi) with (100 :: [111; 105; 58] ++ doi).
  cbn iota. change (100 :: [111; 105; 58] ++ doi) with (lit "doi:" ++ doi).
  assert (Hiff : (exists bs, mapR utf8_encode_cp (lit "doi:" ++ doi) = Ok bs) <->
                 Forall (fun c => ~ (0xD800 <= c <= 0xDFFF)) doi).
  { rewrite mapR_Ok_iff, Forall_app. setoid_rewrite utf8_encode_cp_ok.
    split; [by intros [_ ?]|]. intros H; split; [|done].
    change (lit "doi:") with [100; 111; 105; 58]. repeat constructor; lia. }
  destruct (mapR utf8_encode_cp _) as [bs|e] eqn:E; simpl.
  - split; [|discriminate]. rewrite <- Hiff. split; eauto.
  - split; [split; [intros (? & ?); discriminate|]; intros (? & ?)%Hiff; congruence|].
    intros e' [= <-]. apply mapR_Err_In in E as (c & _ & Hc).
    revert Hc. unfold utf8_encode_cp. case_tests; by intros [=].
Qed.

(** ** Decoding: the inverse the server applies *)

(** The value of a hex digit. *)
Definition hex_value (c : N) : N :=
  if (48 <=? c) && (c <=? 57) then c - 48
  else if (65 <=? c) && (c <=? 70) then c - 55
  else if (97 <=? c) && (c <=? 102) then c - 87
  else 0.

(** [%XX] escapes back to bytes. *)
Fixpoint percent_decode (s : pystr) : list N :=
  match s with
  | [] => []
  | c :: r =>
      if c =? 37 then
        match r with
        | h1 :: h2 :: r' => (hex_value h1 * 16 + hex_value h2) :: percent_decode r'
        | _ => s
        end
      else c :: percent_decode r
  end.

(** UTF-8 back to code points, by the length its lead byte announces. *)
Fixpoint utf8_decode (bs : list N) : pystr :=
  match bs with
  | [] => []
  | b1 :: r =>
      if b1 <? 0x80 then b1 :: utf8_decode r
      else if b1 <? 0xE0 then
        match r with
        | b2 :: r2 => ((b1 - 0xC0) * 64 + (b2 - 0x80)) :: utf8_decode r2
        | [] => []
        end
      else if b1 <? 0xF0 then
        match r with
        | b2 :: b3 :: r3 => ((b1 - 0xE0) * 4096 + (b2 - 0x80) * 64 + (b3 - 0x80)) :: utf8_decode r3
        | _ => []
        end
      else
        match r with
        | b2 :: b3 :: b4 :: r4 =>
            ((b1 - 0xF0) * 262144 + (b2 - 0x80) * 4096 + (b3 - 0x80) * 64 + (b4 - 0x80)) :: utf8_decode r4
        | _ => []
        end
  end.

(** [urllib.parse.unquote] of a quoted text. *)
Definition url_unquote (q : pystr) : pystr := utf8_decode (percent_decode q).

Lemma hex_value_digit (n : N) : n < 16 -> hex_value (hex_digit n) = n.
Proof.
  intros Hn. unfold hex_digit, hex_value.
  destruct (n <? 10) eqn:E; nbool; case_tests; nbool; lia.
Qed.

Lemma percent_decode_byte (safe : list N) (b : N) (r : pystr) :
  b < 256 -> ~ In 37 safe ->
  percent_decode (quote_byte safe b ++ r) = b :: percent_decode r.
Proof.
  intros Hb Hs. unfold quote_byte. destruct (always_safe b || existsb (N.eqb b) safe) eqn:E.
  - simpl. destruct (b =? 37) eqn:E37; [|done]. apply N.eqb_eq in E37. subst.
    apply orb_true_iff in E as [E|E]; [discriminate E|].
    apply existsb_exists in E as (x & Hx & Hxe). apply N.eqb_eq in Hxe. subst. contradiction.
  - simpl. rewrite !hex_value_digit by (apply N.mod_lt || apply N.Div0.div_lt_upper_bound; lia).
    f_equal. pose proof (N.div_mod b 16). lia.
Qed.

Lemma percent_decode_quote (safe : list N) (bs : list N) :
  Forall (fun b => b < 256) bs -> ~ In 37 safe ->
  percent_decode (concat (map (quote_byte safe) bs)) = bs.
Proof.
  intros Hbs Hs. induction Hbs as [|b bs Hb _ IH]; [done|].
  simpl. by rewrite percent_decode_byte, IH.
Qed.

(** UTF-8 decoding undoes the encoding of one code point. *)
Lemma utf8_decode_cp (c : N) (bs r : list N) :
  c <= 0x10FFFF -> utf8_encode_cp c = Ok bs -> utf8_decode (bs ++ r) = c :: utf8_decode r.
Proof.
  intros Hc. unfold utf8_encode_cp. rewrite ?N.shiftr_div_pow2, ?land_3F.
  change (2 ^ 6) with 64. change (2 ^ 12) with 4096. change (2 ^ 18) with 262144.
  assert (Hm : forall m, m mod 64 < 64) by (intros; apply N.mod_lt; lia).
  pose proof (N.Div0.div_mod c 64) as D1.
  pose proof (N.Div0.div_mod (c / 64) 64) as D2. rewrite N.Div0.div_div in D2. change (64 * 64) with 4096 in D2.
  pose proof (N.Div0.div_mod (c / 4096) 64) as D3. rewrite N.Div0.div_div in D3. change (4096 * 64) with 262144 in D3.
  pose proof (Hm c). pose proof (Hm (c / 64)). pose proof (Hm (c / 4096)).
  case_tests; nbool; try discriminate; intros [= <-]; cbn [app utf8_decode];
    repeat (rewrite (lor_disjoint 0x80 _ 6) by (done || apply Hm));
    [| rewrite (lor_disjoint 0xC0 _ 5) by (done || (simpl; apply N.Div0.div_lt_upper_bound; lia))
     | rewrite (lor_disjoint 0xE0 _ 4) by (done || (simpl; apply N.Div0.div_lt_upper_bound; lia))
     | rewrite (lor_disjoint 0xF0 _ 3) by (done || (simpl; apply N.Div0.div_lt_upper_bound; lia))];
    repeat match goal with |- context [(?a <? ?b)] => destruct (a <? b) eqn:?; nbool end;
    clear Hm; divmod_atoms; first [exfalso; lia | f_equal; lia].
Qed.

Lemma utf8_decode_concat (s : pystr) (bss : list (list N)) :
  Forall (fun c => c <= 0x10FFFF) s -> mapR utf8_encode_cp s = Ok bss -> utf8_decode (concat bss) = s.
Proof.
  intros Hs H%mapR_Forall2. revert Hs. induction H as [|c bs s bss Hc _ IH]; intros Hs; [done|].
  inversion Hs; subst. simpl. rewrite (utf8_decode_cp c bs) by done. by rewrite IH.
Qed.

(** [unquote] undoes [quote] on a Python str. *)
Lemma py_quote_unquote (safe s q : pystr) :
  Forall (fun c => c <= 0x10FFFF) s -> ~ In 37 (List.filter (fun c => c <? 128) safe) ->
  py_quote safe s = Ok q -> url_unquote q = s.
Proof.
  intros Hs Hsafe. unfold py_quote. destruct s as [|c0 s0]; [by intros [= <-]|].
  intros H. ok_inv H. injection H as <-. unfold url_unquote.
  rewrite percent_decode_quote; [by apply utf8_decode_concat| |done].
  apply Forall_concat, List.Forall_forall. intros bs Hbs.
  destruct (Forall2_In_r _ _ _ _ (mapR_Forall2 _ _ _ E) Hbs) as (c & Hc & Henc).
  apply (utf8_encode_cp_bytes c); [|done]. by apply (proj1 (List.Forall_forall _ _) Hs).
Qed.

Lemma colon_no_percent : ~ In 37 (List.filter (fun c => c <? 128) (lit ":")).
Proof. not_in_closed. Qed.

(** C12: the server gets the DOI: unquoting the path segment after
    [/works/] gives back [doi:] followed by the DOI. *)
Theorem openalex_url_roundtrip (doi u : pystr) :
  Forall (fun c => c <= 0x10FFFF) doi -> openalex_url doi = Ok u ->
  exists q, u = OPENALEX_WORKS ++ q /\ url_unquote q = lit "doi:" ++ doi.
Proof.
  intros Hd H. unfold openalex_url in H. ok_inv H. injection H as <-. exists x. split; [done|].
  apply (py_quote_unquote (lit ":")); [|apply colon_no_percent|done].
  apply Forall_app. split; [apply lit_doi_cps|exact Hd].
Qed.

(** two different DOIs are never sent as the same request. *)
Theorem openalex_url_injective (d1 d2 u : pystr) :
  Forall (fun c => c <= 0x10FFFF) d1 -> Forall (fun c => c <= 0x10FFFF) d2 ->
  openalex_url d1 = Ok u -> openalex_url d2 = Ok u -> d1 = d2.
Proof.
  intros H1 H2 E1 E2. unfold openalex_url in E1, E2. ok_inv E1. ok_inv E2.
  injection E1 as <-. injection E2 as Hq. subst.
  apply (py_quote_unquote (lit ":")) in E, E0; try apply colon_no_percent;
    try (apply Forall_app; split; [apply lit_doi_cps|done]).
  rewrite E in E0. by apply app_inv_head in E0.
Qed.

Example openalex_url_ex :
  openalex_url (lit "10.1/xyz") = Ok (lit "https://api.openalex.org/works/doi:10.1%2Fxyz").
Proof. reflexivity. Qed.

(** [é] is U+00E9, UTF-8 [C3 A9]. *)
Example openalex_url_utf8 :
  openalex_url (lit "10.1/x" ++ [233]) = Ok (lit "https://api.openalex.org/works/doi:10.1%2Fx%C3%A9").
Proof. reflexivity. Qed.

Example openalex_url_surrogate : openalex_url (lit "10.1/" ++ [0xD800]) = Err UnicodeEncodeError.
Proof. reflexivity. Qed.

Lemma openalex_url_roundtrip_witness :
  exists q, lit "https://api.openalex.org/works/doi:10.1%2Fx%C3%A9" = OPENALEX_WORKS ++ q /\
            url_unquote q = lit "doi:" ++ (lit "10.1/x" ++ [233]).
Proof.
  apply openalex_url_roundtrip;
    [apply (bool_decide_eq_true_1 (Forall (fun c => c <= 0x10FFFF) (lit "10.1/x" ++ [233]))); reflexivity|reflexivity].
Defined.


Lemma openalex_url_segment_witness :
  exists q, lit "https://api.openalex.org/works/doi:10.1%2Fxyz" = OPENALEX_WORKS ++ q /\
            ~ In 47 q /\ ~ In 63 q /\ ~ In 35 q.
Proof. apply (openalex_url_segment (lit "10.1/xyz")); [apply (bool_decide_eq_true_1 (Forall (fun c => c <= 0x10FFFF) (lit "10.1/xyz"))); reflexivity|reflexivity]. Defined.
