(* ===== verification/PosixPath.v ===== *)
(** * [posixpath]: the path functions the script calls
    (openalex_to_hugo.py, lines 11-12 and 139-140)

    [SITE_ROOT = os.path.dirname(os.path.dirname(os.path.abspath(__file__)))]
    and the [os.path.join] calls of lines 12 and 139-140, after CPython's
    [posixpath] module: [path_join] is [join] with two arguments,
    [normpath] follows [posixpath.normpath] (one or two leading slashes are
    kept, three or more become one; empty and [.] components are dropped;
    [..] pops the previous component, is kept at the start of a relative
    path, and is dropped at the root), [dirname] follows
    [posixpath.dirname] (the text up to the last slash, with trailing
    slashes removed unless it is all slashes), and [abspath] joins a
    relative path to the working directory before [normpath].

    A normal path is [render k l]: [k] leading slashes ([k <= 2]) and the
    components [l] joined by slashes, where every component is non-empty,
    is not [.], has no slash, and a [..] only follows [..] (and never
    occurs when [k > 0]).  [normpath] returns normal paths, leaves them
    unchanged (so it is idempotent), and [dirname] of a normal absolute
    path drops its last component. *)

From stdpp Require Import base list decidable.
From Stdlib Require Import NArith ZArith Lia.
From S2P Require Import Prelude PyStr.

Definition SLASH : N := 47.
Definition DOT : pystr := lit ".".
Definition DOTDOT : pystr := lit "..".

(** [posixpath.join(a, b)]. *)
Definition path_join (a b : pystr) : pystr :=
  if startswith b (lit "/") then b
  else if bool_decide (a = []) || bool_decide (list.last a = Some 47%N) then a ++ b
  else a ++ lit "/" ++ b.

(** [s.split(sep)] for a one-character separator: never empty. *)
Fixpoint split_on (c : N) (s : pystr) : list pystr :=
  match s with
  | [] => [[]]
  | x :: r =>
      let rest := split_on c r in
      if (x =? c)%N then [] :: rest
      else match rest with p :: ps => (x :: p) :: ps | [] => [[x]] end
  end.

(** [sep.join(parts)] for a one-character separator. *)
Fixpoint join_on (c : N) (parts : list pystr) : pystr :=
  match parts with
  | [] => []
  | [p] => p
  | p :: r => p ++ c :: join_on c r
  end.

(** The loop of [normpath] over [comps]; [new_comps] is kept reversed, so
    [new_comps[-1]] is its head and [pop()] its tail. *)
Fixpoint normpath_go (initial_slashes : nat) (comps new_comps : list pystr) : list pystr :=
  match comps with
  | [] => new_comps
  | comp :: rest =>
      if bool_decide (comp = []) || bool_decide (comp = DOT) then normpath_go initial_slashes rest new_comps
      else if negb (bool_decide (comp = DOTDOT))
              || (bool_decide (initial_slashes = 0%nat) && bool_decide (new_comps = []))
              || bool_decide (head new_comps = Some DOTDOT)
      then normpath_go initial_slashes rest (comp :: new_comps)
      else normpath_go initial_slashes rest (tail new_comps)
  end.

(** The number of leading slashes [normpath] keeps. *)
Definition initial_slashes (path : pystr) : nat :=
  if startswith path [SLASH] then
    if startswith path [SLASH; SLASH] && negb (startswith path [SLASH; SLASH; SLASH]) then 2 else 1
  else 0.

(** [posixpath.normpath(path)]. *)
Definition normpath (path : pystr) : pystr :=
  if bool_decide (path = []) then DOT else
  let k := initial_slashes path in
  let comps := rev (normpath_go k (split_on SLASH path) []) in
  let path' := replicate k SLASH ++ join_on SLASH comps in
  if bool_decide (path' = []) then DOT else path'.

(** [p.rfind(sep)] for one character. *)
Fixpoint rfind_go (c : N) (i : nat) (s : pystr) (found : Z) : Z :=
  match s with
  | [] => found
  | d :: r => rfind_go c (S i) r (if (d =? c)%N then Z.of_nat i else found)
  end.

Definition py_rfind_char (c : N) (s : pystr) : Z := rfind_go c 0 s (-1).

(** [posixpath.dirname(p)]. *)
Definition dirname (p : pystr) : pystr :=
  let i := Z.to_nat (py_rfind_char SLASH p + 1) in
  let head := take i p in
  if negb (bool_decide (head = [])) && negb (bool_decide (head = replicate (length head) SLASH))
  then rstrip_by (fun c => (c =? SLASH)%N) head else head.

(** [posixpath.isabs(s)]. *)
Definition isabs (s : pystr) : bool := startswith s [SLASH].

(** [posixpath.abspath(path)] in the working directory [cwd]. *)
Definition abspath (cwd path : pystr) : pystr :=
  normpath (if isabs path then path else path_join cwd path).

(** ** Normal paths *)

Definition comp_ok (c : pystr) : Prop := c <> [] /\ c <> DOT /\ ~ SLASH ∈ c.

(** Normal components for [k] leading slashes: every component is valid,
    and every component before a [..] is a [..]; none when [k > 0]. *)
Definition norm_comps (k : nat) (l : list pystr) : Prop :=
  Forall comp_ok l /\
  (forall i j, i <= j -> l !! j = Some DOTDOT -> l !! i = Some DOTDOT)%nat /\
  (k <> 0%nat -> DOTDOT ∉ l).

Definition render (k : nat) (l : list pystr) : pystr :=
  let p := replicate k SLASH ++ join_on SLASH l in
  if bool_decide (p = []) then DOT else p.

(** ** Lemmas: split and join *)

Section SplitJoin.
Variable c : N.

Lemma split_on_nosep (p : pystr) : c ∉ p -> split_on c p = [p].
Proof.
  induction p as [|x p IH]; intros Hp; simpl; [done|].
  rewrite IH by (intros ?; apply Hp; by right).
  destruct (N.eqb_spec x c) as [->|]; [destruct Hp; left|]; done.
Qed.

Lemma split_on_app (p s : pystr) : c ∉ p -> split_on c (p ++ c :: s) = p :: split_on c s.
Proof.
  induction p as [|x p IH]; intros Hp; simpl.
  - by rewrite N.eqb_refl.
  - rewrite IH by (intros ?; apply Hp; by right).
    destruct (N.eqb_spec x c) as [->|]; [destruct Hp; left|]; done.
Qed.

Lemma split_on_join (l : list pystr) :
  l <> [] -> Forall (fun p => c ∉ p) l -> split_on c (join_on c l) = l.
Proof.
  induction l as [|p [|q r] IH]; intros Hne Hl; [done| |]; inversion Hl; subst.
  - by apply split_on_nosep.
  - simpl. rewrite split_on_app by done. f_equal. by apply IH.
Qed.

Lemma split_on_slashes (k : nat) (s : pystr) :
  split_on c (replicate k c ++ s) = replicate k [] ++ split_on c s.
Proof. induction k as [|k IH]; simpl; [done|]. by rewrite N.eqb_refl, IH. Qed.

Lemma split_on_nosep_all (s : pystr) : Forall (fun p => c ∉ p) (split_on c s).
Proof.
  induction s as [|x s IH]; simpl; [repeat constructor; apply not_elem_of_nil|].
  destruct (N.eqb_spec x c) as [->|Hx]; [constructor; [apply not_elem_of_nil|done]|].
  destruct (split_on c s) as [|p ps].
  { constructor; [|constructor]. by intros ->%list_elem_of_singleton. }
  inversion IH; subst. constructor; [|done]. intros [->|?]%elem_of_cons; [done|contradiction].
Qed.

Lemma join_on_cons (p : pystr) (r : list pystr) : r <> [] -> join_on c (p :: r) = p ++ c :: join_on c r.
Proof. by destruct r. Qed.

Lemma join_on_app (l m : list pystr) :
  l <> [] -> m <> [] -> join_on c (l ++ m) = join_on c l ++ c :: join_on c m.
Proof.
  induction l as [|p l IH]; intros Hl Hm; [done|].
  destruct (decide (l = [])) as [->|Hl']; [by apply join_on_cons|].
  rewrite <- app_comm_cons, !join_on_cons, IH by (done || by destruct l). by rewrite <- app_assoc.
Qed.
End SplitJoin.

(** ** Lemmas: normal components *)

Section Normal.
Local Open Scope nat_scope.

Lemma last_rev_head {A} (st : list A) : list.last (rev st) = head st.
Proof. destruct st; simpl; [done|]. apply last_snoc. Qed.

Lemma norm_comps_nil (k : nat) : norm_comps k [].
Proof. split_and!; [constructor | intros i j _; by rewrite lookup_nil | intros _; apply not_elem_of_nil]. Qed.

Lemma norm_comps_prefix (k : nat) (l m : list pystr) : norm_comps k (l ++ m) -> norm_comps k l.
Proof.
  intros (HF & Hp & Hk). split_and!.
  - by apply Forall_app in HF as [? _].
  - intros i j Hij Hj. pose proof (lookup_lt_Some _ _ _ Hj).
    specialize (Hp i j Hij). rewrite !lookup_app_l in Hp by lia. by apply Hp.
  - intros Hk0 Hin. apply (Hk Hk0), elem_of_app. by left.
Qed.

(** [new_comps.append(comp)] under the condition of [normpath]. *)
Lemma norm_comps_snoc (k : nat) (l : list pystr) (x : pystr) :
  norm_comps k l -> comp_ok x ->
  x <> DOTDOT \/ (k = 0 /\ l = []) \/ list.last l = Some DOTDOT ->
  norm_comps k (l ++ [x]).
Proof.
  intros (HF & Hp & Hk) Hx Hc.
  assert (Hdd : x = DOTDOT -> k = 0 /\ forall i, i < length l -> l !! i = Some DOTDOT).
  { intros ->. destruct Hc as [[]|[[-> ->]|Hl]]; [done|split; [done|]; simpl; lia|].
    split.
    - destruct (decide (k = 0)); [done|]. destruct (Hk ltac:(done)). by apply last_Some_elem_of.
    - intros i Hi. rewrite last_lookup in Hl. apply (Hp i (pred (length l))); [lia|done]. }
  split_and!.
  - apply Forall_app; split; [done|]. by constructor.
  - intros i j Hij [[Hj Hl]|[-> ->]]%lookup_snoc_Some; apply lookup_snoc_Some.
    + left. split; [lia|]. by apply (Hp i j).
    + destruct (decide (i = length l)) as [->|]; [by right|]. left.
      split; [lia|]. apply (proj2 (Hdd eq_refl)). lia.
  - intros Hk0 [Hin|Hin]%elem_of_app; [by apply Hk|]. apply list_elem_of_singleton in Hin as <-.
    by destruct (Hdd eq_refl).
Qed.

(** The [normpath] loop keeps [new_comps] normal. *)
Lemma normpath_go_norm (k : nat) (comps st : list pystr) :
  norm_comps k (rev st) -> Forall (fun p => SLASH ∉ p) comps ->
  norm_comps k (rev (normpath_go k comps st)).
Proof.
  revert st. induction comps as [|comp rest IH]; intros st Hst Hc; simpl; [done|].
  inversion Hc as [|? ? Hcomp Hrest]; subst.
  destruct (bool_decide (comp = []) || bool_decide (comp = DOT)) eqn:Hskip; [by apply IH|].
  apply orb_false_iff in Hskip as [Hne Hdot]. apply bool_decide_eq_false in Hne, Hdot.
  destruct (_ || _ || _) eqn:Hpush; apply IH; try done.
  - simpl. apply norm_comps_snoc; [done|done|].
    rewrite !orb_true_iff, negb_true_iff, andb_true_iff, !bool_decide_eq_true, bool_decide_eq_false in Hpush.
    rewrite last_rev_head. destruct Hpush as [[|[-> ->]]|]; auto.
  - destruct st as [|top st]; simpl; [done|]. simpl in Hst. by apply norm_comps_prefix in Hst.
Qed.

(** On normal components the loop keeps every component. *)
Lemma normpath_go_id (k : nat) (comps st : list pystr) :
  norm_comps k (rev st ++ comps) -> normpath_go k comps st = rev comps ++ st.
Proof.
  revert st. induction comps as [|comp rest IH]; intros st Hn; simpl; [done|].
  pose proof Hn as Hn0. destruct Hn as (HF & Hp & Hk). apply Forall_app in HF as [_ HF]. inversion HF as [|? ? (Hne & Hdot & _) _]; subst.
  rewrite (bool_decide_eq_false_2 (comp = [])), (bool_decide_eq_false_2 (comp = DOT)) by done. simpl.
  assert (Hpush : (negb (bool_decide (comp = DOTDOT)) || bool_decide (k = 0) && bool_decide (st = [])
          || bool_decide (head st = Some DOTDOT)) = true).
  { destruct (decide (comp = DOTDOT)) as [->|]; [|by rewrite bool_decide_eq_false_2].
    assert (Hlen : (rev st ++ DOTDOT :: rest) !! length (rev st) = Some DOTDOT) by (by rewrite lookup_app_r, Nat.sub_diag by lia).
    assert (k = 0) as ->.
    { destruct (decide (k = 0)); [done|]. destruct (Hk ltac:(done)). by eapply list_elem_of_lookup_2. }
    destruct st as [|top st]; [done|]. apply orb_true_iff; right. apply bool_decide_eq_true. simpl.
    specialize (Hp (length (rev st)) (length (rev (top :: st))) ltac:(simpl; rewrite length_app; simpl; lia) Hlen).
    simpl in Hp. rewrite <- app_assoc, lookup_app_r, Nat.sub_diag in Hp by lia. done. }
  rewrite Hpush, IH.
  - simpl. by rewrite <- app_assoc.
  - simpl. by rewrite <- app_assoc.
Qed.
End Normal.

(** ** Lemmas: [normpath] and [dirname] on normal paths *)

Section NormPath.
Local Open Scope nat_scope.

Lemma startswith_cons_eq (x : N) (s p : pystr) : startswith (x :: s) (x :: p) = startswith s p.
Proof. simpl. by rewrite bool_decide_eq_true_2. Qed.

Lemma comp_ok_no_slash (l : list pystr) : Forall comp_ok l -> Forall (fun p => SLASH ∉ p) l.
Proof. apply Forall_impl. by intros p (_ & _ & ?). Qed.

(** A joined list of valid components does not start with a slash. *)
Lemma join_no_lead_slash (l : list pystr) :
  Forall comp_ok l -> forall p, startswith (join_on SLASH l) (SLASH :: p) = false.
Proof.
  intros Hl p0. destruct l as [|p r]; [done|]. inversion Hl as [|? ? (Hne & _ & Hs) _]; subst.
  destruct p as [|y p]; [done|].
  assert (Hy : y <> SLASH) by (intros ->; apply Hs; left).
  destruct r; simpl; rewrite bool_decide_eq_false_2; done.
Qed.

Lemma initial_slashes_render (k : nat) (l : list pystr) :
  k <= 2 -> Forall comp_ok l -> initial_slashes (replicate k SLASH ++ join_on SLASH l) = k.
Proof.
  intros Hk Hl. pose proof (join_no_lead_slash l Hl) as Hj.
  destruct k as [|[|[|k]]]; [| | |lia]; unfold initial_slashes; cbn [replicate app];
    rewrite ?startswith_cons_eq, ?startswith_nil, ?Hj; done.
Qed.

Lemma normpath_go_empties (k n : nat) (l st : list pystr) :
  normpath_go k (replicate n [] ++ l) st = normpath_go k l st.
Proof. induction n as [|n IH]; [done|]. exact IH. Qed.

Lemma normpath_go_join (k : nat) (l : list pystr) :
  norm_comps k l -> normpath_go k (split_on SLASH (join_on SLASH l)) [] = rev l.
Proof.
  intros Hn. destruct (decide (l = [])) as [->|Hne]; [done|].
  rewrite split_on_join by (done || apply comp_ok_no_slash, Hn).
  rewrite normpath_go_id by done. apply app_nil_r.
Qed.

(** [normpath] leaves a normal path unchanged. *)
Lemma normpath_render (k : nat) (l : list pystr) :
  k <= 2 -> norm_comps k l -> normpath (render k l) = render k l.
Proof.
  intros Hk Hn. unfold render. destruct (bool_decide (_ = [])) eqn:E; [done|].
  apply bool_decide_eq_false in E. unfold normpath.
  rewrite (bool_decide_eq_false_2 _ E), initial_slashes_render by (done || apply Hn).
  rewrite split_on_slashes, normpath_go_empties, normpath_go_join, rev_involutive by done.
  by rewrite (bool_decide_eq_false_2 _ E).
Qed.

(** Every result of [normpath] is a normal path. *)
Lemma normpath_normal (p : pystr) :
  exists k l, k <= 2 /\ norm_comps k l /\ normpath p = render k l.
Proof.
  destruct (decide (p = [])) as [->|Hp]; [exists 0, []; split_and!; [lia|apply norm_comps_nil|done]|].
  exists (initial_slashes p), (rev (normpath_go (initial_slashes p) (split_on SLASH p) [])).
  split_and!.
  - unfold initial_slashes. repeat case_match; lia.
  - apply normpath_go_norm; [apply norm_comps_nil | apply split_on_nosep_all].
  - unfold normpath, render. by rewrite (bool_decide_eq_false_2 _ Hp).
Qed.

Lemma rfind_go_none (c : N) (i : nat) (s : pystr) (f : Z) : c ∉ s -> rfind_go c i s f = f.
Proof.
  revert i f. induction s as [|d s IH]; intros i f Hs; simpl; [done|].
  destruct (N.eqb_spec d c) as [->|]; [destruct Hs; left|]. apply IH. intros ?; apply Hs; by right.
Qed.

Lemma rfind_go_last (c : N) (i : nat) (pre x : pystr) (f : Z) :
  c ∉ x -> rfind_go c i (pre ++ c :: x) f = Z.of_nat (i + length pre).
Proof.
  revert i f. induction pre as [|d pre IH]; intros i f Hx; simpl.
  - rewrite N.eqb_refl, rfind_go_none by done. by rewrite Nat.add_0_r.
  - rewrite IH by done. f_equal. lia.
Qed.

Lemma join_on_snoc_ex (c : N) (l : list pystr) (q : pystr) : exists J, join_on c (l ++ [q]) = J ++ q.
Proof.
  destruct (decide (l = [])) as [->|Hl]; [by exists []|].
  exists (join_on c l ++ [c]). rewrite join_on_app by done. by rewrite <- app_assoc.
Qed.

(** A non-empty join of valid components ends with a character other than a slash. *)
Lemma join_last_char (l : list pystr) :
  Forall comp_ok l -> l <> [] -> exists J z, join_on SLASH l = J ++ [z] /\ z <> SLASH.
Proof.
  intros Hl Hne. destruct (exists_last Hne) as (l' & q & ->).
  apply Forall_app in Hl as [_ Hq]. inversion Hq as [|? ? (Hqne & _ & Hqs) _]; subst.
  destruct (join_on_snoc_ex SLASH l' q) as [J ->].
  destruct (exists_last Hqne) as (q' & z & ->). exists (J ++ q'), z. split; [by rewrite app_assoc|].
  intros ->. apply Hqs, elem_of_app. right. by left.
Qed.

(** [dirname] of a normal absolute path drops the last component. *)
Lemma dirname_render (rs : list pystr) (x : pystr) :
  Forall comp_ok (rs ++ [x]) -> dirname (render 1 (rs ++ [x])) = render 1 rs.
Proof.
  intros Hok. apply Forall_app in Hok as [Hrs Hx]. inversion Hx as [|? ? (_ & _ & Hxs) _]; subst.
  unfold render. cbn [replicate app]. rewrite !bool_decide_eq_false_2 by done.
  destruct (decide (rs = [])) as [->|Hne].
  - unfold dirname, py_rfind_char. change (SLASH :: join_on SLASH ([] ++ [x])) with ([] ++ SLASH :: x).
    rewrite rfind_go_last by done. done.
  - rewrite join_on_app by done. change (join_on SLASH [x]) with x.
    set (pre := SLASH :: join_on SLASH rs).
    change (SLASH :: join_on SLASH rs ++ SLASH :: x) with (pre ++ SLASH :: x).
    unfold dirname, py_rfind_char. rewrite rfind_go_last by done.
    replace (Z.to_nat (Z.of_nat (0 + length pre) + 1)) with (length (pre ++ [SLASH])) by (rewrite length_app; simpl; lia).
    replace (pre ++ SLASH :: x) with ((pre ++ [SLASH]) ++ x) by (by rewrite <- app_assoc).
    rewrite take_app_length.
    destruct (join_last_char rs Hrs Hne) as (J & z & HJ & Hzs).
    assert (Hzpre : z ∈ pre) by (unfold pre; rewrite HJ; apply elem_of_cons; right; apply elem_of_app; right; by left).
    assert (H1 : pre ++ [SLASH] <> []) by (intros E; apply app_eq_nil in E as [_ ?]; discriminate).
    assert (H2 : pre ++ [SLASH] <> replicate (length (pre ++ [SLASH])) SLASH).
    { intros E. apply Hzs, (elem_of_replicate_inv _ (length (pre ++ [SLASH]))).
      rewrite <- E. apply elem_of_app. by left. }
    rewrite (bool_decide_eq_false_2 _ H1), (bool_decide_eq_false_2 _ H2).
    cbn [negb andb]. rewrite rstrip_by_app; [by rewrite app_nil_r|].
    unfold pre. rewrite HJ, app_comm_cons, rev_app_distr. simpl. intros ? [= <-].
    by apply N.eqb_neq.
Qed.

Lemma norm_comps_abs (l : list pystr) : Forall comp_ok l -> DOTDOT ∉ l -> norm_comps 1 l.
Proof.
  intros Hl Hd. split_and!; [done| |done]. intros i j _ Hj. destruct Hd. by eapply list_elem_of_lookup_2.
Qed.

Lemma render_abs (l : list pystr) : render 1 l = SLASH :: join_on SLASH l.
Proof. done. Qed.

(** [abspath] of a normal absolute path is the path itself. *)
Lemma abspath_abs (cwd : pystr) (l : list pystr) :
  norm_comps 1 l -> abspath cwd (render 1 l) = render 1 l.
Proof.
  intros Hn. assert (Habs : isabs (render 1 l) = true).
  { rewrite render_abs. unfold isabs. by rewrite startswith_cons_eq, startswith_nil. }
  unfold abspath. rewrite Habs. apply normpath_render; [lia|done].
Qed.

(** [os.path.join] of a normal absolute path and relative valid components. *)
Lemma path_join_render (cs ds : list pystr) :
  Forall comp_ok cs -> Forall comp_ok ds -> ds <> [] ->
  path_join (render 1 cs) (join_on SLASH ds) = render 1 (cs ++ ds).
Proof.
  intros Hcs Hds Hne. unfold path_join.
  pose proof (join_no_lead_slash ds Hds []) as Hj. change (lit "/") with [SLASH]. rewrite Hj.
  rewrite !render_abs. destruct (decide (cs = [])) as [->|Hc]; [done|].
  destruct (join_last_char cs Hcs Hc) as (J & z & HJ & Hz).
  rewrite HJ, app_comm_cons, last_snoc.
  rewrite (bool_decide_eq_false_2 ((SLASH :: J) ++ [z] = [])) by (intros E; apply app_eq_nil in E as [? ?]; discriminate).
  rewrite (bool_decide_eq_false_2 (Some z = Some 47%N)) by (intros [= ?]; by apply Hz).
  rewrite join_on_app, HJ by done. simpl. by rewrite <- app_assoc.
Qed.

(** [abspath] of a relative path of valid components, in a normal
    absolute working directory, appends the components. *)
Lemma abspath_rel (cs ds : list pystr) :
  norm_comps 1 cs -> Forall comp_ok ds -> DOTDOT ∉ ds -> ds <> [] ->
  abspath (render 1 cs) (join_on SLASH ds) = render 1 (cs ++ ds).
Proof.
  intros Hcs Hds Hdd Hne. unfold abspath, isabs.
  rewrite (join_no_lead_slash ds Hds []), path_join_render by (done || apply Hcs).
  destruct Hcs as (Hc & _ & Hcd). apply normpath_render; [lia|]. apply norm_comps_abs; [by apply Forall_app|].
  intros [?|?]%elem_of_app; [by apply Hcd|done].
Qed.
End NormPath.

(** ** Theorems *)

(** [os.path.normpath] is idempotent: a normalised path is its own
    normal form (CPython's [posixpath.normpath]: slashes collapsed, [.]
    dropped, [..] resolved, one or two leading slashes kept). *)
Theorem normpath_idempotent (p : pystr) : normpath (normpath p) = normpath p.
Proof. destruct (normpath_normal p) as (k & l & Hk & Hn & ->). by apply normpath_render. Qed.
