(* ===== verification/Main.v ===== *)
(** * [main] and its effects (openalex_to_hugo.py, lines 11-12, 29-38,
    64-70, 127-183)

    The script's run is a sequence of effects on a [world]: the file
    system (files and directories), and what was written to stderr and
    stdout.  [io] is a state monad over the world with Python exceptions:
    an exception stops the run but keeps the effects made before it (the
    skeleton file [hugo new] created stays on disk when the fetch fails).
    [sys.exit(n)] raises [SystemExit n]; [run_main] turns the outcome
    into the process exit status (an uncaught exception exits with 1).

    The environment is a set of section variables: [SITE_ROOT], the YAML
    library, the [hugo] command (the file system after it ran and its
    return code), the HTTP client ([requests.get] then [r.json()]), and
    the clock. *)

From stdpp Require Import base list decidable gmap.
From Stdlib Require Import NArith ZArith QArith Lia.
From Stdlib Require String.
From S2P Require Import Prelude PyStr Utf8 PyVal Slugify ExtractDoi FrontMatter Merge FieldMapper Url PosixPath.

(** ** World and monad *)

Record world := {
  w_fs : fsys;
  w_dirs : gset pystr;
  w_stderr : pystr;
  w_stdout : pystr
}.

Definition io (A : Type) : Type := world -> result A * world.

#[export] Instance io_ret : MRet io := fun A a w => (Ok a, w).
#[export] Instance io_bind : MBind io := fun A B f c w =>
  match c w with
  | (Ok a, w') => f a w'
  | (Err e, w') => (Err e, w')
  end.

Definition throw {A} (e : pyexc) : io A := fun w => (Err e, w).
Definition lift {A} (r : result A) : io A := fun w => (r, w).
Definition sys_exit {A} (code : Z) : io A := throw (SystemExit code).

Definition set_fs (fs : fsys) (w : world) : world :=
  {| w_fs := fs; w_dirs := w_dirs w; w_stderr := w_stderr w; w_stdout := w_stdout w |}.

Definition write_stderr (s : pystr) : io unit := fun w =>
  (Ok tt, {| w_fs := w_fs w; w_dirs := w_dirs w; w_stderr := w_stderr w ++ s; w_stdout := w_stdout w |}).

(** [print(s)]. *)
Definition print (s : pystr) : io unit := fun w =>
  (Ok tt, {| w_fs := w_fs w; w_dirs := w_dirs w; w_stderr := w_stderr w; w_stdout := w_stdout w ++ s ++ [LF] |}).

(** [os.path.exists(p)]. *)
Definition path_exists (p : pystr) : io bool := fun w =>
  (Ok (bool_decide (is_Some (w_fs w !! p)) || bool_decide (p ∈ w_dirs w)), w).

Section Main.
Context `{UnicodeDB}.
Variable yaml_load : pystr -> result pyval.
Variable yaml_dump : pyval -> pystr.
(** [SITE_ROOT]. *)
Variable site_root : pystr.
(** [hugo new --kind articles relpath] run in [SITE_ROOT]: its return
    code and the file system after it, or the exception of starting it. *)
Variable hugo : pystr -> fsys -> result (Z * fsys).
(** [requests.get(url, timeout=20)]: the status code and what
    [r.json()] returns or raises. *)
Variable http_get : pystr -> result (Z * result pyval).
(** [datetime.datetime.now().isoformat()]. *)
Variable now : pystr.

(** Line 12. *)
Definition CONTENT_DIR : pystr := path_join (path_join site_root (lit "content")) (lit "articles").

(** Lines 64-65: [os.makedirs(CONTENT_DIR, exist_ok=True)] fails when a
    file is in the way. *)
Definition ensure_dirs : io unit := fun w =>
  if bool_decide (is_Some (w_fs w !! CONTENT_DIR)) then (Err FileExistsError, w)
  else (Ok tt, {| w_fs := w_fs w; w_dirs := {[CONTENT_DIR]} ∪ w_dirs w;
                  w_stderr := w_stderr w; w_stdout := w_stdout w |}).

(** Lines 67-70: [check=True] raises on a non-zero return code, after
    the command's effects. *)
Definition hugo_new (relpath : pystr) : io unit := fun w =>
  match hugo relpath (w_fs w) with
  | Err e => (Err e, w)
  | Ok (rc, fs') => if (rc =? 0)%Z then (Ok tt, set_fs fs' w) else (Err (CalledProcessError rc), set_fs fs' w)
  end.

(** Lines 29-38. *)
Definition fetch_openalex_by_doi (doi : pystr) : io pyval :=
  url ← lift (openalex_url doi);
  resp ← lift (http_get url);
  let '(status, json) := resp in
  if (status =? 404)%Z then
    (write_stderr (lit "OpenAlex: work not found for DOI" ++ [LF]);; sys_exit 2)
  else if ((400 <=? status) && (status <? 600))%Z then throw (HTTPError status)
  else lift json.

(** Line 129; [34] is the double quote. *)
Definition USAGE : pystr :=
  lit "Usage: openalex_to_hugo.py " ++ [34%N] ++ lit "Custom Title" ++ [34%N] ++
  lit " https://doi.org/10.xxxx" ++ [LF].

(** Lines 138-140. *)
Definition rel_md_path (page_title : pystr) : pystr :=
  path_join (lit "articles") (slugify page_title ++ lit ".md").

Definition abs_md_path (page_title : pystr) : pystr :=
  path_join (path_join site_root (lit "content")) (rel_md_path page_title).

(** Lines 162-181: load, patch and write the front matter. *)
Definition update_front_matter (path page_title : pystr) (m : mapped_fields) : io unit := fun w =>
  match read_front_matter yaml_load path (w_fs w) with
  | Err e => (Err e, w)
  | Ok (fm, body) =>
      match patch_front_matter fm page_title now m with
      | Err e => (Err e, w)
      | Ok fm' => let '(r, fs') := write_front_matter yaml_dump path fm' body (w_fs w) in (r, set_fs fs' w)
      end
  end.

(** Lines 127-183; [argv] is [sys.argv]. *)
Definition main (argv : list pystr) : io unit :=
  match argv with
  | [_; page_title; doi_input] =>
      doi ← lift (extract_doi doi_input);
      ensure_dirs;;
      let abs := abs_md_path page_title in
      path_exists abs ≫= λ found : bool,
      if found then (write_stderr (lit "File exists: " ++ abs ++ [LF]);; sys_exit 3)
      else
        (hugo_new (rel_md_path page_title);;
         meta ← fetch_openalex_by_doi doi;
         m ← lift (map_fields meta page_title doi);
         update_front_matter abs page_title m;;
         print abs)
  | _ => write_stderr USAGE;; sys_exit 2
  end.

(** The exit status: [0], the code of [sys.exit], or [1] for an
    uncaught exception. *)
Definition exit_code (r : result unit) : Z :=
  match r with
  | Ok _ => 0
  | Err (SystemExit n) => n
  | Err _ => 1
  end.

Definition run_main (argv : list pystr) (w : world) : Z * world :=
  let '(r, w') := main argv w in (exit_code r, w').
End Main.

(** ** Paths *)

(** [a] with the separator [posixpath.join] puts after it. *)
Definition path_prefix (a : pystr) : pystr :=
  if bool_decide (a = []) || bool_decide (last a = Some 47%N) then a else a ++ lit "/".

Lemma path_join_rel (a b : pystr) : head b <> Some 47%N -> path_join a b = path_prefix a ++ b.
Proof.
  intros Hb. unfold path_join, path_prefix.
  assert (startswith b (lit "/") = false) as ->.
  { destruct b as [|c b]; [done|]. simpl. rewrite andb_true_r. apply bool_decide_eq_false.
    intros <-. by apply Hb. }
  by destruct (_ || _); [|rewrite <- app_assoc].
Qed.

Section Paths.
Context `{UnicodeDB}.

Lemma slug_char_slash : slug_char 47 = false.
Proof. unfold slug_char. rewrite ud_isword_ascii by lia. reflexivity. Qed.

(** The slug has no [/], and is not empty. *)
Lemma slugify_no_slash (s : pystr) : slugify s <> [] /\ ~ In 47%N (slugify s).
Proof.
  pose proof (slugify_wf s) as (Hne & Hc & _)%slug_wf_spec. split; [done|].
  intros Hin. rewrite List.Forall_forall in Hc. specialize (Hc _ Hin). by rewrite slug_char_slash in Hc.
Qed.

Lemma slug_md_head (s : pystr) : head (slugify s ++ lit ".md") <> Some 47%N.
Proof.
  destruct (slugify_no_slash s) as [Hne Hno]. destruct (slugify s) as [|c r]; [done|].
  simpl. intros [= ->]. apply Hno. by left.
Qed.
End Paths.

Lemma abs_md_path_eq `{UnicodeDB} (root t : pystr) :
  abs_md_path root t = CONTENT_DIR root ++ lit "/" ++ slugify t ++ lit ".md".
Proof.
  unfold abs_md_path, rel_md_path, CONTENT_DIR.
  rewrite (path_join_rel (lit "articles") _ (slug_md_head t)).
  change (path_prefix (lit "articles")) with (lit "articles" ++ lit "/").
  rewrite !path_join_rel by discriminate. by rewrite <- !app_assoc.
Qed.

Lemma app_ne_self {A} (l x : list A) : x <> [] -> l ++ x <> l.
Proof. intros Hx Heq. apply (f_equal List.length) in Heq. rewrite length_app in Heq. destruct x; [done|]. simpl in Heq. lia. Qed.

Lemma abs_ne_content_dir `{UnicodeDB} (root t : pystr) : abs_md_path root t <> CONTENT_DIR root.
Proof. rewrite abs_md_path_eq. by apply app_ne_self. Qed.

(** ** The monad, step by step *)

Lemma io_bind_run {A B} (c : io A) (f : A -> io B) (w : world) :
  (c ≫= f) w = match c w with (Ok a, w') => f a w' | (Err e, w') => (Err e, w') end.
Proof. reflexivity. Qed.

(** [c] leaves the file at [p] as it is, if there is one. *)
Definition keeps {A} (p : pystr) (c : io A) : Prop :=
  forall w, is_Some (w_fs w !! p) -> w_fs (snd (c w)) !! p = w_fs w !! p.

Lemma keeps_bind {A B} (p : pystr) (c : io A) (f : A -> io B) :
  keeps p c -> (forall a, keeps p (f a)) -> keeps p (c ≫= f).
Proof.
  intros Hc Hf w Hw. rewrite io_bind_run. specialize (Hc w Hw).
  destruct (c w) as [[a|e] w'] eqn:E; simpl in *; [|done].
  rewrite Hf; [done|]. by rewrite Hc.
Qed.

Lemma keeps_apply {A} (p : pystr) (c : io A) (w : world) :
  keeps p c -> is_Some (w_fs w !! p) -> w_fs (snd (c w)) !! p = w_fs w !! p.
Proof. intros Hc. apply Hc. Qed.

Lemma keeps_pure {A} (p : pystr) (c : io A) : (forall w, w_fs (snd (c w)) = w_fs w) -> keeps p c.
Proof. intros H w _. by rewrite H. Qed.

#[export] Hint Resolve keeps_bind keeps_pure : pydb.

Lemma keeps_lift {A} (p : pystr) (r : result A) : keeps p (lift r).
Proof. by apply keeps_pure. Qed.
Lemma keeps_throw {A} (p : pystr) (e : pyexc) : keeps p (throw (A:=A) e).
Proof. by apply keeps_pure. Qed.
Lemma keeps_write_stderr (p s : pystr) : keeps p (write_stderr s).
Proof. by apply keeps_pure. Qed.
Lemma keeps_print (p s : pystr) : keeps p (print s).
Proof. by apply keeps_pure. Qed.
#[export] Hint Resolve keeps_lift keeps_throw keeps_write_stderr keeps_print : pydb.

Section MainFrame.
Context `{UnicodeDB}.
Variable yaml_load : pystr -> result pyval.
Variable yaml_dump : pyval -> pystr.
Variable site_root : pystr.
Variable hugo : pystr -> fsys -> result (Z * fsys).
Variable http_get : pystr -> result (Z * result pyval).
Variable now : pystr.
(** [hugo new] does not change a file that is already there. *)
Hypothesis hugo_keeps : forall rel fs rc fs',
  hugo rel fs = Ok (rc, fs') -> forall p, is_Some (fs !! p) -> fs' !! p = fs !! p.

Lemma keeps_ensure_dirs (p : pystr) : keeps p (ensure_dirs site_root).
Proof. apply keeps_pure. intros w. unfold ensure_dirs. by repeat case_match. Qed.

Lemma keeps_hugo_new (p rel : pystr) : keeps p (hugo_new hugo rel).
Proof.
  intros w Hw. unfold hugo_new. destruct (hugo rel (w_fs w)) as [[rc fs']|e] eqn:E; [|done].
  destruct (rc =? 0)%Z; simpl; by apply (hugo_keeps _ _ _ _ E).
Qed.

Lemma keeps_fetch (p doi : pystr) : keeps p (fetch_openalex_by_doi http_get doi).
Proof.
  unfold fetch_openalex_by_doi. apply keeps_bind; [auto with pydb|intros url].
  apply keeps_bind; [auto with pydb|intros [status json]]. cbn iota beta.
  repeat case_match; unfold sys_exit; auto with pydb.
Qed.

Lemma keeps_update (p path t : pystr) (m : mapped_fields) :
  p <> path -> keeps p (update_front_matter yaml_load yaml_dump now path t m).
Proof.
  intros Hne w _. unfold update_front_matter, write_front_matter.
  repeat case_match; simplify_eq; try done; simpl; by rewrite lookup_insert_ne.
Qed.
End MainFrame.

#[export] Hint Resolve keeps_ensure_dirs keeps_hugo_new keeps_fetch keeps_update : pydb.

(** ** Steps of a run *)

Lemma lift_Ok_bind {A B} (a : A) (f : A -> io B) (w : world) : (lift (Ok a) ≫= f) w = f a w.
Proof. reflexivity. Qed.

Lemma path_exists_bind {B : Type} (p : pystr) (f : bool -> io B) (w : world) :
  (path_exists p ≫= f) w = f (bool_decide (is_Some (w_fs w !! p)) || bool_decide (p ∈ w_dirs w)) w.
Proof. reflexivity. Qed.

Lemma write_stderr_bind {B : Type} (s : pystr) (f : unit -> io B) (w : world) :
  (write_stderr s ≫= f) w =
  f tt {| w_fs := w_fs w; w_dirs := w_dirs w; w_stderr := w_stderr w ++ s; w_stdout := w_stdout w |}.
Proof. reflexivity. Qed.

Section Steps.
Variable site_root : pystr.
Variable hugo : pystr -> fsys -> result (Z * fsys).
Variable http_get : pystr -> result (Z * result pyval).

Lemma ensure_dirs_bind {B : Type} (f : unit -> io B) (w : world) :
  w_fs w !! CONTENT_DIR site_root = None ->
  (ensure_dirs site_root ≫= f) w =
  f tt {| w_fs := w_fs w; w_dirs := {[CONTENT_DIR site_root]} ∪ w_dirs w;
          w_stderr := w_stderr w; w_stdout := w_stdout w |}.
Proof. intros Hc. rewrite io_bind_run. unfold ensure_dirs. by rewrite Hc. Qed.

Lemma hugo_new_bind {B : Type} (rel : pystr) (fs' : fsys) (f : unit -> io B) (w : world) :
  hugo rel (w_fs w) = Ok (0%Z, fs') -> (hugo_new hugo rel ≫= f) w = f tt (set_fs fs' w).
Proof. intros Hh. rewrite io_bind_run. unfold hugo_new. by rewrite Hh. Qed.

Definition NOT_FOUND_MSG : pystr := lit "OpenAlex: work not found for DOI" ++ [LF].

Lemma fetch_404_bind {B : Type} (doi url : pystr) (j : result pyval) (f : pyval -> io B) (w : world) :
  openalex_url doi = Ok url -> http_get url = Ok (404%Z, j) ->
  (fetch_openalex_by_doi http_get doi ≫= f) w =
  (Err (SystemExit 2), {| w_fs := w_fs w; w_dirs := w_dirs w; w_stderr := w_stderr w ++ NOT_FOUND_MSG;
                          w_stdout := w_stdout w |}).
Proof.
  intros Hu Hg. unfold fetch_openalex_by_doi.
  rewrite io_bind_run, Hu, lift_Ok_bind. cbn beta. rewrite Hg, lift_Ok_bind. reflexivity.
Qed.

Lemma fetch_ok_bind {B : Type} (doi url : pystr) (status : Z) (meta : pyval) (f : pyval -> io B) (w : world) :
  openalex_url doi = Ok url -> http_get url = Ok (status, Ok meta) ->
  status <> 404%Z -> ~ (400 <= status < 600)%Z ->
  (fetch_openalex_by_doi http_get doi ≫= f) w = f meta w.
Proof.
  intros Hu Hg H1 H2. unfold fetch_openalex_by_doi.
  rewrite io_bind_run, Hu, lift_Ok_bind. cbn beta. rewrite Hg, lift_Ok_bind. cbn iota beta.
  rewrite (proj2 (Z.eqb_neq _ _) H1).
  destruct ((400 <=? status) && (status <? 600))%Z eqn:E; [|done]. exfalso. apply H2.
  apply andb_true_iff in E as [E1 E2]. apply Z.leb_le in E1. apply Z.ltb_lt in E2. lia.
Qed.


End Steps.

Lemma run_main_world `{UnicodeDB} yl yd root hg http nw (argv : list pystr) (w : world) :
  snd (run_main yl yd root hg http nw argv w) = snd (main yl yd root hg http nw argv w).
Proof. unfold run_main. by destruct (main _ _ _ _ _ _ _ _). Qed.

(** The API response of the end-to-end scenario of spec 8. *)
Definition spec8_author (name : String.string) : pyval :=
  PDict [(kstr "author", PDict [(kstr "display_name", PStr (lit name))])].
Arguments spec8_author name%_string_scope.

Definition spec8_meta : pyval :=
  PDict [(kstr "title", PStr (lit "Foo Bar"));
         (kstr "publication_year", PInt 2021);
         (kstr "host_venue", PDict [(kstr "display_name", PStr (lit "ACME Journal"))]);
         (kstr "authorships", PList [spec8_author "Ann Author"; spec8_author "Bob Writer"]);
         (kstr "concepts", PList [concept "Networks" (PFloat (9 # 10)); concept "Systems" (PFloat (5 # 10));
                                  concept "Clouds" (PFloat (99 # 100))])].

Definition spec8_fields (doi : pystr) : mapped_fields :=
  {| mf_article_title := PStr (lit "Foo Bar"); mf_publication_year := PInt 2021;
        mf_venue := PStr (lit "ACME Journal");
        mf_authors := PList [PStr (lit "Ann Author"); PStr (lit "Bob Writer")];
        mf_topics := PList [PStr (lit "Clouds"); PStr (lit "Networks"); PStr (lit "Systems")];
        mf_oa := PStr []; mf_doi_norm := PStr doi |}.

Lemma map_fields_spec8 (t doi : pystr) : map_fields spec8_meta t doi = Ok (spec8_fields doi).
Proof. vm_compute. reflexivity. Qed.

Section MainRun.
Context `{UnicodeDB}.
Variable yaml_load : pystr -> result pyval.
Variable yaml_dump : pyval -> pystr.
Variable site_root : pystr.
Variable hugo : pystr -> fsys -> result (Z * fsys).
Variable http_get : pystr -> result (Z * result pyval).
Variable now : pystr.

Local Abbreviation run := (run_main yaml_load yaml_dump site_root hugo http_get now).
Local Abbreviation abs := (abs_md_path site_root).
Local Abbreviation main' := (main yaml_load yaml_dump site_root hugo http_get now).

(** C28: a command line without exactly two arguments prints the usage
    line to stderr and exits with status 2, touching nothing else. *)
Theorem main_usage (argv : list pystr) (w : world) :
  List.length argv <> 3%nat ->
  run argv w = (2%Z, {| w_fs := w_fs w; w_dirs := w_dirs w; w_stderr := w_stderr w ++ USAGE;
                        w_stdout := w_stdout w |}).
Proof. intros Hl. destruct argv as [|a [|b [|c [|d r]]]]; simpl in Hl; try lia; reflexivity. Qed.

(** C2: a run never changes a file that existed before it: the target
    path is checked first (exit 3), and the only file the script writes
    is the target, so any other file keeps its content whatever happens
    (provided [hugo new] itself does not change existing files). *)
Theorem main_keeps_existing (argv : list pystr) (w : world) (p : pystr) :
  (forall rel fs rc fs', hugo rel fs = Ok (rc, fs') -> forall q, is_Some (fs !! q) -> fs' !! q = fs !! q) ->
  is_Some (w_fs w !! p) -> w_fs (snd (run argv w)) !! p = w_fs w !! p.
Proof.
  intros Hk Hp. rewrite run_main_world. revert w Hp. fold (keeps p (main yaml_load yaml_dump site_root hugo http_get now argv)).
  destruct argv as [|a [|t [|d [|x r]]]]; unfold main, sys_exit; eauto with pydb.
  apply keeps_bind; [auto with pydb|intros doi]. apply keeps_bind; [auto with pydb|intros []].
  intros w Hw. rewrite io_bind_run. unfold path_exists at 1.
  destruct (bool_decide (is_Some (w_fs w !! abs t)) || _) eqn:E; [revert w Hw E; eauto with pydb|].
  apply orb_false_iff in E as [E _]. apply bool_decide_eq_false in E.
  assert (Hne : p <> abs t) by (intros ->; contradiction).
  cbn beta iota. eapply keeps_apply; [|exact Hw]. eauto 10 with pydb.
Qed.
(** C18: the page is always created directly inside [content/articles]:
    its path is [CONTENT_DIR/<slug>.md] and the slug holds no [/],
    whatever the title. *)
Theorem main_target_path (t : pystr) :
  abs t = CONTENT_DIR site_root ++ lit "/" ++ slugify t ++ lit ".md" /\ ~ In 47%N (slugify t).
Proof. split; [apply abs_md_path_eq|apply slugify_no_slash]. Qed.

(** C13: when the API answers 404, the run exits with status 2 after
    [hugo new] created the skeleton, which stays on disk; running the
    same command again then stops at the existence check with status 3. *)
Theorem main_404_rerun (a t d doi url skel : pystr) (j : result pyval) (w : world) :
  extract_doi d = Ok doi -> openalex_url doi = Ok url -> http_get url = Ok (404%Z, j) ->
  w_fs w !! abs t = None -> abs t ∉ w_dirs w -> w_fs w !! CONTENT_DIR site_root = None ->
  hugo (rel_md_path t) (w_fs w) = Ok (0%Z, <[abs t := skel]> (w_fs w)) ->
  fst (run [a; t; d] w) = 2%Z /\ w_fs (snd (run [a; t; d] w)) !! abs t = Some skel /\
  fst (run [a; t; d] (snd (run [a; t; d] w))) = 3%Z.
Proof.
  intros Hd Hu Hg Hf Hdir Hc Hh. pose proof (abs_ne_content_dir site_root t) as Hne.
  assert (H1 : main' [a; t; d] w =
    (Err (SystemExit 2), {| w_fs := <[abs t := skel]> (w_fs w); w_dirs := {[CONTENT_DIR site_root]} ∪ w_dirs w;
                            w_stderr := w_stderr w ++ NOT_FOUND_MSG; w_stdout := w_stdout w |})).
  { cbn [main]. rewrite Hd, lift_Ok_bind, ensure_dirs_bind by done. cbn zeta.
    rewrite path_exists_bind. cbn [w_fs w_dirs]. rewrite Hf.
    replace (bool_decide (abs t ∈ _)) with false
    by (symmetry; apply bool_decide_eq_false, not_elem_of_union; split; [by apply not_elem_of_singleton|done]).
    replace (bool_decide (is_Some (@None pystr))) with false by (symmetry; apply bool_decide_eq_false; by intros [? ?]).
    cbn [orb]. rewrite (hugo_new_bind _ _ (<[abs t := skel]> (w_fs w))) by exact Hh.
    by rewrite (fetch_404_bind _ _ _ _ _ _ Hu Hg). }
  unfold run_main. rewrite H1. cbn [fst snd exit_code w_fs]. split; [done|]. split; [by rewrite lookup_insert_eq|].
  cbn [main]. rewrite Hd, lift_Ok_bind, ensure_dirs_bind by (cbn; by rewrite lookup_insert_ne by done).
  cbn zeta. rewrite path_exists_bind. cbn [w_fs w_dirs]. rewrite lookup_insert_eq. reflexivity.
Qed.
(** Reading the skeleton [hugo new] wrote. *)
Lemma read_skeleton (p skel text : pystr) (fs : fsys) (r : pyval * pystr) :
  utf8_decode_strict skel = Ok text -> read_front_matter_text yaml_load (universal_newlines text) = Ok r ->
  read_front_matter yaml_load p (<[p := skel]> fs) = Ok r.
Proof. intros Hdec Hr. unfold read_front_matter. rewrite lookup_insert_eq, Hdec. exact Hr. Qed.

(** The run up to [hugo new], on a fresh title: the content directory
    is made and the existence check passes. *)
Lemma main_pre_hugo (a t d doi : pystr) (w : world) :
  extract_doi d = Ok doi ->
  w_fs w !! abs t = None -> abs t ∉ w_dirs w -> w_fs w !! CONTENT_DIR site_root = None ->
  main' [a; t; d] w =
  (hugo_new hugo (rel_md_path t);;
   fetch_openalex_by_doi http_get doi ≫= λ meta,
     m ← lift (map_fields meta t doi); update_front_matter yaml_load yaml_dump now (abs t) t m;; print (abs t))
    {| w_fs := w_fs w; w_dirs := {[CONTENT_DIR site_root]} ∪ w_dirs w;
       w_stderr := w_stderr w; w_stdout := w_stdout w |}.
Proof.
  intros Hd Hf Hdir Hc. pose proof (abs_ne_content_dir site_root t) as Hne.
  cbn [main]. rewrite Hd, lift_Ok_bind, ensure_dirs_bind by done. cbn zeta.
  rewrite path_exists_bind. cbn [w_fs w_dirs]. rewrite Hf.
  replace (bool_decide (abs t ∈ _)) with false
    by (symmetry; apply bool_decide_eq_false, not_elem_of_union; split; [by apply not_elem_of_singleton|done]).
  by replace (bool_decide (is_Some (@None pystr))) with false by (symmetry; apply bool_decide_eq_false; by intros [? ?]).
Qed.

(** The run up to the fetch, on a fresh title, when [hugo new] creates
    the skeleton [skel]. *)
Lemma main_prefix_bind (a t d doi skel : pystr) (w : world) :
  extract_doi d = Ok doi ->
  w_fs w !! abs t = None -> abs t ∉ w_dirs w -> w_fs w !! CONTENT_DIR site_root = None ->
  hugo (rel_md_path t) (w_fs w) = Ok (0%Z, <[abs t := skel]> (w_fs w)) ->
  main' [a; t; d] w =
  (fetch_openalex_by_doi http_get doi ≫= λ meta,
     m ← lift (map_fields meta t doi); update_front_matter yaml_load yaml_dump now (abs t) t m;; print (abs t))
    {| w_fs := <[abs t := skel]> (w_fs w); w_dirs := {[CONTENT_DIR site_root]} ∪ w_dirs w;
       w_stderr := w_stderr w; w_stdout := w_stdout w |}.
Proof.
  intros Hd Hf Hdir Hc Hh. rewrite (main_pre_hugo a t d doi w) by done.
  by rewrite (hugo_new_bind _ _ (<[abs t := skel]> (w_fs w))) by exact Hh.
Qed.

(** C1: the end-to-end scenario of spec 8: for the response with title
    [Foo Bar], year 2021, venue [ACME Journal], two authors and three
    concepts, on a skeleton whose header loads as a mapping, the run
    exits with 0, prints the path, and the page holds the patched header
    with [article_title: Foo Bar], [article_venue: ACME Journal],
    [article_publication_year: 2021], [type: articles], the two authors
    in their order, and the body unchanged. *)
Theorem main_end_to_end (a t d doi url skel text body : pystr) (d0 : fm_dict) (w : world) :
  (forall v, Forall valid_cp (yaml_dump v)) ->
  extract_doi d = Ok doi -> openalex_url doi = Ok url -> http_get url = Ok (200%Z, Ok spec8_meta) ->
  w_fs w !! abs t = None -> abs t ∉ w_dirs w -> w_fs w !! CONTENT_DIR site_root = None ->
  hugo (rel_md_path t) (w_fs w) = Ok (0%Z, <[abs t := skel]> (w_fs w)) ->
  utf8_decode_strict skel = Ok text ->
  read_front_matter_text yaml_load (universal_newlines text) = Ok (PDict d0, body) ->
  exists d' bs, fst (run [a; t; d] w) = 0%Z /\
    utf8_encode (render_front_matter yaml_dump (PDict d') body) = Ok bs /\
    w_fs (snd (run [a; t; d] w)) !! abs t = Some bs /\
    w_stdout (snd (run [a; t; d] w)) = w_stdout w ++ abs t ++ [LF] /\
    fm_get (kstr "article_title") d' = Some (PStr (lit "Foo Bar")) /\
    fm_get (kstr "article_venue") d' = Some (PStr (lit "ACME Journal")) /\
    fm_get (kstr "article_publication_year") d' = Some (PInt 2021) /\
    fm_get (kstr "type") d' = Some (PStr (lit "articles")) /\
    fm_get (kstr "article_article_authors") d' = Some (PList [PStr (lit "Ann Author"); PStr (lit "Bob Writer")]) /\
    fm_get (kstr "title") d' = Some (PStr t).
Proof.
  intros Hdump Hd Hu Hg Hf Hdir Hc Hh Hdec Hr. unfold run_main.
  pose proof (read_skeleton (abs t) skel text (w_fs w) _ Hdec Hr) as Hread.
  pose proof (read_front_matter_body_valid yaml_load _ _ _ _ Hread) as Hbody.
  rewrite (main_prefix_bind a t d doi skel w Hd Hf Hdir Hc Hh).
  rewrite (fetch_ok_bind _ _ _ _ _ _ _ Hu Hg) by lia.
  rewrite map_fields_spec8, lift_Ok_bind.
  destruct (patch_front_matter (PDict d0) t now (spec8_fields doi)) as [fm'|e] eqn:Hp;
    [|unfold patch_front_matter in Hp; discriminate].
  pose proof (patch_dict _ _ _ _ _ Hp) as Hd'. cbn [mf_publication_year py_truthy] in Hd'.
  destruct Hd' as (y & [= <-] & ->).
  match goal with Hp : patch_front_matter _ _ _ _ = Ok (PDict ?D) |- _ =>
    destruct (utf8_valid_roundtrip (render_front_matter yaml_dump (PDict D) body)) as (bs & Hbs & _);
    [apply render_valid, Forall_app; split; [apply Hdump|done]|] end.
  rewrite io_bind_run. unfold update_front_matter. cbn [w_fs].
  rewrite Hread, Hp, (write_front_matter_ok _ _ _ _ _ _ Hbs). cbn [exit_code fst snd w_fs w_stdout set_fs print].
  eexists _, bs. split; [reflexivity|]. split; [exact Hbs|]. split; [by rewrite lookup_insert_eq|].
  split; [reflexivity|]. unfold year_key. get_through. repeat split.
Qed.
(** C14: a skeleton whose header does not load as a mapping (a TOML
    [+++] header, which [yaml.safe_load] reads as one plain string) makes
    [fm["title"] = ...] raise [TypeError]: the run exits with status 1
    and leaves the skeleton as [hugo new] wrote it. *)
Theorem main_non_mapping_header (a t d doi url skel text body : pystr) (meta fm : pyval) (m : mapped_fields)
    (status : Z) (w : world) :
  extract_doi d = Ok doi -> openalex_url doi = Ok url -> http_get url = Ok (status, Ok meta) ->
  status <> 404%Z -> ~ (400 <= status < 600)%Z -> map_fields meta t doi = Ok m ->
  w_fs w !! abs t = None -> abs t ∉ w_dirs w -> w_fs w !! CONTENT_DIR site_root = None ->
  hugo (rel_md_path t) (w_fs w) = Ok (0%Z, <[abs t := skel]> (w_fs w)) ->
  utf8_decode_strict skel = Ok text ->
  read_front_matter_text yaml_load (universal_newlines text) = Ok (fm, body) ->
  (forall d', fm <> PDict d') ->
  fst (run [a; t; d] w) = 1%Z /\ w_fs (snd (run [a; t; d] w)) !! abs t = Some skel.
Proof.
  intros Hd Hu Hg H404 H4xx Hm Hf Hdir Hc Hh Hdec Hr Hfm. unfold run_main.
  pose proof (read_skeleton (abs t) skel text (w_fs w) _ Hdec Hr) as Hread.
  rewrite (main_prefix_bind a t d doi skel w Hd Hf Hdir Hc Hh).
  rewrite (fetch_ok_bind _ _ _ _ _ _ _ Hu Hg H404 H4xx), Hm, lift_Ok_bind.
  assert (Hp : patch_front_matter fm t now m = Err TypeError) by (destruct fm; try done; by destruct (Hfm d0)).
  rewrite io_bind_run. unfold update_front_matter. cbn [w_fs].
  rewrite Hread, Hp. cbn [exit_code fst snd w_fs]. split; [done|]. by rewrite lookup_insert_eq.
Qed.
(** C39: a skeleton that is not valid UTF-8 (an archetype saved in
    Latin-1, say) makes [open(path, encoding="utf-8").read()] raise
    [UnicodeDecodeError]: the run exits with status 1 without printing
    the path, and the skeleton stays on disk as [hugo new] wrote it. *)
Theorem main_undecodable_skeleton (a t d doi url skel : pystr) (meta : pyval) (m : mapped_fields)
    (status : Z) (w : world) :
  extract_doi d = Ok doi -> openalex_url doi = Ok url -> http_get url = Ok (status, Ok meta) ->
  status <> 404%Z -> ~ (400 <= status < 600)%Z -> map_fields meta t doi = Ok m ->
  w_fs w !! abs t = None -> abs t ∉ w_dirs w -> w_fs w !! CONTENT_DIR site_root = None ->
  hugo (rel_md_path t) (w_fs w) = Ok (0%Z, <[abs t := skel]> (w_fs w)) ->
  (forall text, utf8_decode_strict skel <> Ok text) ->
  fst (main' [a; t; d] w) = Err UnicodeDecodeError /\ fst (run [a; t; d] w) = 1%Z /\
  w_fs (snd (run [a; t; d] w)) !! abs t = Some skel /\ w_stdout (snd (run [a; t; d] w)) = w_stdout w.
Proof.
  intros Hd Hu Hg H404 H4xx Hm Hf Hdir Hc Hh Hbad.
  destruct (utf8_decode_strict skel) as [text|e] eqn:Hdec; [by destruct (Hbad text)|].
  pose proof (utf8_decode_Err _ _ Hdec) as ->.
  assert (Hread : read_front_matter yaml_load (abs t) (<[abs t := skel]> (w_fs w)) = Err UnicodeDecodeError)
    by (unfold read_front_matter; by rewrite lookup_insert_eq, Hdec).
  unfold run_main. rewrite (main_prefix_bind a t d doi skel w Hd Hf Hdir Hc Hh).
  rewrite (fetch_ok_bind _ _ _ _ _ _ _ Hu Hg H404 H4xx), Hm, lift_Ok_bind.
  rewrite io_bind_run. unfold update_front_matter. cbn [w_fs]. rewrite Hread.
  cbn [exit_code fst snd w_fs w_stdout]. split_and!; [done|done|by rewrite lookup_insert_eq|done].
Qed.

(** C7: no incomplete page: on a fresh title, with a dumper whose text
    is valid (PyYAML escapes lone surrogates), once the header is read
    and patched, for any response the run exits with 0, prints the
    path, and the file system is the one before the run with the page
    added, holding the UTF-8 bytes of the whole patched front matter
    and the body: the skeleton is never left half rewritten. *)
Theorem main_page_complete (a t d doi url skel text body : pystr) (status : Z) (meta fm fm' : pyval)
    (m : mapped_fields) (w : world) :
  (forall v, Forall valid_cp (yaml_dump v)) ->
  extract_doi d = Ok doi -> openalex_url doi = Ok url -> http_get url = Ok (status, Ok meta) ->
  status <> 404%Z -> ~ (400 <= status < 600)%Z -> map_fields meta t doi = Ok m ->
  w_fs w !! abs t = None -> abs t ∉ w_dirs w -> w_fs w !! CONTENT_DIR site_root = None ->
  hugo (rel_md_path t) (w_fs w) = Ok (0%Z, <[abs t := skel]> (w_fs w)) ->
  utf8_decode_strict skel = Ok text ->
  read_front_matter_text yaml_load (universal_newlines text) = Ok (fm, body) ->
  patch_front_matter fm t now m = Ok fm' ->
  exists bs, utf8_encode (render_front_matter yaml_dump fm' body) = Ok bs /\
    fst (run [a; t; d] w) = 0%Z /\ w_fs (snd (run [a; t; d] w)) = <[abs t := bs]> (w_fs w) /\
    w_stdout (snd (run [a; t; d] w)) = w_stdout w ++ abs t ++ [LF] /\
    w_stderr (snd (run [a; t; d] w)) = w_stderr w.
Proof.
  intros Hdump Hd Hu Hg H404 H4xx Hm Hf Hdir Hc Hh Hdec Hr Hp.
  pose proof (read_skeleton (abs t) skel text (w_fs w) _ Hdec Hr) as Hread.
  pose proof (read_front_matter_body_valid yaml_load _ _ _ _ Hread) as Hbody.
  destruct (utf8_valid_roundtrip (render_front_matter yaml_dump fm' body)) as (bs & Hbs & _);
    [apply render_valid, Forall_app; split; [apply Hdump|done]|].
  exists bs. split; [exact Hbs|]. unfold run_main.
  rewrite (main_prefix_bind a t d doi skel w Hd Hf Hdir Hc Hh).
  rewrite (fetch_ok_bind _ _ _ _ _ _ _ Hu Hg H404 H4xx), Hm, lift_Ok_bind.
  rewrite io_bind_run. unfold update_front_matter. cbn [w_fs].
  rewrite Hread, Hp, (write_front_matter_ok _ _ _ _ _ _ Hbs).
  cbn [exit_code fst snd w_fs w_stdout w_stderr set_fs print]. by rewrite insert_insert_eq.
Qed.



(** C35: the existence check (spec 7 (c)): when the page path is taken
    by a file or a directory, the run writes [File exists: <path>] to
    stderr and exits with 3 before [hugo new]: the file system is
    unchanged and nothing is printed. *)
Theorem main_page_exists (a t d doi : pystr) (w : world) :
  extract_doi d = Ok doi -> w_fs w !! CONTENT_DIR site_root = None ->
  is_Some (w_fs w !! abs t) \/ abs t ∈ w_dirs w ->
  fst (run [a; t; d] w) = 3%Z /\ w_fs (snd (run [a; t; d] w)) = w_fs w /\
  w_stderr (snd (run [a; t; d] w)) = w_stderr w ++ lit "File exists: " ++ abs t ++ [LF] /\
  w_stdout (snd (run [a; t; d] w)) = w_stdout w.
Proof.
  intros Hd Hc Hex. unfold run_main. cbn [main].
  rewrite Hd, lift_Ok_bind, ensure_dirs_bind by done. cbn zeta.
  rewrite path_exists_bind. cbn [w_fs w_dirs].
  replace (bool_decide (is_Some (w_fs w !! abs t)) || bool_decide (abs t ∈ _)) with true.
  { rewrite write_stderr_bind. by split_and!. }
  symmetry. apply orb_true_iff. destruct Hex as [Hex|Hex]; [left|right]; apply bool_decide_eq_true_2; [done|].
  by apply elem_of_union_r.
Qed.

End MainRun.

(** ** Witnesses: a concrete environment, with the ASCII database *)

Definition ex_root : pystr := lit "/site".
Definition ex_skel : pystr := lit "---" ++ [LF] ++ lit "draft: true" ++ [LF] ++ lit "---" ++ [LF].
Definition ex_toml_skel : pystr := lit "+++" ++ [LF] ++ lit "title = 'x'" ++ [LF] ++ lit "+++" ++ [LF].

(** [yaml.safe_load] on the two headers above. *)
Definition ex_load (s : pystr) : result pyval :=
  if bool_decide (s = lit "title = 'x'" ++ [LF]) then Ok (PStr (lit "title = 'x'"))
  else Ok (PDict [(kstr "draft", PBool true)]).
Definition ex_dump (v : pyval) : pystr := [].

(** [hugo new] writes the archetype, and fails on an existing page. *)
Definition ex_hugo (skel rel : pystr) (fs : fsys) : result (Z * fsys) :=
  let p := path_join (path_join ex_root (lit "content")) rel in
  match fs !! p with Some _ => Ok (1%Z, fs) | None => Ok (0%Z, <[p := skel]> fs) end.

Definition ex_http (status : Z) (url : pystr) : result (Z * result pyval) := Ok (status, Ok spec8_meta).
Definition ex_world (fs : fsys) : world := {| w_fs := fs; w_dirs := ∅; w_stderr := []; w_stdout := [] |}.
Definition ex_argv : list pystr := [lit "openalex_to_hugo.py"; lit "Foo Bar"; lit "https://doi.org/10.1/xyz"].
Definition ex_doi : pystr := lit "10.1/xyz".
Definition ex_url : pystr := lit "https://api.openalex.org/works/doi:10.1%2Fxyz".

Lemma ex_hugo_keeps (skel : pystr) : forall rel fs rc fs',
  ex_hugo skel rel fs = Ok (rc, fs') -> forall q, is_Some (fs !! q) -> fs' !! q = fs !! q.
Proof.
  intros rel fs rc fs'. unfold ex_hugo. destruct (fs !! _) eqn:E; intros [= <- <-] q Hq; [done|].
  rewrite lookup_insert_ne; [done|]. intros <-. rewrite E in Hq. by destruct Hq.
Qed.

Lemma main_usage_witness :
  fst (run_main ex_load ex_dump ex_root (ex_hugo ex_skel) (ex_http 200) (lit "now") [] (ex_world ∅)) = 2%Z.
Proof. rewrite main_usage; [reflexivity|discriminate]. Defined.

Lemma main_keeps_existing_witness :
  w_fs (snd (run_main ex_load ex_dump ex_root (ex_hugo ex_skel) (ex_http 200) (lit "now") ex_argv
          (ex_world {[lit "/site/content/articles/foo-bar.md" := lit "mine"]})))
    !! lit "/site/content/articles/foo-bar.md" = Some (lit "mine").
Proof.
  rewrite main_keeps_existing; [reflexivity|apply ex_hugo_keeps|]. eexists. reflexivity.
Defined.

Lemma main_404_rerun_witness :
  fst (run_main ex_load ex_dump ex_root (ex_hugo ex_skel) (ex_http 404) (lit "now") ex_argv (ex_world ∅)) = 2%Z.
Proof.
  destruct (main_404_rerun ex_load ex_dump ex_root (ex_hugo ex_skel) (ex_http 404) (lit "now")
              (lit "openalex_to_hugo.py") (lit "Foo Bar") (lit "https://doi.org/10.1/xyz")
              ex_doi ex_url ex_skel (Ok spec8_meta) (ex_world ∅))
    as [H0 _]; first [exact H0 | vm_compute; reflexivity | apply not_elem_of_empty].
Defined.

Lemma main_end_to_end_witness :
  fst (run_main ex_load ex_dump ex_root (ex_hugo ex_skel) (ex_http 200) (lit "now") ex_argv (ex_world ∅)) = 0%Z.
Proof.
  destruct (main_end_to_end ex_load ex_dump ex_root (ex_hugo ex_skel) (ex_http 200) (lit "now")
              (lit "openalex_to_hugo.py") (lit "Foo Bar") (lit "https://doi.org/10.1/xyz")
              ex_doi ex_url ex_skel ex_skel [] [(kstr "draft", PBool true)] (ex_world ∅))
    as (d' & bs & H0 & _); first [exact H0 | vm_compute; reflexivity | apply not_elem_of_empty
                                 | intros; unfold ex_dump; constructor].
Defined.

Lemma main_non_mapping_header_witness :
  fst (run_main ex_load ex_dump ex_root (ex_hugo ex_toml_skel) (ex_http 200) (lit "now") ex_argv (ex_world ∅)) = 1%Z.
Proof.
  destruct (main_non_mapping_header ex_load ex_dump ex_root (ex_hugo ex_toml_skel) (ex_http 200) (lit "now")
              (lit "openalex_to_hugo.py") (lit "Foo Bar") (lit "https://doi.org/10.1/xyz")
              ex_doi ex_url ex_toml_skel ex_toml_skel [] spec8_meta (PStr (lit "title = 'x'")) (spec8_fields ex_doi) 200 (ex_world ∅))
    as [H0 _]; first [exact H0 | vm_compute; reflexivity | apply not_elem_of_empty | discriminate | lia].
Defined.

(** A skeleton with a Latin-1 byte ([0xE9], an e with acute accent). *)
Definition ex_latin1_skel : pystr := lit "---" ++ [LF] ++ lit "title: caf" ++ [0xE9] ++ [LF] ++ lit "---" ++ [LF].

Lemma main_undecodable_skeleton_witness :
  fst (run_main ex_load ex_dump ex_root (ex_hugo ex_latin1_skel) (ex_http 200) (lit "now") ex_argv (ex_world ∅)) = 1%Z /\
  w_fs (snd (run_main ex_load ex_dump ex_root (ex_hugo ex_latin1_skel) (ex_http 200) (lit "now") ex_argv (ex_world ∅)))
    !! lit "/site/content/articles/foo-bar.md" = Some ex_latin1_skel.
Proof.
  destruct (main_undecodable_skeleton ex_load ex_dump ex_root (ex_hugo ex_latin1_skel) (ex_http 200) (lit "now")
              (lit "openalex_to_hugo.py") (lit "Foo Bar") (lit "https://doi.org/10.1/xyz")
              ex_doi ex_url ex_latin1_skel spec8_meta (spec8_fields ex_doi) 200 (ex_world ∅))
    as (_ & H1 & H2 & _);
    first [split; [exact H1 | exact H2] | vm_compute; reflexivity | apply not_elem_of_empty | discriminate | lia
          | intros text Hdec; vm_compute in Hdec; discriminate Hdec].
Defined.


Definition ex_patched : pyval :=
  match patch_front_matter (PDict [(kstr "draft", PBool true)]) (lit "Foo Bar") (lit "now") (spec8_fields ex_doi) with
  | Ok v => v | Err _ => PNone end.

Lemma main_page_complete_witness :
  fst (run_main ex_load ex_dump ex_root (ex_hugo ex_skel) (ex_http 200) (lit "now") ex_argv (ex_world ∅)) = 0%Z.
Proof.
  destruct (main_page_complete ex_load ex_dump ex_root (ex_hugo ex_skel) (ex_http 200) (lit "now")
              (lit "openalex_to_hugo.py") (lit "Foo Bar") (lit "https://doi.org/10.1/xyz")
              ex_doi ex_url ex_skel ex_skel [] 200 spec8_meta (PDict [(kstr "draft", PBool true)]) ex_patched
              (spec8_fields ex_doi) (ex_world ∅))
    as (bs & _ & H0 & _);
    first [exact H0 | vm_compute; reflexivity | apply not_elem_of_empty | discriminate | lia
          | intros; unfold ex_dump; constructor].
Defined.




Lemma main_page_exists_witness :
  fst (run_main ex_load ex_dump ex_root (ex_hugo ex_skel) (ex_http 200) (lit "now") ex_argv
         (ex_world {[lit "/site/content/articles/foo-bar.md" := lit "mine"]})) = 3%Z.
Proof.
  destruct (main_page_exists ex_load ex_dump ex_root (ex_hugo ex_skel) (ex_http 200) (lit "now")
              (lit "openalex_to_hugo.py") (lit "Foo Bar") (lit "https://doi.org/10.1/xyz")
              ex_doi (ex_world {[lit "/site/content/articles/foo-bar.md" := lit "mine"]}))
    as [H3 _]; first [exact H3 | vm_compute; reflexivity | left; eexists; vm_compute; reflexivity].
Defined.

