(* ===== verification/Script.v ===== *)
(** * The script as a program (openalex_to_hugo.py, lines 4-12 and 185-186)

    Running [python .../openalex_to_hugo.py ARGS] executes the module
    body, then [main()] (the [__name__ == "__main__"] guard of lines
    185-186):
    - lines 4-9, the import guard: [import requests] and [import yaml];
      when either raises [ImportError] the script writes
      [pip install requests PyYAML] to stderr and exits with status 1
      ([import_guard]; [importable] says which imports succeed);
    - line 11, [SITE_ROOT = dirname(dirname(abspath(__file__)))] in the
      working directory [cwd] ([SITE_ROOT], with [PosixPath]);
    - line 12, [CONTENT_DIR] ([Main.CONTENT_DIR] of that root);
    - lines 185-186, [main()] ([Main.main] with that root).

    Theorems: where the script file lies decides [SITE_ROOT] (two
    directories up from it, after normalisation) and the page path (a
    normal path under [SITE_ROOT/content/articles]); without one of the
    two libraries the run exits 1 with the pip hint and changes nothing
    else; and with them the run is [main]'s run on that [SITE_ROOT]. *)

From stdpp Require Import base list decidable gmap.
From Stdlib Require Import NArith ZArith Lia.
From S2P Require Import Prelude PyStr PyVal Slugify FrontMatter FieldMapper PosixPath Main.

(** Line 8. *)
Definition PIP_MSG : pystr := lit "pip install requests PyYAML" ++ [LF].

(** Lines 4-9: [try: import requests; import yaml
    except ImportError: sys.stderr.write(...); sys.exit(1)]. *)
Definition import_guard (importable : pystr -> bool) : io unit :=
  if importable (lit "requests") && importable (lit "yaml") then mret tt
  else (write_stderr PIP_MSG;; sys_exit 1).

(** Line 11. *)
Definition SITE_ROOT (cwd file : pystr) : pystr := dirname (dirname (abspath cwd file)).

Section Script.
Context `{UnicodeDB}.
Variable yaml_load : pystr -> result pyval.
Variable yaml_dump : pyval -> pystr.
Variable hugo : pystr -> fsys -> result (Z * fsys).
Variable http_get : pystr -> result (Z * result pyval).
Variable now : pystr.
(** Whether [import name] succeeds. *)
Variable importable : pystr -> bool.
(** [os.getcwd()] and [__file__]. *)
Variable cwd file : pystr.

(** Lines 4-12 and 185-186. *)
Definition script (argv : list pystr) : io unit :=
  import_guard importable;;
  main yaml_load yaml_dump (SITE_ROOT cwd file) hugo http_get now argv.

Definition run_script (argv : list pystr) (w : world) : Z * world :=
  let '(r, w') := script argv w in (exit_code r, w').
End Script.

(** ** Lemmas *)

#[export] Instance comp_ok_dec (c : pystr) : Decision (comp_ok c).
Proof. unfold comp_ok. apply _. Defined.

Lemma comp_ok_slug_md `{UnicodeDB} (t : pystr) : comp_ok (slugify t ++ lit ".md").
Proof.
  destruct (slugify_no_slash t) as [Hne Hno]. split_and!.
  - by destruct (slugify t).
  - destruct (slugify t) as [|c [|d r]]; [done| |]; discriminate.
  - rewrite list_elem_of_In, in_app_iff. intros [?|Hin]; [done|]. revert Hin. not_in_closed.
Qed.

(** [SITE_ROOT] is two directories up from the normalised script path. *)
Lemma site_root_render (cwd file : pystr) (rs : list pystr) (a b : pystr) :
  Forall comp_ok (rs ++ [a; b]) -> abspath cwd file = render 1 (rs ++ [a; b]) ->
  SITE_ROOT cwd file = render 1 rs.
Proof.
  intros Hok Habs. unfold SITE_ROOT. rewrite Habs.
  replace (rs ++ [a; b]) with ((rs ++ [a]) ++ [b]) in * by (by rewrite <- app_assoc).
  rewrite dirname_render by done. apply Forall_app in Hok as [Hok _]. by apply dirname_render.
Qed.

(** ** Theorems *)

(** C36: Where the script lies decides where the page goes: when
    [abspath(__file__)] is the normal absolute path [rs/a/b] (the script
    [b] in directory [a]), [SITE_ROOT] is [rs], and the page path of
    lines 139-140 is the normal absolute path
    [rs/content/articles/<slug>.md]. *)
Theorem script_page_path `{UnicodeDB} (cwd file t : pystr) (rs : list pystr) (a b : pystr) :
  Forall comp_ok (rs ++ [a; b]) -> abspath cwd file = render 1 (rs ++ [a; b]) ->
  SITE_ROOT cwd file = render 1 rs /\
  abs_md_path (SITE_ROOT cwd file) t =
    render 1 (rs ++ [lit "content"; lit "articles"; slugify t ++ lit ".md"]).
Proof.
  intros Hok Habs. rewrite (site_root_render cwd file rs a b) by done. split; [done|].
  apply Forall_app in Hok as [Hrs _].
  assert (Hc : comp_ok (lit "content")) by (apply (bool_decide_unpack _); vm_compute; reflexivity).
  assert (Ha : comp_ok (lit "articles")) by (apply (bool_decide_unpack _); vm_compute; reflexivity).
  unfold abs_md_path, rel_md_path.
  replace (path_join (render 1 rs) (lit "content"))
    with (path_join (render 1 rs) (join_on SLASH [lit "content"])) by reflexivity.
  rewrite (path_join_render rs [lit "content"]); [|done|by apply Forall_singleton|done].
  rewrite (path_join_rel (lit "articles") _ (slug_md_head t)).
  change (path_prefix (lit "articles") ++ slugify t ++ lit ".md")
    with (join_on SLASH [lit "articles"; slugify t ++ lit ".md"]).
  rewrite path_join_render; [by rewrite <- app_assoc| | |done].
  - apply Forall_app. split; [done|]. by apply Forall_singleton.
  - apply List.Forall_cons; [done|]. apply Forall_singleton, comp_ok_slug_md.
Qed.

(** C37: Without [requests] or [yaml] the run writes the pip hint to
    stderr and exits with status 1, before [main]: the file system, the
    directories and stdout are unchanged, whatever the arguments. *)
Theorem script_missing_module `{UnicodeDB} yaml_load yaml_dump hugo http_get now
    (importable : pystr -> bool) (cwd file : pystr) (argv : list pystr) (w : world) :
  importable (lit "requests") = false \/ importable (lit "yaml") = false ->
  run_script yaml_load yaml_dump hugo http_get now importable cwd file argv w =
    (1%Z, {| w_fs := w_fs w; w_dirs := w_dirs w; w_stderr := w_stderr w ++ PIP_MSG;
             w_stdout := w_stdout w |}).
Proof.
  intros Hmiss. unfold run_script, script, import_guard.
  assert (Hg : (importable (lit "requests") && importable (lit "yaml")) = false)
    by (destruct Hmiss as [-> | ->]; [done | apply andb_false_r]).
  rewrite Hg. reflexivity.
Qed.

(** ** Witnesses *)

Definition ex_cwd : pystr := lit "/home/u/repo".
Definition ex_file : pystr := lit "src/scripts/openalex_to_hugo.py".
Definition ex_rs : list pystr := [lit "home"; lit "u"; lit "repo"; lit "src"].

Lemma script_page_path_witness :
  Forall comp_ok (ex_rs ++ [lit "scripts"; lit "openalex_to_hugo.py"]) /\
  abspath ex_cwd ex_file = render 1 (ex_rs ++ [lit "scripts"; lit "openalex_to_hugo.py"]) /\
  SITE_ROOT ex_cwd ex_file = lit "/home/u/repo/src" /\
  abs_md_path (SITE_ROOT ex_cwd ex_file) (lit "Foo Bar") = lit "/home/u/repo/src/content/articles/foo-bar.md".
Proof.
  assert (H1 : Forall comp_ok (ex_rs ++ [lit "scripts"; lit "openalex_to_hugo.py"]))
    by (apply (bool_decide_unpack _); vm_compute; reflexivity).
  assert (H2 : abspath ex_cwd ex_file = render 1 (ex_rs ++ [lit "scripts"; lit "openalex_to_hugo.py"]))
    by (vm_compute; reflexivity).
  destruct (script_page_path ex_cwd ex_file (lit "Foo Bar") ex_rs _ _ H1 H2) as [E1 E2].
  split_and!; [exact H1 | exact H2 | rewrite E1; vm_compute; reflexivity | rewrite E2; vm_compute; reflexivity].
Defined.

Lemma script_missing_module_witness :
  fst (run_script ex_load ex_dump (ex_hugo ex_skel) (ex_http 200) (lit "now")
         (fun m => bool_decide (m = lit "yaml")) ex_cwd ex_file ex_argv (ex_world ∅)) = 1%Z /\
  w_stderr (snd (run_script ex_load ex_dump (ex_hugo ex_skel) (ex_http 200) (lit "now")
         (fun m => bool_decide (m = lit "yaml")) ex_cwd ex_file ex_argv (ex_world ∅))) = PIP_MSG.
Proof.
  rewrite script_missing_module; [split; reflexivity | left; reflexivity].
Defined.
