(* ===== verification/ExitStatus.v ===== *)
(** * Exit statuses of a run (openalex_to_hugo.py, lines 8-9, 34-36,
    128-130, 142-144 and the interpreter's handling of an uncaught
    exception)

    A run ends with [sys.exit(n)] (the [SystemExit n] exception), with
    another uncaught exception (status 1), or normally (status 0).  The
    script calls [sys.exit] with 1 (missing library), 2 (usage, or 404)
    and 3 (existing page) only.  [no_exit r] says a computation of the
    model never raises [SystemExit]; [io_exits P c] says every
    [SystemExit n] that [c] raises has [P n].  Both are carried through
    every function [main] calls; the YAML library, [hugo] and the HTTP
    client are assumed not to call [sys.exit] themselves.

    The theorem: every run of the script exits with status 0, 1, 2 or 3;
    in particular a failing [hugo new] ([CalledProcessError]) or an HTTP
    error exits with 1, not with the code of the failure. *)

From stdpp Require Import base list decidable gmap.
From Stdlib Require Import NArith ZArith Lia.
From S2P Require Import Prelude PyStr Utf8 PyVal ExtractDoi FrontMatter Merge FieldMapper Url PosixPath Main Script.

(** ** Results that never raise [SystemExit] *)

Definition no_exit {A} (r : result A) : Prop := forall n, r <> Err (SystemExit n).

Definition not_exit (e : pyexc) : bool := match e with SystemExit _ => false | _ => true end.

Lemma no_exit_Ok {A} (a : A) : no_exit (Ok a).
Proof. by intros n. Qed.

Lemma no_exit_raise {A} (e : pyexc) : not_exit e = true -> no_exit (raise (A:=A) e).
Proof. intros He n [= ->]. discriminate. Qed.

Lemma no_exit_bind {A B} (r : result A) (f : A -> result B) :
  no_exit r -> (forall a, no_exit (f a)) -> no_exit (r ≫= f).
Proof. intros Hr Hf n. destruct r as [a|e]; [apply Hf|]. intros [= ->]. by apply (Hr n). Qed.

Lemma no_exit_fmap {A B} (r : result A) (f : A -> B) : no_exit r -> no_exit (f <$> r).
Proof. intros Hr n. destruct r as [a|e]; [done|]. intros [= ->]. by apply (Hr n). Qed.

Lemma no_exit_mapR {A B} (f : A -> result B) (l : list A) :
  (forall x, no_exit (f x)) -> no_exit (mapR f l).
Proof.
  intros Hf. induction l as [|x l IH]; simpl; [apply no_exit_Ok|].
  apply no_exit_bind; [done|]. intros b. apply no_exit_bind; [done|]. intros bs. apply no_exit_Ok.
Qed.

Create HintDb exitdb discriminated.
#[export] Hint Resolve no_exit_Ok no_exit_mapR no_exit_fmap : exitdb.
#[export] Hint Extern 1 (no_exit (raise _)) => apply no_exit_raise; reflexivity : exitdb.

(** The codec raises only [UnicodeDecodeError] and [UnicodeEncodeError]. *)
Lemma no_exit_utf8_decode_strict (bs : list N) : no_exit (utf8_decode_strict bs).
Proof. intros n Hd. apply utf8_decode_Err in Hd. discriminate. Qed.
Lemma no_exit_utf8_encode (s : pystr) : no_exit (utf8_encode s).
Proof. intros n Hd. apply utf8_encode_Err in Hd as [? _]. discriminate. Qed.
#[export] Hint Resolve no_exit_utf8_decode_strict no_exit_utf8_encode : exitdb.

(** Writing the chunks fails only as the encoder does. *)
Lemma no_exit_write_chunks (written : list N) (ts : list pystr) : no_exit (snd (write_chunks written ts)).
Proof.
  revert written. induction ts as [|t ts IH]; intros written; simpl; [apply no_exit_Ok|].
  pose proof (no_exit_utf8_encode t) as He. destruct (utf8_encode t); [apply IH|].
  intros n [= ->]. by apply (He n).
Qed.

(** Goals [no_exit e] for a term built from binds, matches, tests and
    the lemmas of [exitdb]. *)
Ltac no_exit_tac :=
  repeat match goal with
  | |- no_exit (mbind _ _) => apply no_exit_bind; [|intros ?]
  | |- no_exit (mapR _ _) => apply no_exit_mapR; intros ?
  | |- no_exit (match ?x with _ => _ end) => destruct x
  | |- no_exit (if ?b then _ else _) => destruct b
  | |- no_exit _ => solve [eauto with exitdb]
  | |- no_exit _ => progress (cbn beta iota zeta)
  end.

Section Pure.
Context `{UnicodeDB}.

Lemma no_exit_py_split1 (s sep : pystr) : no_exit (py_split1 s sep).
Proof. unfold py_split1. no_exit_tac. Qed.
Lemma no_exit_py_index {A} (l : list A) (i : nat) : no_exit (py_index l i).
Proof. unfold py_index. no_exit_tac. Qed.
#[local] Hint Resolve no_exit_py_split1 no_exit_py_index : exitdb.

Lemma no_exit_extract_doi (s : pystr) : no_exit (extract_doi s).
Proof. unfold extract_doi. no_exit_tac. Qed.

Lemma no_exit_digits_go (acc : Z) (after : bool) (s : pystr) : no_exit (digits_go acc after s).
Proof. revert acc after. induction s as [|c r IH]; intros acc after; simpl; no_exit_tac. Qed.
#[local] Hint Resolve no_exit_digits_go : exitdb.

Lemma no_exit_py_int (v : pyval) : no_exit (py_int v).
Proof. unfold py_int, int_of_str. no_exit_tac. Qed.

Lemma no_exit_utf8_encode_cp (c : N) : no_exit (utf8_encode_cp c).
Proof. unfold utf8_encode_cp. no_exit_tac. Qed.
#[local] Hint Resolve no_exit_utf8_encode_cp : exitdb.

Lemma no_exit_openalex_url (doi : pystr) : no_exit (openalex_url doi).
Proof. unfold openalex_url, py_quote. no_exit_tac. Qed.

Lemma no_exit_py_get (v : pyval) (k : pykey) : no_exit (py_get v k).
Proof. unfold py_get. no_exit_tac. Qed.
Lemma no_exit_py_getitem (v : pyval) (k : pykey) : no_exit (py_getitem v k).
Proof. unfold py_getitem. no_exit_tac. Qed.
Lemma no_exit_py_iter (v : pyval) : no_exit (py_iter v).
Proof. unfold py_iter. no_exit_tac. Qed.
#[local] Hint Resolve no_exit_py_get no_exit_py_getitem no_exit_py_iter : exitdb.

Lemma no_exit_authors_go (l : list pyval) : no_exit (authors_go l).
Proof. induction l as [|a l IH]; simpl; no_exit_tac. Qed.
#[local] Hint Resolve no_exit_authors_go : exitdb.

Lemma no_exit_sort_by_score (ks : list (skey * pyval)) : no_exit (sort_by_score ks).
Proof. unfold sort_by_score. no_exit_tac. Qed.
#[local] Hint Resolve no_exit_sort_by_score : exitdb.

Lemma no_exit_map_fields (meta : pyval) (t doi : pystr) : no_exit (map_fields meta t doi).
Proof. unfold map_fields, pick_venue, pick_authors, pick_topics. no_exit_tac. Qed.

Lemma no_exit_patch (fm : pyval) (t now : pystr) (m : mapped_fields) :
  no_exit (patch_front_matter fm t now m).
Proof. unfold patch_front_matter. no_exit_tac. apply no_exit_py_int. Qed.

Variable yaml_load : pystr -> result pyval.
Hypothesis yaml_no_exit : forall s, no_exit (yaml_load s).

Lemma no_exit_read_front_matter (path : pystr) (fs : fsys) : no_exit (read_front_matter yaml_load path fs).
Proof. unfold read_front_matter, read_front_matter_text, read_header. no_exit_tac. Qed.
End Pure.

(** ** Runs whose [SystemExit] codes satisfy [P] *)

Definition exit_ok {A} (P : Z -> Prop) (r : result A) : Prop :=
  match r with Err (SystemExit n) => P n | _ => True end.

Definition io_exits {A} (P : Z -> Prop) (c : io A) : Prop := forall w, exit_ok P (fst (c w)).

Lemma no_exit_exit_ok {A} (P : Z -> Prop) (r : result A) : no_exit r -> exit_ok P r.
Proof. destruct r as [|e]; [done|]. intros Hr. destruct e; try done. by destruct (Hr code). Qed.

(** An exception propagated from a computation of another type. *)
Lemma exit_ok_Err {A B} (P : Z -> Prop) (e : pyexc) : no_exit (Err (A:=A) e) -> exit_ok (A:=B) P (Err e).
Proof. intros He. destruct e; try done. by destruct (He code). Qed.

Lemma io_exits_bind {A B} (P : Z -> Prop) (c : io A) (f : A -> io B) :
  io_exits P c -> (forall a, io_exits P (f a)) -> io_exits P (c ≫= f).
Proof.
  intros Hc Hf w. rewrite io_bind_run. specialize (Hc w).
  destruct (c w) as [[a|e] w'] eqn:E; simpl in *; [apply Hf|done].
Qed.

(** A bind on a lifted result, knowing which value it produced. *)
Lemma io_exits_lift_bind {A B} (P : Z -> Prop) (r : result A) (f : A -> io B) :
  no_exit r -> (forall a, r = Ok a -> io_exits P (f a)) -> io_exits P (lift r ≫= f).
Proof.
  intros Hr Hf w. rewrite io_bind_run. unfold lift.
  destruct r as [a|e] eqn:E; [by apply Hf|]. by apply (exit_ok_Err (A:=A)).
Qed.

Lemma io_exits_lift {A} (P : Z -> Prop) (r : result A) : no_exit r -> io_exits P (lift r).
Proof. intros Hr w. by apply no_exit_exit_ok. Qed.

Lemma io_exits_sys_exit {A} (P : Z -> Prop) (n : Z) : P n -> io_exits P (sys_exit (A:=A) n).
Proof. intros Hn w. exact Hn. Qed.

Lemma io_exits_throw {A} (P : Z -> Prop) (e : pyexc) : not_exit e = true -> io_exits P (throw (A:=A) e).
Proof. by destruct e. Qed.

Lemma io_exits_ret {A} (P : Z -> Prop) (a : A) : io_exits P (mret a).
Proof. done. Qed.
Lemma io_exits_write_stderr (P : Z -> Prop) (s : pystr) : io_exits P (write_stderr s).
Proof. done. Qed.
Lemma io_exits_print (P : Z -> Prop) (s : pystr) : io_exits P (print s).
Proof. done. Qed.
Lemma io_exits_path_exists (P : Z -> Prop) (p : pystr) : io_exits P (path_exists p).
Proof. done. Qed.
Lemma io_exits_ensure_dirs (P : Z -> Prop) (root : pystr) : io_exits P (ensure_dirs root).
Proof. intros w. unfold ensure_dirs. by destruct (bool_decide _). Qed.

#[export] Hint Resolve io_exits_ret io_exits_write_stderr io_exits_print io_exits_path_exists
  io_exits_ensure_dirs io_exits_sys_exit : exitdb.
#[export] Hint Extern 1 (io_exits _ (throw _)) => apply io_exits_throw; reflexivity : exitdb.

Ltac io_exits_tac :=
  repeat match goal with
  | |- io_exits _ (mbind _ _) => apply io_exits_bind; [|intros ?]
  | |- io_exits _ (if ?b then _ else _) => destruct b
  | |- io_exits _ _ => solve [eauto with exitdb]
  end.

Section Run.
Context `{UnicodeDB}.
Variable yaml_load : pystr -> result pyval.
Variable yaml_dump : pyval -> pystr.
Variable hugo : pystr -> fsys -> result (Z * fsys).
Variable http_get : pystr -> result (Z * result pyval).
Variable now : pystr.
(** The libraries and [hugo] do not raise [SystemExit]. *)
Hypothesis yaml_no_exit : forall s, no_exit (yaml_load s).
Hypothesis hugo_no_exit : forall rel fs, no_exit (hugo rel fs).
Hypothesis http_no_exit : forall url, no_exit (http_get url).
Hypothesis json_no_exit : forall url st j, http_get url = Ok (st, j) -> no_exit j.

Lemma io_exits_hugo_new (P : Z -> Prop) (rel : pystr) : io_exits P (hugo_new hugo rel).
Proof.
  intros w. unfold hugo_new. pose proof (hugo_no_exit rel (w_fs w)) as Hh.
  destruct (hugo rel (w_fs w)) as [[rc fs']|e]; [by destruct (rc =? 0)%Z|]. by apply (exit_ok_Err (A:=Z * fsys)).
Qed.

Lemma io_exits_fetch (P : Z -> Prop) (doi : pystr) : P 2%Z -> io_exits P (fetch_openalex_by_doi http_get doi).
Proof.
  intros H2. unfold fetch_openalex_by_doi.
  apply io_exits_lift_bind; [apply no_exit_openalex_url|intros url _].
  apply io_exits_lift_bind; [apply http_no_exit|intros [status json] Hr]. cbn iota beta.
  destruct (status =? 404)%Z; [io_exits_tac|]. destruct (_ && _)%Z; [io_exits_tac|].
  apply io_exits_lift. by eapply json_no_exit.
Qed.

Lemma io_exits_update (P : Z -> Prop) (path t : pystr) (m : mapped_fields) :
  io_exits P (update_front_matter yaml_load yaml_dump now path t m).
Proof.
  intros w. unfold update_front_matter.
  pose proof (no_exit_read_front_matter yaml_load yaml_no_exit path (w_fs w)) as Hr.
  destruct (read_front_matter _ _ _) as [[fm body]|e]; [|by apply (exit_ok_Err (A:=pyval * pystr))].
  pose proof (no_exit_patch fm t now m) as Hp.
  destruct (patch_front_matter _ _ _ _) as [fm'|e]; [|by apply (exit_ok_Err (A:=pyval))].
  unfold write_front_matter. pose proof (no_exit_write_chunks [] (front_matter_chunks yaml_dump fm' body)) as Hw.
  destruct (write_chunks _ _) as [bytes r]. by apply no_exit_exit_ok.
Qed.

#[local] Hint Resolve io_exits_hugo_new io_exits_fetch io_exits_update io_exits_lift
  no_exit_extract_doi no_exit_map_fields : exitdb.

(** [main] exits only through [sys.exit(2)] and [sys.exit(3)]. *)
Lemma io_exits_main (P : Z -> Prop) (root : pystr) (argv : list pystr) :
  P 2%Z -> P 3%Z -> io_exits P (main yaml_load yaml_dump root hugo http_get now argv).
Proof.
  intros H2 H3. unfold main.
  destruct argv as [|? [|? [|? [|? ?]]]]; io_exits_tac.
Qed.

Lemma io_exits_script (P : Z -> Prop) (importable : pystr -> bool) (cwd file : pystr) (argv : list pystr) :
  P 1%Z -> P 2%Z -> P 3%Z ->
  io_exits P (script yaml_load yaml_dump hugo http_get now importable cwd file argv).
Proof.
  intros H1 H2 H3. unfold script, import_guard. apply io_exits_bind; [|intros _; by apply io_exits_main].
  io_exits_tac.
Qed.
End Run.

Lemma exit_code_range (r : result unit) : exit_ok (fun n => 1 <= n <= 3)%Z r -> (0 <= exit_code r <= 3)%Z.
Proof. destruct r as [|[]]; simpl; lia. Qed.

(** ** Theorem *)

(** C38: Every run of the script exits with status 0, 1, 2 or 3, when the
    YAML library, [hugo] and the HTTP client do not themselves call
    [sys.exit]: 1 for a missing library and for every uncaught exception
    (including a non-zero [hugo] exit or an HTTP error status, whose own
    codes are not passed on), 2 for a usage error or a 404, 3 for an
    existing page, 0 otherwise. *)
Theorem script_exit_status `{UnicodeDB} yaml_load yaml_dump hugo http_get now
    (importable : pystr -> bool) (cwd file : pystr) (argv : list pystr) (w : world) :
  (forall s, no_exit (yaml_load s)) -> (forall rel fs, no_exit (hugo rel fs)) ->
  (forall url, no_exit (http_get url)) -> (forall url st j, http_get url = Ok (st, j) -> no_exit j) ->
  (0 <= fst (run_script yaml_load yaml_dump hugo http_get now importable cwd file argv w) <= 3)%Z.
Proof.
  intros Hy Hh Hu Hj. unfold run_script.
  pose proof (io_exits_script yaml_load yaml_dump hugo http_get now Hy Hh Hu Hj
                (fun n => 1 <= n <= 3)%Z importable cwd file argv ltac:(cbv beta; lia) ltac:(cbv beta; lia) ltac:(cbv beta; lia) w) as Hw.
  destruct (script _ _ _ _ _ _ _ _ _ w) as [r w']. by apply exit_code_range.
Qed.

(** ** Witness *)

Lemma script_exit_status_witness :
  (0 <= fst (run_script ex_load ex_dump (ex_hugo ex_skel) (ex_http 500) (lit "now")
               (fun _ => true) ex_cwd ex_file ex_argv (ex_world ∅)) <= 3)%Z.
Proof.
  apply script_exit_status.
  - intros s n. unfold ex_load. by destruct (bool_decide _).
  - intros rel fs n. unfold ex_hugo. by destruct (fs !! _).
  - intros url n. discriminate.
  - intros url st j [= _ <-] n. discriminate.
Defined.
